(** * lambda_handler.py: scheduled MySQL dumps to S3 with tiered retention

    A shallow embedding of [src/lambda_handler.py].  The module keeps
    database dumps in an S3 bucket under keys of the shape
    [/{db_host}/{db_name}/{YYYY-MM-DD_HH:MM:SS}.{gz|sql}] and prunes them
    with two prefix-scoped passes ([delete_keys_last_weeks] and
    [delete_keys_last_months]) driven by [clean_up].

    Modelling conventions.
    - Python [str] is [string], holding the bytes of the text in UTF-8;
      keys are compared byte-wise.  Where Python looks at the class of a
      character (the decimal digits of [strptime] and [int], the white
      space of [str.strip]) the character is decoded and looked up in the
      tables of [Unicode].
    - Python [int] is [Z]; string indices are [Z] as well, so that
      [str.rfind] can return [-1] as it does in Python.
    - The S3 bucket is the list of its keys in the store's listing order;
      [objects.filter(Prefix=p)] keeps that order.
    - Effects (bucket, shell commands run, outgoing webhook calls) live in a
      [world]; a computation returns or raises together with the world it
      leaves behind.  Which external calls fail is part of the
      [environment]. *)

From Stdlib Require Import ZArith List String Ascii Bool Lia.
Import ListNotations.

Local Open Scope string_scope.
Local Open Scope Z_scope.

(** ** Characters

    The separators the module looks for ([/], [.], [_], [:], [-], [#]) are
    ASCII, and no byte of a longer UTF-8 character is an ASCII byte, so
    looking for them byte by byte finds what Python finds character by
    character.  A byte string that is not the UTF-8 form of a text stands
    for no [str]; what the functions below do on it is of no concern. *)

Module Unicode.

(** a number no character has: what a byte that cannot start a character
    decodes to *)
Definition invalid (b : N) : N := (1114112 + b)%N.

(** the code points of [s]; [need] counts the continuation bytes still
    missing from the character being read, [acc] holds its bits so far *)
Fixpoint decode_from (need : nat) (acc : N) (s : string) : list N :=
  match s with
  | EmptyString => []
  | String c s' =>
      let b := N_of_ascii c in
      match need with
      | O =>
          if (b <? 128)%N then b :: decode_from O 0%N s'
          else if (b <? 192)%N then invalid b :: decode_from O 0%N s'
          else if (b <? 224)%N then decode_from 1 (b - 192)%N s'
          else if (b <? 240)%N then decode_from 2 (b - 224)%N s'
          else decode_from 3 (b - 240)%N s'
      | S O => (acc * 64 + b mod 64)%N :: decode_from O 0%N s'
      | S n => decode_from n (acc * 64 + b mod 64)%N s'
      end
  end.

Definition decode (s : string) : list N := decode_from O 0%N s.

(** the number of bytes of the character that starts with byte [c] *)
Definition width (c : ascii) : nat :=
  let b := N_of_ascii c in
  if (b <? 192)%N then 1
  else if (b <? 224)%N then 2
  else if (b <? 240)%N then 3
  else 4.

(** the first [n] bytes of [s] and what follows them *)
Fixpoint split_at (n : nat) (s : string) : string * string :=
  match n with
  | O => (EmptyString, s)
  | S n' =>
      match s with
      | EmptyString => (EmptyString, EmptyString)
      | String c s' => let '(a, b) := split_at n' s' in (String c a, b)
      end
  end.

(** the first character of [s]: its code point, its bytes and what follows *)
Definition first_char (s : string) : option (N * string * string) :=
  match s with
  | EmptyString => None
  | String c _ =>
      let '(bytes, rest) := split_at (width c) s in
      match decode bytes with
      | [cp] => Some (cp, bytes, rest)
      | _ => None
      end
  end.

(** The characters of general category Nd in version 14.0.0 of the Unicode
    Character Database: each entry is the digit zero of a script, followed
    by its digits one to nine.  These are the characters the [\d] of [re]
    matches in a [str] pattern, and the digits [int] converts.  (An
    interpreter built on an older database lacks the scripts added since:
    3.7 has version 11.0.0.) *)
Definition DECIMAL_ZEROS : list N :=
  [48; 1632; 1776; 1984; 2406; 2534; 2662; 2790; 2918; 3046; 3174; 3302;
   3430; 3558; 3664; 3792; 3872; 4160; 4240; 6112; 6160; 6470; 6608; 6784;
   6800; 6992; 7088; 7232; 7248; 42528; 43216; 43264; 43472; 43504; 43600;
   44016; 65296; 66720; 68912; 69734; 69872; 69942; 70096; 70384; 70736;
   70864; 71248; 71360; 71472; 71904; 72016; 72784; 73040; 73120; 92768;
   92864; 93008; 120782; 120792; 120802; 120812; 120822; 123200; 123632;
   125264; 130032]%N.

Fixpoint decimal_in (zeros : list N) (cp : N) : option Z :=
  match zeros with
  | [] => None
  | z :: zs =>
      if ((z <=? cp) && (cp <? z + 10))%N then Some (Z.of_N (cp - z))
      else decimal_in zs cp
  end.

(** [unicodedata.decimal(chr(cp), None)] *)
Definition decimal (cp : N) : option Z := decimal_in DECIMAL_ZEROS cp.

(** [chr(cp).isdecimal()] *)
Definition isdecimal (cp : N) : bool :=
  match decimal cp with Some _ => true | None => false end.

(** The characters for which [str.isspace] holds. *)
Definition WHITESPACE : list N :=
  [9; 10; 11; 12; 13; 28; 29; 30; 31; 32; 133; 160; 5760; 8192; 8193; 8194;
   8195; 8196; 8197; 8198; 8199; 8200; 8201; 8202; 8232; 8233; 8239; 8287;
   12288]%N.

Definition isspace (cp : N) : bool := existsb (N.eqb cp) WHITESPACE.

End Unicode.

Definition quote : ascii := ascii_of_nat 34.
Definition apostrophe : ascii := ascii_of_nat 39.
Definition backslash : ascii := ascii_of_nat 92.

(** ** Python string primitives used by the module *)

Module Str.

(** [len(s)] *)
Definition len (s : string) : Z := Z.of_nat (String.length s).

(** [s[:i]] for [0 <= i] *)
Definition take (i : Z) (s : string) : string :=
  String.substring 0 (Z.to_nat i) s.

(** [s[i:]] for [0 <= i] *)
Definition drop (i : Z) (s : string) : string :=
  String.substring (Z.to_nat i) (String.length s - Z.to_nat i) s.

(** [s.rfind(c)] for a one-character separator: index of the last
    occurrence, [-1] when there is none. *)
Fixpoint rfind (c : ascii) (s : string) : Z :=
  match s with
  | EmptyString => -1
  | String a s' =>
      let r := rfind c s' in
      if 0 <=? r then r + 1
      else if Ascii.eqb a c then 0 else -1
  end.

(** [s.split(c)] for a one-character separator. *)
Fixpoint split (c : ascii) (s : string) : list string :=
  match s with
  | EmptyString => [EmptyString]
  | String a s' =>
      match split c s' with
      | [] => []
      | p :: ps => if Ascii.eqb a c then EmptyString :: p :: ps
                   else String a p :: ps
      end
  end.

(** [s.startswith(p)] *)
Definition startswith (p s : string) : bool := String.prefix p s.

(** [s.replace(old, '')]: every non-overlapping occurrence of [old],
    scanning from the left, is dropped.  [skip] counts the characters of a
    matched occurrence still to be dropped. *)
Fixpoint remove_all_from (old : string) (skip : nat) (s : string) : string :=
  match s with
  | EmptyString => EmptyString
  | String a s' =>
      match skip with
      | S k => remove_all_from old k s'
      | O =>
          if String.prefix old s
          then remove_all_from old (String.length old - 1) s'
          else String a (remove_all_from old O s')
      end
  end.

Definition replace_with_empty (old s : string) : string :=
  match old with
  | EmptyString => s
  | _ => remove_all_from old O s
  end.

(** every character of [s] differs from [c] *)
Fixpoint lacks (c : ascii) (s : string) : bool :=
  match s with
  | EmptyString => true
  | String a s' => negb (Ascii.eqb a c) && lacks c s'
  end.

(** [s.isspace()] or [s] is empty *)
Definition all_space (s : string) : bool :=
  forallb Unicode.isspace (Unicode.decode s).

(** [s.lstrip()]; [fuel] bounds the number of characters dropped *)
Fixpoint lstrip_from (fuel : nat) (s : string) : string :=
  match fuel with
  | O => s
  | S f =>
      match Unicode.first_char s with
      | Some (cp, _, rest) =>
          if Unicode.isspace cp then lstrip_from f rest else s
      | None => s
      end
  end.

Definition lstrip (s : string) : string := lstrip_from (String.length s) s.

(** [s.rstrip()]: the text ends where only white space follows *)
Fixpoint rstrip (s : string) : string :=
  match s with
  | EmptyString => EmptyString
  | String a s' => if all_space s then EmptyString else String a (rstrip s')
  end.

(** [s.strip()] *)
Definition strip (s : string) : string := rstrip (lstrip s).

(** [s[:-1]] *)
Fixpoint but_last (s : string) : string :=
  match s with
  | EmptyString => EmptyString
  | String a EmptyString => EmptyString
  | String a s' => String a (but_last s')
  end.

(** [s[-1:] == c] for a one-character [c] *)
Fixpoint ends_with (c : ascii) (s : string) : bool :=
  match s with
  | EmptyString => false
  | String a EmptyString => Ascii.eqb a c
  | String _ s' => ends_with c s'
  end.

Definition hex_digit (n : N) : ascii :=
  match String.get (N.to_nat n) "0123456789abcdef" with
  | Some c => c
  | None => "0"%char
  end.

(** one character of [repr(s)] between quotes [q]; only ASCII characters
    are escaped: a character outside ASCII is taken to be printable, as
    letters, digits and punctuation are *)
Definition repr_char (q : ascii) (c : ascii) : string :=
  let b := N_of_ascii c in
  if Ascii.eqb c q || Ascii.eqb c backslash
  then String backslash (String c EmptyString)
  else if (b =? 9)%N then String backslash "t"
  else if (b =? 10)%N then String backslash "n"
  else if (b =? 13)%N then String backslash "r"
  else if ((b <? 32) || (b =? 127))%N
  then String backslash
         (String "x" (String (hex_digit (b / 16))
                        (String (hex_digit (b mod 16)) EmptyString)))
  else String c EmptyString.

Fixpoint repr_body (q : ascii) (s : string) : string :=
  match s with
  | EmptyString => EmptyString
  | String c s' => repr_char q c ++ repr_body q s'
  end.

(** [repr(s)]: in apostrophes, or in double quotes when [s] holds an
    apostrophe and no double quote *)
Definition repr (s : string) : string :=
  let q := if negb (lacks apostrophe s) && lacks quote s
           then quote else apostrophe in
  String q (repr_body q s ++ String q EmptyString).

End Str.

(** ** [os.path] (posixpath) *)

Module OsPath.

Definition sep : ascii := "/"%char.
Definition extsep : ascii := "."%char.

(** [rstrip(sep)] *)
Fixpoint rstrip_sep (s : string) : string :=
  match s with
  | EmptyString => EmptyString
  | String a s' =>
      match rstrip_sep s' with
      | EmptyString => if Ascii.eqb a sep then EmptyString else String a EmptyString
      | r => String a r
      end
  end.

Fixpoint all_char (c : ascii) (s : string) : bool :=
  match s with
  | EmptyString => true
  | String a s' => Ascii.eqb a c && all_char c s'
  end.

(** [posixpath.split]: [i = p.rfind('/') + 1; head, tail = p[:i], p[i:]];
    a head that is not made of slashes only loses its trailing slashes. *)
Definition split (p : string) : string * string :=
  let i := Str.rfind sep p + 1 in
  let head := Str.take i p in
  let tail := Str.drop i p in
  let head := if all_char sep head then head else rstrip_sep head in
  (head, tail).

(** [genericpath._splitext]: the extension starts at the last dot of the
    last path component, unless that component has only dots before it. *)
Definition splitext (p : string) : string * string :=
  let sepIndex := Str.rfind sep p in
  let dotIndex := Str.rfind extsep p in
  if sepIndex <? dotIndex then
    let leading := Str.take (dotIndex - (sepIndex + 1)) (Str.drop (sepIndex + 1) p) in
    if all_char extsep leading then (p, EmptyString)
    else (Str.take dotIndex p, Str.drop dotIndex p)
  else (p, EmptyString).

(** [os.path.dirname] *)
Definition dirname (p : string) : string := fst (split p).

End OsPath.

(** ** [datetime.date]: the proleptic Gregorian calendar of Python's
    [datetime] module *)

Module Date.

Record date := mkdate { year : Z; month : Z; day : Z }.

Definition MINYEAR : Z := 1.
Definition MAXYEAR : Z := 9999.
Definition MAXORDINAL : Z := 3652059.

Definition is_leap (y : Z) : bool :=
  (y mod 4 =? 0) && (negb (y mod 100 =? 0) || (y mod 400 =? 0)).

Definition DAYS_IN_MONTH : list Z :=
  [-1; 31; 28; 31; 30; 31; 30; 31; 31; 30; 31; 30; 31].

Definition DAYS_BEFORE_MONTH : list Z :=
  [-1; 0; 31; 59; 90; 120; 151; 181; 212; 243; 273; 304; 334].

Definition index (l : list Z) (i : Z) : Z := nth (Z.to_nat i) l 0.

Definition days_before_year (y : Z) : Z :=
  let y := y - 1 in
  y * 365 + y / 4 - y / 100 + y / 400.

Definition days_in_month (y m : Z) : Z :=
  if (m =? 2) && is_leap y then 29 else index DAYS_IN_MONTH m.

Definition days_before_month (y m : Z) : Z :=
  index DAYS_BEFORE_MONTH m + (if (2 <? m) && is_leap y then 1 else 0).

Definition ymd2ord (y m d : Z) : Z :=
  days_before_year y + days_before_month y m + d.

Definition DI400Y : Z := Eval cbv in days_before_year 401.
Definition DI100Y : Z := Eval cbv in days_before_year 101.
Definition DI4Y : Z := Eval cbv in days_before_year 5.

Definition ord2ymd (n : Z) : date :=
  let n := n - 1 in
  let n400 := n / DI400Y in
  let n := n mod DI400Y in
  let y := n400 * 400 + 1 in
  let n100 := n / DI100Y in
  let n := n mod DI100Y in
  let n4 := n / DI4Y in
  let n := n mod DI4Y in
  let n1 := n / 365 in
  let n := n mod 365 in
  let y := y + n100 * 100 + n4 * 4 + n1 in
  if (n1 =? 4) || (n100 =? 4) then mkdate (y - 1) 12 31
  else
    let leapyear := (n1 =? 3) && (negb (n4 =? 24) || (n100 =? 3)) in
    let m := Z.shiftr (n + 50) 5 in
    let preceding :=
      index DAYS_BEFORE_MONTH m + (if (2 <? m) && leapyear then 1 else 0) in
    if n <? preceding then
      let m := m - 1 in
      let preceding :=
        preceding
        - (index DAYS_IN_MONTH m + (if (m =? 2) && leapyear then 1 else 0)) in
      mkdate y m (n - preceding + 1)
    else mkdate y m (n - preceding + 1).

(** the check of the [date(year, month, day)] constructor *)
Definition valid (d : date) : bool :=
  (MINYEAR <=? year d) && (year d <=? MAXYEAR)
  && (1 <=? month d) && (month d <=? 12)
  && (1 <=? day d) && (day d <=? days_in_month (year d) (month d)).

Definition toordinal (d : date) : Z := ymd2ord (year d) (month d) (day d).

Definition fromordinal (n : Z) : date := ord2ymd n.

(** [date.weekday()]: Monday is 0 *)
Definition weekday (d : date) : Z := (toordinal d + 6) mod 7.

End Date.

(** ** [strptime] and [strftime] for the two formats the module uses *)

Module Strptime.

(** One regular-expression atom of [_strptime.TimeRE]: a literal character,
    a range of ASCII characters, or [\d], any decimal digit. *)
Inductive atom :=
| Chr (c : ascii)
| Rng (lo hi : ascii)
| Dec.

Definition digit : atom := Dec.

(** A format is a sequence of literal characters and named groups; a group
    is an ordered alternation of atom sequences. *)
Inductive item :=
| Literal (c : ascii)
| Group (alts : list (list atom)).

Definition re_Y : item := Group [[digit; digit; digit; digit]].
Definition re_m : item :=
  Group [[Chr "1"; Rng "0" "2"]; [Chr "0"; Rng "1" "9"]; [Rng "1" "9"]].
Definition re_d : item :=
  Group [[Chr "3"; Rng "0" "1"]; [Rng "1" "2"; digit]; [Chr "0"; Rng "1" "9"];
         [Rng "1" "9"]; [Chr " "; Rng "1" "9"]].
Definition re_H : item :=
  Group [[Chr "2"; Rng "0" "3"]; [Rng "0" "1"; digit]; [digit]].
Definition re_M : item := Group [[Rng "0" "5"; digit]; [digit]].
Definition re_S : item :=
  Group [[Chr "6"; Rng "0" "1"]; [Rng "0" "5"; digit]; [digit]].

(** ["%Y-%m-%d"] *)
Definition fmt_date : list item :=
  [re_Y; Literal "-"; re_m; Literal "-"; re_d].

(** ["%Y-%m-%d_%H:%M:%S"] *)
Definition fmt_datetime : list item :=
  fmt_date ++ [Literal "_"; re_H; Literal ":"; re_M; Literal ":"; re_S].

(** a literal or a range against one byte *)
Definition atom_matches (a : atom) (c : ascii) : bool :=
  match a with
  | Chr x => Ascii.eqb x c
  | Rng lo hi => (nat_of_ascii lo <=? nat_of_ascii c)%nat
                 && (nat_of_ascii c <=? nat_of_ascii hi)%nat
  | Dec => false
  end.

(** match one atom at the head of [s]: the matched text and the rest *)
Definition match_atom (a : atom) (s : string) : option (string * string) :=
  match a with
  | Dec =>
      match Unicode.first_char s with
      | Some (cp, bytes, rest) =>
          if Unicode.isdecimal cp then Some (bytes, rest) else None
      | None => None
      end
  | _ =>
      match s with
      | EmptyString => None
      | String c s' =>
          if atom_matches a c then Some (String c EmptyString, s') else None
      end
  end.

(** match one alternative at the head of [s]: the matched text and the rest *)
Fixpoint match_atoms (p : list atom) (s : string) : option (string * string) :=
  match p with
  | [] => Some (EmptyString, s)
  | a :: p' =>
      match match_atom a s with
      | Some (m1, s') =>
          match match_atoms p' s' with
          | Some (m, r) => Some (m1 ++ m, r)
          | None => None
          end
      | None => None
      end
  end.

Fixpoint first_some {A B : Type} (f : A -> option B) (l : list A) : option B :=
  match l with
  | [] => None
  | x :: l' => match f x with Some y => Some y | None => first_some f l' end
  end.

(** [re.match]: leftmost alternative first, backtracking into later
    alternatives when the rest of the format fails; returns the texts of
    the groups and the unconsumed input. *)
Fixpoint re_match (p : list item) (s : string) : option (list string * string) :=
  match p with
  | [] => Some ([], s)
  | Literal c :: p' =>
      match s with
      | EmptyString => None
      | String c' s' => if Ascii.eqb c c' then re_match p' s' else None
      end
  | Group alts :: p' =>
      first_some
        (fun alt =>
           match match_atoms alt s with
           | Some (m, r) =>
               match re_match p' r with
               | Some (caps, rest) => Some (m :: caps, rest)
               | None => None
               end
           | None => None
           end)
        alts
  end.

(** [int(text)] on the texts the groups can capture: decimal digits of any
    script, with the leading blank that [%d] allows skipped. *)
Definition int_from (acc : Z) (cps : list N) : Z :=
  fold_left
    (fun acc cp =>
       match Unicode.decimal cp with
       | Some v => acc * 10 + v
       | None => acc
       end)
    cps acc.

Definition int (s : string) : Z := int_from 0 (Unicode.decode s).

(** [datetime.strptime(text, "%Y-%m-%d").date()]; [None] stands for the
    [ValueError] raised on a mismatch, on unconverted trailing data or on
    a date that does not exist. *)
Definition strptime_date (text : string) : option Date.date :=
  match re_match fmt_date text with
  | Some ([Y; m; d], EmptyString) =>
      let dt := Date.mkdate (int Y) (int m) (int d) in
      if Date.valid dt then Some dt else None
  | _ => None
  end.

(** [datetime.strptime(text, "%Y-%m-%d_%H:%M:%S").date()] *)
Definition strptime_datetime_date (text : string) : option Date.date :=
  match re_match fmt_datetime text with
  | Some ([Y; m; d; _; _; sec], EmptyString) =>
      let dt := Date.mkdate (int Y) (int m) (int d) in
      if Date.valid dt && (int sec <=? 59) then Some dt else None
  | _ => None
  end.

(** The message of the [ValueError] that [strptime(text, format)] raises
    when it fails, [p] being the expression of [format]: the text does not
    match, text is left over, the date does not exist, or the second is a
    leap second. *)
Definition failure (p : list item) (format text : string) : string :=
  match re_match p text with
  | None =>
      "time data " ++ Str.repr text ++ " does not match format "
      ++ Str.repr format
  | Some (Y :: m :: d :: _, EmptyString) =>
      if int Y <? Date.MINYEAR then "year 0 is out of range"
      else if Date.valid (Date.mkdate (int Y) (int m) (int d))
      then "second must be in 0..59"
      else "day is out of range for month"
  | Some (_, rest) => "unconverted data remains: " ++ rest
  end.

End Strptime.

Module Strftime.

Definition digit_char (n : Z) : ascii := ascii_of_nat (Z.to_nat (48 + n)).

(** two decimal digits, zero padded: [%m], [%d], [%H], [%M], [%S] *)
Definition pad2 (n : Z) : string :=
  String (digit_char (n / 10)) (String (digit_char (n mod 10)) EmptyString).

(** decimal digits without padding; four digits are enough for a year *)
Fixpoint decimal (fuel : nat) (n : Z) : string :=
  match fuel with
  | O => EmptyString
  | S f =>
      if n <? 10 then String (digit_char n) EmptyString
      else decimal f (n / 10) ++ String (digit_char (n mod 10)) EmptyString
  end.

(** [%Y] as the C library of the Lambda runtime prints it: the year in
    decimal, which has four digits from year 1000 on. *)
Definition fmt_Y (y : Z) : string := decimal 4 y.

(** [d.strftime('%Y-%m-%d')] *)
Definition date_Ymd (d : Date.date) : string :=
  fmt_Y (Date.year d) ++ "-" ++ pad2 (Date.month d) ++ "-" ++ pad2 (Date.day d).

(** [d.strftime('%Y-%m-')] *)
Definition date_Ym_ (d : Date.date) : string :=
  fmt_Y (Date.year d) ++ "-" ++ pad2 (Date.month d) ++ "-".

Record clock := mkclock { hour : Z; minute : Z; second : Z }.

(** [t.strftime('%H:%M:%S')] *)
Definition time_HMS (t : clock) : string :=
  pad2 (hour t) ++ ":" ++ pad2 (minute t) ++ ":" ++ pad2 (second t).

(** [dt.strftime('%Y-%m-%d_%H:%M:%S')] *)
Definition datetime_Ymd_HMS (d : Date.date) (t : clock) : string :=
  date_Ymd d ++ "_" ++ time_HMS t.

End Strftime.

(** ** The world of one invocation *)

(** One entry of [DATABASE_LIST]: the connection details of a database. *)
Record db := mkdb {
  host : string;
  port : string;
  username : string;
  password : string;
  name : string;
  tables : list string
}.

(** The exceptions the modelled calls raise, each with its message; all of
    them are subclasses of [Exception]. *)
Inductive exn :=
| ValueError (msg : string)
| OverflowError (msg : string)
| OSError (msg : string)
| ClientError (msg : string)
| S3UploadFailedError (msg : string)
| URLError (msg : string).

Definition str_exn (e : exn) : string :=
  match e with
  | ValueError m | OverflowError m | OSError m
  | ClientError m | S3UploadFailedError m | URLError m => m
  end.

(** The JSON document [error_report] posts to the webhook. *)
Record report := mkreport {
  report_body : string;
  connectInfo : list (string * string)
}.

(** A [urllib.request.Request]: the address it goes to and its body. *)
Record request := mkrequest {
  full_url : string;
  data : report
}.

(** ** [urllib]: building a request *)

Module Urllib.

(** [urllib.parse.unwrap(url)]: white space, a pair of angle brackets and
    a leading [URL:] are dropped. *)
Definition unwrap (url : string) : string :=
  let url := Str.strip url in
  let url :=
    match url with
    | String "<" inner =>
        if Str.ends_with ">" inner then Str.strip (Str.but_last inner) else url
    | _ => url
    end in
  if Str.startswith "URL:" url then Str.strip (Str.drop 4 url) else url.

(** [urllib.parse.splittag(url)]: the text before the last [#], and the
    text after it when there is a [#] *)
Definition splittag (url : string) : string * option string :=
  let i := Str.rfind "#" url in
  if i <? 0 then (url, None)
  else (Str.take i url, Some (Str.drop (i + 1) url)).

(** [splittype(url)[0] is not None]: the expression [([^/:]+):] matches at
    the start of [url], that is, a colon comes after at least one character
    and before any slash.  [seen] tells that a character has been read. *)
Fixpoint type_from (seen : bool) (url : string) : bool :=
  match url with
  | EmptyString => false
  | String c url' =>
      if Ascii.eqb c ":" then seen
      else if Ascii.eqb c "/" then false
      else type_from true url'
  end.

Definition has_type (url : string) : bool := type_from false url.

(** [unwrap(url)] as the constructor of [Request] calls it, on [str(url)].
    [None] stands for an address that is not set: [str(None)] is the text
    [None]. *)
Definition address (url : option string) : string :=
  unwrap (match url with Some u => u | None => "None" end).

(** the address, its fragment set aside, has a scheme *)
Definition accepts (url : option string) : bool :=
  has_type (fst (splittag (address url))).

(** [Request(url, data=..., headers=...)]: the constructor unwraps the
    address, sets the fragment aside and raises [ValueError] when what is
    left has no scheme; the message shows the address with its fragment. *)
Definition Request (url : option string) (data : report) : exn + request :=
  let '(path, fragment) := splittag (address url) in
  let full_url :=
    match fragment with
    | Some (String c f) => path ++ "#" ++ String c f
    | _ => path
    end in
  if has_type path then inr (mkrequest full_url data)
  else inl (ValueError ("unknown url type: " ++ Str.repr full_url)).

End Urllib.

(** Module globals read from the environment, and the behaviour of the
    external collaborators during the invocation: which shell commands,
    uploads, deletes and webhook calls fail, and with what. *)
Record environment := mkenv {
  JANDI_API_URL : option string;
  TEMP_BASE_DIR : string;
  DATABASE_LIST : list db;
  BACKUP_DAYS_OF_THE_WEEK : string;
  (** [utc.localize(datetime.utcnow()).astimezone(KST)] *)
  local_time : Date.date * Strftime.clock;
  makedirs_error : string -> option exn;
  shell_error : string -> option exn;
  upload_error : string -> string -> option exn;
  delete_error : string -> option exn;
  (** [urlopen(request)]: the HTTP status of the response, or the error *)
  urlopen : request -> exn + Z
}.

Record world := mkworld {
  (** keys of the bucket, in listing order *)
  bucket : list string;
  (** shell commands run so far, latest first *)
  shell_log : list string;
  (** webhook calls attempted so far, latest first *)
  requests : list request
}.

Inductive outcome (A : Type) :=
| Return (a : A) (w : world)
| Raise (e : exn) (w : world).
Arguments Return {A} a w.
Arguments Raise {A} e w.

Definition M (A : Type) : Type := world -> outcome A.

Definition ret {A} (a : A) : M A := fun w => Return a w.
Definition raise {A} (e : exn) : M A := fun w => Raise e w.
Definition bind {A B} (m : M A) (k : A -> M B) : M B :=
  fun w => match m w with
           | Return a w' => k a w'
           | Raise e w' => Raise e w'
           end.

Notation "x <- m ;; k" := (bind m (fun x => k))
  (at level 61, m at next level, right associativity).
Notation "' pat <- m ;; k" := (bind m (fun x => match x with pat => k end))
  (at level 61, pat pattern, m at next level, right associativity).
Notation "m ;;; k" := (bind m (fun _ => k))
  (at level 61, right associativity).

(** the world an outcome leaves behind *)
Definition final {A} (o : outcome A) : world :=
  match o with Return _ w => w | Raise _ w => w end.

(** [for x in xs: body(x)] *)
Fixpoint for_each {A} (xs : list A) (body : A -> M unit) : M unit :=
  match xs with
  | [] => ret tt
  | x :: xs' => body x ;;; for_each xs' body
  end.

(** [try: body / except Exception as exc: handler(exc) / else: orelse] *)
Definition try_except_else {A B} (body : M A) (handler : exn -> M B)
    (orelse : A -> M B) : M B :=
  fun w => match body w with
           | Return a w' => orelse a w'
           | Raise e w' => handler e w'
           end.

(** [enumerate(xs)] *)
Fixpoint enumerate_from {A} (i : Z) (xs : list A) : list (Z * A) :=
  match xs with
  | [] => []
  | x :: xs' => (i, x) :: enumerate_from (i + 1) xs'
  end.

Definition enumerate {A} (xs : list A) : list (Z * A) := enumerate_from 0 xs.

(** [' '.join(parts)] *)
Fixpoint join_blank (parts : list string) : string :=
  match parts with
  | [] => EmptyString
  | [p] => p
  | p :: ps => p ++ " " ++ join_blank ps
  end.

(** [json.dumps(s)] for a string of printable ASCII characters: the text in
    double quotes, with quotes and backslashes escaped. *)
Fixpoint json_escape (s : string) : string :=
  match s with
  | EmptyString => EmptyString
  | String c s' =>
      if Ascii.eqb c quote || Ascii.eqb c backslash
      then String backslash (String c (json_escape s'))
      else String c (json_escape s')
  end.

Definition json_dumps (s : string) : string :=
  String quote (json_escape s ++ String quote EmptyString).

Definition PATH_TEMPLATE (base_dir db_host db_name file : string) : string :=
  base_dir ++ "/" ++ db_host ++ "/" ++ db_name ++ "/" ++ file.

Definition DAYS_OF_THE_WEEK : list string :=
  ["월"; "화"; "수"; "목"; "금"; "토"; "일"].

(** [date - timedelta(days=n)]; out of the supported range it raises. *)
Definition date_minus_days (d : Date.date) (n : Z) : M Date.date :=
  let o := Date.toordinal d - n in
  if (0 <? o) && (o <=? Date.MAXORDINAL) then ret (Date.fromordinal o)
  else raise (OverflowError "date value out of range").

(** The status object the handler returns. *)
Record response := mkresponse { statusCode : Z; body : string }.

(** ** The key parser of the retention pass *)

(** Lines 231-234 of [delete_keys_last_months]: the file name without its
    extension is split at the underscore into a date text and a time text,
    and the date text is parsed.  The directory part of the key and the
    extension are dropped.  A [ValueError] comes from the unpacking of the
    split or from [strptime]. *)
Definition parse_key (key : string) : exn + (string * string * Date.date) :=
  let '(_, filename_with_extension) := OsPath.split key in
  let '(filename, _) := OsPath.splitext filename_with_extension in
  match Str.split "_" filename with
  | [_date; time] =>
      match Strptime.strptime_date _date with
      | Some date => inr (_date, time, date)
      | None =>
          inl (ValueError (Strptime.failure Strptime.fmt_date "%Y-%m-%d" _date))
      end
  | [] | [_] =>
      inl (ValueError "not enough values to unpack (expected 2, got 1)")
  | _ => inl (ValueError "too many values to unpack (expected 2)")
  end.

(** [DAYS_OF_THE_WEEK[date.weekday()] == day_of_the_week] *)
Definition on_day_of_the_week (day_of_the_week : string) (date : Date.date)
  : bool :=
  String.eqb (nth (Z.to_nat (Date.weekday date)) DAYS_OF_THE_WEEK EmptyString)
             day_of_the_week.

(** a pure step inside a computation: its error is raised *)
Definition lift {A} (r : exn + A) : M A :=
  match r with
  | inl e => raise e
  | inr a => ret a
  end.

(** ** The program *)

Section Program.

Variable E : environment.

(** *** External calls *)

(** [os.makedirs(path, exist_ok=True)] *)
Definition makedirs (path : string) : M unit :=
  match makedirs_error E path with
  | Some e => raise e
  | None => ret tt
  end.

(** [subprocess.run(command, shell=True)]: the exit status of the command
    is not looked at. *)
Definition subprocess_run (command : string) : M unit :=
  fun w =>
    let w' := mkworld (bucket w) (command :: shell_log w) (requests w) in
    match shell_error E command with
    | Some e => Raise e w'
    | None => Return tt w'
    end.

(** the position S3 lists a new key at: keys come back in byte order *)
Fixpoint insert_key (k : string) (keys : list string) : list string :=
  match keys with
  | [] => [k]
  | k' :: keys' =>
      if String.eqb k k' then keys
      else if String.ltb k k' then k :: keys
      else k' :: insert_key k keys'
  end.

(** [s3_client.upload_file(Bucket=BUCKET_NAME, Filename=..., Key=...)] *)
Definition upload_file (filename key : string) : M unit :=
  fun w =>
    match upload_error E filename key with
    | Some e => Raise e w
    | None =>
        Return tt (mkworld (insert_key key (bucket w)) (shell_log w) (requests w))
    end.

(** [s3_bucket.objects.filter(Prefix=prefix)]: the keys with that prefix,
    as listed when the loop starts *)
Definition objects_filter (prefix : string) : M (list string) :=
  fun w => Return (filter (Str.startswith prefix) (bucket w)) w.

Definition remove_key (k : string) (keys : list string) : list string :=
  filter (fun k' => negb (String.eqb k k')) keys.

(** [file_object.delete()]: the key is gone afterwards, unless the call
    raises *)
Definition delete (key : string) : M unit :=
  fun w =>
    match delete_error E key with
    | Some e => Raise e w
    | None =>
        Return tt (mkworld (remove_key key (bucket w)) (shell_log w) (requests w))
    end.

(** *** [error_report] *)

(** [urlopen(request)]: the call is made, and its status or its error comes
    back *)
Definition urlopen_call (request : request) : M Z :=
  fun w =>
    let w' := mkworld (bucket w) (shell_log w) (request :: requests w) in
    match urlopen E request with
    | inl e => Raise e w'
    | inr code => Return code w'
    end.

(** The request is built before anything is sent: when [JANDI_API_URL] is
    not set, or has no scheme, [Request] raises and [urlopen] is not
    reached. *)
Definition error_report (body : string) (messages : list (string * string))
  : M Z :=
  let data := mkreport body messages in
  request <- lift (Urllib.Request (JANDI_API_URL E) data) ;;
  urlopen_call request.

(** *** [get_now] *)

Definition get_now : string :=
  Strftime.datetime_Ymd_HMS (fst (local_time E)) (snd (local_time E)).

(** *** [save_file_to_local] *)

Definition save_file_to_local (d : db) (now : string) (compress : bool)
  : M string :=
  let exp := if compress then "gz" else "sql" in
  let tables_string := join_blank (tables d) in
  let target_db_string :=
    "-h " ++ host d ++ " --port " ++ port d ++ " -u " ++ username d
    ++ " -p" ++ password d ++ " " ++ name d ++ " " ++ tables_string in
  let target_local_path :=
    PATH_TEMPLATE (TEMP_BASE_DIR E) (host d) (name d) (now ++ "." ++ exp) in
  makedirs (OsPath.dirname target_local_path) ;;;
  let mysqldump_string :=
    "/opt/bin/mysqldump --single-transaction " ++ target_db_string in
  let command :=
    if compress
    then mysqldump_string ++ " | gzip -9 > " ++ target_local_path ++ ";"
    else mysqldump_string ++ " > " ++ target_local_path ++ ";" in
  subprocess_run command ;;;
  ret target_local_path.

(** *** [backup] *)

Definition backup (now : string) : M bool :=
  for_each (DATABASE_LIST E)
    (fun d =>
       local_path <- save_file_to_local d now true ;;
       let s3_path := Str.replace_with_empty (TEMP_BASE_DIR E) local_path in
       upload_file local_path s3_path ;;;
       subprocess_run ("rm -rf " ++ TEMP_BASE_DIR E ++ "/*")) ;;;
  ret true.

(** *** [clean_up] and its two passes *)

(** [hour is 0] holds for the first index of [enumerate] only. *)
Definition delete_keys_last_weeks (filename_prefix : string) (d : db)
  : M bool :=
  let prefix := PATH_TEMPLATE "" (host d) (name d) filename_prefix in
  file_objects <- objects_filter prefix ;;
  for_each (enumerate file_objects)
    (fun '(hour, file_object) =>
       if hour =? 0 then ret tt
       else delete file_object) ;;;
  ret true.

Definition delete_keys_last_months_body (day_of_the_week : string)
    (file_object : string) : M unit :=
  '(_date, time, date) <- lift (parse_key file_object) ;;
  if on_day_of_the_week day_of_the_week date
  then ret tt
  else delete file_object.

Definition delete_keys_last_months (filename_prefix : string) (d : db)
    (day_of_the_week : string) : M bool :=
  let prefix := PATH_TEMPLATE "" (host d) (name d) filename_prefix in
  file_objects <- objects_filter prefix ;;
  for_each file_objects (delete_keys_last_months_body day_of_the_week) ;;;
  ret true.

(** [datetime.strptime(now, '%Y-%m-%d_%H:%M:%S').date()] *)
Definition strptime_now (now : string) : M Date.date :=
  match Strptime.strptime_datetime_date now with
  | Some dt => ret dt
  | None =>
      raise (ValueError (Strptime.failure Strptime.fmt_datetime
                           "%Y-%m-%d_%H:%M:%S" now))
  end.

(** the two filename prefixes [clean_up] computes from [now] *)
Definition prefixes (now : string) : M (string * string) :=
  now_object <- strptime_now now ;;
  a_weeks_ago <- date_minus_days now_object (1 * 7) ;;
  a_month_ago <- date_minus_days now_object (4 * 7) ;;
  let weeks_prefix := Strftime.date_Ymd a_weeks_ago in
  let month_prefix := Strftime.date_Ym_ a_month_ago in
  ret (weeks_prefix, month_prefix).

Definition clean_up (now : string) : M bool :=
  '(weeks_prefix, month_prefix) <- prefixes now ;;
  for_each (DATABASE_LIST E)
    (fun d =>
       delete_keys_last_weeks weeks_prefix d ;;;
       delete_keys_last_months month_prefix d (BACKUP_DAYS_OF_THE_WEEK E) ;;;
       ret tt) ;;;
  ret true.

(** *** [lambda_handler] *)

Definition lambda_handler (event context : string) : M response :=
  let now := get_now in
  try_except_else
    (is_uploaded <- backup now ;;
     is_cleaned <- clean_up now ;;
     ret (is_uploaded, is_cleaned))
    (fun exc =>
       error_report "DB 백업관리 실패"
         [("now", now); ("exc", str_exn exc);
          ("event", event); ("context", context)] ;;;
       raise exc)
    (fun _ => ret (mkresponse 200 (json_dumps "success"))).

End Program.


(** ** Sample configurations used by the concrete runs below *)

Definition sample_db : db := mkdb "h" "3306" "u" "p" "n" [].

(** one database, Sunday as the designated weekday, no external failure *)
Definition calm (today : Date.date) : environment :=
  mkenv None "/tmp" [sample_db] "일" (today, Strftime.mkclock 2 0 0)
        (fun _ => None) (fun _ => None) (fun _ _ => None) (fun _ => None)
        (fun _ => inr 200).

(** as [calm], but deleting [bad] fails *)
Definition delete_fails_on (bad : string) (today : Date.date) : environment :=
  mkenv None "/tmp" [sample_db] "일" (today, Strftime.mkclock 2 0 0)
        (fun _ => None) (fun _ => None) (fun _ _ => None)
        (fun k => if String.eqb k bad
                  then Some (ClientError "AccessDenied") else None)
        (fun _ => inr 200).

(** as [calm], but every upload fails; the webhook address is not set, and
    a call would fail *)
Definition upload_and_webhook_fail (today : Date.date) : environment :=
  mkenv None "/tmp" [sample_db] "일" (today, Strftime.mkclock 2 0 0)
        (fun _ => None) (fun _ => None)
        (fun _ _ => Some (S3UploadFailedError "upload failed"))
        (fun _ => None)
        (fun _ => inl (URLError "unknown url type")).

(** every upload fails; the webhook address is set, and the call to it
    fails *)
Definition webhook_down (today : Date.date) : environment :=
  mkenv (Some "https://wh.jandi.com/connect-api/webhook/1/abc") "/tmp"
        [sample_db] "일" (today, Strftime.mkclock 2 0 0)
        (fun _ => None) (fun _ => None)
        (fun _ _ => Some (S3UploadFailedError "upload failed"))
        (fun _ => None)
        (fun _ => inl (URLError "<urlopen error timed out>")).

(** a world whose bucket holds [keys] and in which nothing has run yet *)
Definition stored (keys : list string) : world := mkworld keys [] [].

(** ** Key classification used in the statements *)

(** [k] is listed by [objects.filter] for database [d] and filename prefix
    [p]: it starts with [PATH_TEMPLATE.format(base_dir='', ..., file=p)]. *)
Definition listed (d : db) (p : string) (k : string) : bool :=
  Str.startswith (PATH_TEMPLATE "" (host d) (name d) p) k.

(** the weekday parsed from the date in [k] is the designated one: the
    tier-3 loop body parses [k] and passes it over *)
Definition designated (day_of_the_week : string) (k : string) : bool :=
  match parse_key k with
  | inr (_, _, date) => on_day_of_the_week day_of_the_week date
  | inl _ => false
  end.

(** the tier-3 loop body parses [k] and deletes it *)
Definition condemned (day_of_the_week : string) (k : string) : bool :=
  match parse_key k with
  | inr (_, _, date) => negb (on_day_of_the_week day_of_the_week date)
  | inl _ => false
  end.

(** the keys one run of [clean_up] may delete *)
Definition in_scope (E : environment) (weeks_prefix month_prefix : string)
    (k : string) : bool :=
  existsb (fun d => listed d weeks_prefix k
                    || (listed d month_prefix k
                        && condemned (BACKUP_DAYS_OF_THE_WEEK E) k))
          (DATABASE_LIST E).

(** [w'] holds no key that [w] does not hold *)
Definition shrinks (w w' : world) : Prop :=
  forall k, In k (bucket w') -> In k (bucket w).

(** a computation that deletes nothing outside [P] and adds nothing *)
Definition deletes_within {A} (P : string -> bool) (m : M A) : Prop :=
  forall w,
    shrinks w (final (m w))
    /\ (forall k, In k (bucket w) -> P k = false -> In k (bucket (final (m w)))).

(** [k] is one of [keys] *)
Definition among (keys : list string) (k : string) : bool :=
  existsb (String.eqb k) keys.

(** a computation whose exceptions all satisfy [Q] *)
Definition raises_only {A} (Q : exn -> Prop) (m : M A) : Prop :=
  forall w e w', m w = Raise e w' -> Q e.

Definition is_ValueError (e : exn) : Prop := exists msg, e = ValueError msg.

(** ** Notions used in the statements about the other functions *)

(** [old] occurs somewhere in [s] *)
Fixpoint occurs (old s : string) : bool :=
  match s with
  | EmptyString => String.prefix old EmptyString
  | String _ s' => String.prefix old s || occurs old s'
  end.

(** the local file [save_file_to_local] writes the compressed dump of [d]
    to *)
Definition local_path_of (E : environment) (d : db) (now : string) : string :=
  PATH_TEMPLATE (TEMP_BASE_DIR E) (host d) (name d) (now ++ "." ++ "gz").

(** the key [backup] uploads that file under *)
Definition s3_key_of (E : environment) (d : db) (now : string) : string :=
  Str.replace_with_empty (TEMP_BASE_DIR E) (local_path_of E d now).

(** the shell command [save_file_to_local] runs for a compressed dump *)
Definition dump_command (E : environment) (d : db) (now : string) : string :=
  ("/opt/bin/mysqldump --single-transaction "
   ++ ("-h " ++ host d ++ " --port " ++ port d ++ " -u " ++ username d
       ++ " -p" ++ password d ++ " " ++ name d ++ " " ++ join_blank (tables d)))
  ++ " | gzip -9 > " ++ local_path_of E d now ++ ";".

(** the shell command [backup] clears the staging directory with *)
Definition clear_command (E : environment) : string :=
  "rm -rf " ++ TEMP_BASE_DIR E ++ "/*".

(** [w'] is [w] with some keys removed: the keys left are in the same
    order, and no shell command or webhook call has been added *)
Definition pruned (w w' : world) : Prop :=
  (exists keep, bucket w' = filter keep (bucket w))
  /\ shell_log w' = shell_log w
  /\ requests w' = requests w.

(** a computation that only removes keys *)
Definition prunes {A} (m : M A) : Prop :=
  forall w, pruned w (final (m w)).

(** the time of day is one a clock shows *)
Definition clock_ok (t : Strftime.clock) : Prop :=
  0 <= Strftime.hour t <= 23 /\ 0 <= Strftime.minute t <= 59
  /\ 0 <= Strftime.second t <= 59.

(** a computation that removes no key, adds keys inside [P] only and makes
    no webhook call *)
Definition grows_within {A} (P : string -> Prop) (m : M A) : Prop :=
  forall w,
    (forall k, In k (bucket w) -> In k (bucket (final (m w))))
    /\ (forall k, In k (bucket (final (m w))) -> In k (bucket w) \/ P k)
    /\ requests (final (m w)) = requests w.

(** the world after the dumps of [dbs] were uploaded and the staging
    directory cleared after each: keys inserted, commands logged latest
    first *)
Definition after_backup_of (E : environment) (now : string) (dbs : list db)
    (w : world) : world :=
  mkworld
    (fold_left (fun keys d => insert_key (s3_key_of E d now) keys) dbs (bucket w))
    (fold_left (fun log d => clear_command E :: dump_command E d now :: log)
               dbs (shell_log w))
    (requests w).

(** what [backup] does for one database: directory, dump, upload, clearing
    of the staging directory *)
Definition backup_one (E : environment) (now : string) (d : db) : M unit :=
  makedirs E (OsPath.dirname (local_path_of E d now)) ;;;
  subprocess_run E (dump_command E d now) ;;;
  upload_file E (local_path_of E d now) (s3_key_of E d now) ;;;
  subprocess_run E (clear_command E).

(** * Properties *)

(** ** The monad and the loop combinator *)

Lemma bind_Return {A B} (m : M A) (k : A -> M B) w b w' :
  bind m k w = Return b w' ->
  exists a w1, m w = Return a w1 /\ k a w1 = Return b w'.
Proof.
  unfold bind. destruct (m w) as [a w1|e w1]; intros H; [eauto|discriminate].
Qed.

Lemma bind_Raise_first {A B} (m : M A) (k : A -> M B) w e w' :
  m w = Raise e w' -> bind m k w = Raise e w'.
Proof. unfold bind. intros ->. reflexivity. Qed.

Lemma bind_step {A B} (m : M A) (k : A -> M B) w a w1 :
  m w = Return a w1 -> bind m k w = k a w1.
Proof. unfold bind. intros ->. reflexivity. Qed.

Lemma for_each_app {A} (xs ys : list A) (body : A -> M unit) w :
  for_each (xs ++ ys) body w
  = (for_each xs body ;;; for_each ys body) w.
Proof.
  revert w. induction xs as [|x xs IH]; intros w; simpl.
  - reflexivity.
  - unfold bind. destruct (body x w) as [[] w1|e w1]; [|reflexivity].
    rewrite IH. reflexivity.
Qed.

(** a loop that returns has run its body to completion on every element *)
Lemma for_each_Return_In {A} (xs : list A) (body : A -> M unit) w w' x :
  (forall y v, shrinks v (final (body y v))) ->
  for_each xs body w = Return tt w' ->
  In x xs ->
  exists w1 w2,
    shrinks w w1 /\ body x w1 = Return tt w2 /\ shrinks w2 w'.
Proof.
  intros Hs. revert w. induction xs as [|y xs IH]; intros w Hrun Hin.
  - destruct Hin.
  - simpl in Hrun. apply bind_Return in Hrun as ([] & w1 & Hy & Hrest).
    destruct Hin as [->|Hin].
    + exists w, w1. split; [intros k Hk; exact Hk|]. split; [exact Hy|].
      clear -Hs Hrest. revert w1 Hrest.
      induction xs as [|z xs IH]; intros w1 Hrest; simpl in Hrest.
      * injection Hrest as <-. intros k Hk; exact Hk.
      * apply bind_Return in Hrest as ([] & w2 & Hz & Hrest).
        intros k Hk. apply (IH _ Hrest) in Hk.
        pose proof (Hs z w1) as Hzs. rewrite Hz in Hzs. apply Hzs, Hk.
    + destruct (IH _ Hrest Hin) as (v1 & v2 & H1 & H2 & H3).
      exists v1, v2. split; [|split; assumption].
      intros k Hk. apply H1 in Hk.
      pose proof (Hs y w) as Hys. rewrite Hy in Hys. apply Hys, Hk.
Qed.

(** ** Deleting only inside a set of keys *)

Lemma shrinks_refl w : shrinks w w.
Proof. intros k Hk; exact Hk. Qed.

Lemma shrinks_trans w1 w2 w3 : shrinks w1 w2 -> shrinks w2 w3 -> shrinks w1 w3.
Proof. intros H12 H23 k Hk. apply H12, H23, Hk. Qed.

Lemma deletes_within_ret {A} P (a : A) : deletes_within P (ret a).
Proof. intros w; simpl; split; [apply shrinks_refl|auto]. Qed.

Lemma deletes_within_raise {A} P e : deletes_within P (@raise A e).
Proof. intros w; simpl; split; [apply shrinks_refl|auto]. Qed.

Lemma deletes_within_lift {A} P (r : exn + A) : deletes_within P (lift r).
Proof.
  destruct r; [apply deletes_within_raise|apply deletes_within_ret].
Qed.

Lemma deletes_within_bind {A B} P (m : M A) (k : A -> M B) :
  deletes_within P m -> (forall a, deletes_within P (k a)) ->
  deletes_within P (bind m k).
Proof.
  intros Hm Hk w. unfold bind. specialize (Hm w).
  destruct (m w) as [a w1|e w1]; simpl in Hm; [|exact Hm].
  destruct Hm as [Hs Hf]. destruct (Hk a w1) as [Hs' Hf']. split.
  - eapply shrinks_trans; eassumption.
  - intros key Hin HP. apply Hf'; [apply Hf|]; assumption.
Qed.

Lemma deletes_within_for_each {A} P (xs : list A) (body : A -> M unit) :
  (forall x, In x xs -> deletes_within P (body x)) ->
  deletes_within P (for_each xs body).
Proof.
  induction xs as [|x xs IH]; intros H; simpl.
  - apply deletes_within_ret.
  - apply deletes_within_bind; [apply H; left; reflexivity|].
    intros _. apply IH. intros y Hy. apply H. right; exact Hy.
Qed.

Lemma deletes_within_weaken {A} (P Q : string -> bool) (m : M A) :
  (forall k, P k = true -> Q k = true) ->
  deletes_within P m -> deletes_within Q m.
Proof.
  intros HPQ Hm w. destruct (Hm w) as [Hs Hf]. split; [exact Hs|].
  intros k Hin HQ. apply Hf; [exact Hin|].
  destruct (P k) eqn:HP; [|reflexivity]. rewrite (HPQ _ HP) in HQ. discriminate.
Qed.

Lemma In_remove_key k x keys :
  In x (remove_key k keys) <-> In x keys /\ x <> k.
Proof.
  unfold remove_key. rewrite filter_In. split; intros [H1 H2]; split; auto.
  - intros ->. rewrite String.eqb_refl in H2. discriminate.
  - destruct (String.eqb_spec k x) as [->|]; [contradiction|reflexivity].
Qed.

Lemma deletes_within_delete E P key :
  P key = true -> deletes_within P (delete E key).
Proof.
  intros HP w. unfold delete.
  destruct (delete_error E key); simpl; split; try apply shrinks_refl; auto.
  - intros k Hk; simpl in Hk. apply In_remove_key in Hk. tauto.
  - intros k Hin HPk. apply In_remove_key. split; [exact Hin|].
    intros ->. congruence.
Qed.

(** ** Strings *)

Lemma append_assoc (a b c : string) : (a ++ b) ++ c = a ++ (b ++ c).
Proof. induction a as [|x a IH]; simpl; [reflexivity|now rewrite IH]. Qed.

Lemma append_empty_r (a : string) : a ++ "" = a.
Proof. induction a as [|x a IH]; simpl; [reflexivity|now rewrite IH]. Qed.

Lemma length_append (a b : string) :
  String.length (a ++ b) = (String.length a + String.length b)%nat.
Proof. induction a as [|x a IH]; simpl; [reflexivity|now rewrite IH]. Qed.

(** ** Listings *)

Lemma prefix_app_iff (a p k : string) :
  String.prefix (a ++ p) k = true <->
  exists f, k = a ++ f /\ String.prefix p f = true.
Proof.
  revert k. induction a as [|c a IH]; intros k; simpl.
  - split; [intros H; exists k; auto|intros (f & -> & H); exact H].
  - destruct k as [|c' k]; simpl.
    + split; [discriminate|intros (f & Hf & _); discriminate].
    + destruct (Ascii.ascii_dec c c') as [->|Hne].
      * rewrite IH. split; intros (f & Hk & Hp); exists f; split; auto.
        -- now rewrite Hk.
        -- now injection Hk.
      * split; [discriminate|intros (f & Hf & _); congruence].
Qed.

(** a key is listed for [(d, p)] exactly when it is the key of a file of
    [d] whose name starts with [p] *)
Lemma listed_iff d p k :
  listed d p k = true <->
  exists file, k = PATH_TEMPLATE "" (host d) (name d) file
               /\ Str.startswith p file = true.
Proof.
  unfold listed, Str.startswith, PATH_TEMPLATE.
  replace ("" ++ "/" ++ host d ++ "/" ++ name d ++ "/" ++ p)
    with (("/" ++ host d ++ "/" ++ name d ++ "/") ++ p).
  - rewrite prefix_app_iff. split; intros (f & Hk & Hp); exists f; split; auto.
    + rewrite Hk. simpl. repeat (rewrite append_assoc; simpl). reflexivity.
    + rewrite Hk. simpl. repeat (rewrite append_assoc; simpl). reflexivity.
  - simpl. repeat (rewrite append_assoc; simpl). reflexivity.
Qed.

Lemma In_enumerate_from {A} (xs : list A) i j x :
  In (j, x) (enumerate_from i xs) -> In x xs.
Proof.
  revert i. induction xs as [|y xs IH]; intros i; simpl; [tauto|].
  intros [H|H]; [injection H as _ ->; auto|right; eapply IH, H].
Qed.

(** ** What the two passes may delete *)

Lemma objects_filter_bind {B} prefix (k : list string -> M B) w :
  bind (objects_filter prefix) k w
  = k (filter (Str.startswith prefix) (bucket w)) w.
Proof. reflexivity. Qed.

Lemma weeks_deletes_within E fp d :
  deletes_within (listed d fp) (delete_keys_last_weeks E fp d).
Proof.
  intros w. unfold delete_keys_last_weeks. rewrite objects_filter_bind.
  refine (deletes_within_bind _ _ _ _ _ w); [|intros; apply deletes_within_ret].
  apply deletes_within_for_each. intros [hour k] Hin.
  destruct (hour =? 0); [apply deletes_within_ret|].
  apply deletes_within_delete.
  apply In_enumerate_from, filter_In in Hin. apply Hin.
Qed.

Lemma months_body_deletes_within E dow (P : string -> bool) k :
  (condemned dow k = true -> P k = true) ->
  deletes_within P (delete_keys_last_months_body E dow k).
Proof.
  intros HP. unfold delete_keys_last_months_body, condemned in *.
  destruct (parse_key k) as [e|[[_date time] date]]; simpl.
  - intros w; simpl; split; [apply shrinks_refl|auto].
  - intros w. unfold bind, ret.
    destruct (on_day_of_the_week dow date).
    + apply (deletes_within_ret P tt w).
    + apply (deletes_within_delete E P k (HP eq_refl) w).
Qed.

Lemma months_deletes_within E fp d dow :
  deletes_within (fun k => listed d fp k && condemned dow k)
                 (delete_keys_last_months E fp d dow).
Proof.
  intros w. unfold delete_keys_last_months. rewrite objects_filter_bind.
  refine (deletes_within_bind _ _ _ _ _ w); [|intros; apply deletes_within_ret].
  apply deletes_within_for_each. intros k Hin.
  apply months_body_deletes_within. intros Hc.
  apply filter_In in Hin. unfold listed. destruct Hin as [_ ->]. exact Hc.
Qed.

(** the two passes run for one database *)
Lemma per_db_deletes_within E wp mp d :
  In d (DATABASE_LIST E) ->
  deletes_within (in_scope E wp mp)
    (delete_keys_last_weeks E wp d ;;;
     delete_keys_last_months E mp d (BACKUP_DAYS_OF_THE_WEEK E) ;;;
     ret tt).
Proof.
  intros Hd.
  assert (Hsub : forall k,
    (listed d wp k || (listed d mp k && condemned (BACKUP_DAYS_OF_THE_WEEK E) k))
      = true -> in_scope E wp mp k = true).
  { intros k Hk. unfold in_scope. apply existsb_exists. exists d. auto. }
  apply deletes_within_bind.
  - eapply deletes_within_weaken; [|apply weeks_deletes_within].
    intros k Hk. apply Hsub. rewrite Hk. reflexivity.
  - intros _. apply deletes_within_bind; [|intros; apply deletes_within_ret].
    eapply deletes_within_weaken; [|apply months_deletes_within].
    intros k Hk. apply Hsub. simpl in Hk. rewrite Hk. apply orb_true_r.
Qed.

(** [prefixes] reads nothing from the world and leaves it as it is *)
Lemma prefixes_pure now :
  (exists p, forall v, prefixes now v = Return p v)
  \/ (exists e, forall v, prefixes now v = Raise e v).
Proof.
  unfold prefixes, strptime_now, date_minus_days, bind, ret, raise.
  destruct (Strptime.strptime_datetime_date now) as [dt|]; [|right; eauto].
  destruct ((0 <? Date.toordinal dt - 1 * 7)
            && (Date.toordinal dt - 1 * 7 <=? Date.MAXORDINAL)); [|right; eauto].
  destruct ((0 <? Date.toordinal dt - 4 * 7)
            && (Date.toordinal dt - 4 * 7 <=? Date.MAXORDINAL)); [|right; eauto].
  left; eauto.
Qed.

Lemma prefixes_Return now w p w' :
  prefixes now w = Return p w' -> w' = w /\ forall v, prefixes now v = Return p v.
Proof.
  intros H. destruct (prefixes_pure now) as [(q & Hq)|(e & He)].
  - rewrite Hq in H. injection H as -> ->. auto.
  - rewrite He in H. discriminate.
Qed.

Lemma clean_up_deletes_within E now wp mp :
  (forall v, prefixes now v = Return (wp, mp) v) ->
  deletes_within (in_scope E wp mp) (clean_up E now).
Proof.
  intros Hp w. unfold clean_up. rewrite (bind_step _ _ _ _ _ (Hp w)).
  apply deletes_within_bind; [|intros; apply deletes_within_ret].
  apply deletes_within_for_each. intros d Hd.
  apply per_db_deletes_within, Hd.
Qed.

Lemma clean_up_no_prefixes E now e w :
  (forall v, prefixes now v = Raise e v) -> clean_up E now w = Raise e w.
Proof. intros Hp. unfold clean_up. apply bind_Raise_first, Hp. Qed.

(** ** The frame of [clean_up] *)

(** C9. A stored key that is the key of no file of a configured database
    whose name starts with the day prefix or with the month prefix computed
    from [now] is in the bucket after [clean_up] exactly when it was there
    before, whether [clean_up] returns or raises. *)
Theorem clean_up_leaves_unlisted_keys E now w k :
  (forall wp mp, prefixes now w = Return (wp, mp) w ->
     forall d file,
       In d (DATABASE_LIST E) ->
       k = PATH_TEMPLATE "" (host d) (name d) file ->
       Str.startswith wp file = false /\ Str.startswith mp file = false) ->
  (In k (bucket w) <-> In k (bucket (final (clean_up E now w)))).
Proof.
  intros Hout. destruct (prefixes_pure now) as [([wp mp] & Hp)|(e & He)].
  - destruct (clean_up_deletes_within E now wp mp Hp w) as [Hs Hf].
    split; [|apply Hs]. intros Hin. apply Hf; [exact Hin|].
    unfold in_scope.
    destruct (existsb _ (DATABASE_LIST E)) eqn:Hex; [|reflexivity].
    apply existsb_exists in Hex as (d & Hd & Hk).
    assert (Hno : forall p, listed d p k = true ->
                            exists file, k = PATH_TEMPLATE "" (host d) (name d) file
                                         /\ Str.startswith p file = true)
      by (intros p; apply listed_iff).
    apply orb_true_iff in Hk as [Hk|Hk].
    + destruct (Hno _ Hk) as (file & Hfile & Hstart).
      destruct (Hout wp mp (Hp w) d file Hd Hfile) as [H1 _]. congruence.
    + apply andb_true_iff in Hk as [Hk _].
      destruct (Hno _ Hk) as (file & Hfile & Hstart).
      destruct (Hout wp mp (Hp w) d file Hd Hfile) as [_ H2]. congruence.
  - rewrite (clean_up_no_prefixes E now e w He). simpl. tauto.
Qed.

Lemma clean_up_leaves_unlisted_keys_witness :
  In "/h/n/2024-01-10_03:00:00.gz"
     (bucket (stored ["/h/n/2024-01-10_03:00:00.gz"; "/h/n/2024-02-20_01:00:00.gz"]))
  <-> In "/h/n/2024-01-10_03:00:00.gz"
         (bucket (final (clean_up (calm (Date.mkdate 2024 3 15))
                                  "2024-03-15_02:00:00"
                                  (stored ["/h/n/2024-01-10_03:00:00.gz";
                                           "/h/n/2024-02-20_01:00:00.gz"])))).
Proof.
  apply clean_up_leaves_unlisted_keys.
  intros wp mp Hp d file Hd Hk.
  vm_compute in Hp. injection Hp as <- <-.
  destruct Hd as [<-|[]].
  vm_compute in Hk. injection Hk as <-.
  split; reflexivity.
Defined.

(** ** The tier-2 pass *)

(** the keys of [keys] that are not among [gone] *)
Lemma filter_filter {A} (f g : A -> bool) (l : list A) :
  filter f (filter g l) = filter (fun x => g x && f x) l.
Proof.
  induction l as [|x l IH]; simpl; [reflexivity|].
  destruct (g x); simpl; [destruct (f x)|]; rewrite IH; reflexivity.
Qed.

Lemma world_eta w : mkworld (bucket w) (shell_log w) (requests w) = w.
Proof. destruct w; reflexivity. Qed.

(** past the first element the loop of [delete_keys_last_weeks] deletes
    every object it meets *)
Lemma weeks_loop_tail E i xs w :
  0 < i ->
  for_each (enumerate_from i xs)
    (fun '(hour, file_object) =>
       if hour =? 0 then ret tt else delete E file_object) w
  = for_each xs (delete E) w.
Proof.
  revert i w. induction xs as [|x xs IH]; intros i w Hi; simpl; [reflexivity|].
  replace (i =? 0) with false by (symmetry; apply Z.eqb_neq; lia).
  unfold bind. destruct (delete E x w) as [[] w1|e w1]; [|reflexivity].
  apply IH. lia.
Qed.

(** deleting a list of keys whose deletes all succeed *)
Lemma delete_all_run E xs w :
  (forall x, In x xs -> delete_error E x = None) ->
  for_each xs (delete E) w
  = Return tt (mkworld
                 (filter (fun k => negb (existsb (String.eqb k) xs)) (bucket w))
                 (shell_log w) (requests w)).
Proof.
  revert w. induction xs as [|x xs IH]; intros w Hok; simpl.
  - unfold ret. rewrite filter_true, world_eta. reflexivity.
  - unfold bind, delete. rewrite (Hok x (or_introl eq_refl)).
    rewrite IH by (intros y Hy; apply Hok; right; exact Hy). simpl.
    unfold remove_key. rewrite filter_filter. do 2 f_equal.
    apply filter_ext. intros k. rewrite negb_orb, (String.eqb_sym k x).
    reflexivity.
Qed.

Lemma filter_none {A} (f : A -> bool) (l : list A) :
  (forall x, In x l -> f x = false) -> filter f l = [].
Proof.
  induction l as [|x l IH]; intros H; simpl; [reflexivity|].
  rewrite (H x (or_introl eq_refl)). apply IH. intros y Hy. apply H. now right.
Qed.

Lemma filter_not_among_tail (k0 : string) (rest : list string) :
  ~ In k0 rest ->
  filter (fun k => negb (existsb (String.eqb k) rest)) (k0 :: rest) = [k0].
Proof.
  intros Hnot. simpl.
  assert (H0 : existsb (String.eqb k0) rest = false).
  { destruct (existsb (String.eqb k0) rest) eqn:Hex; [|reflexivity].
    apply existsb_exists in Hex as (x & Hx & Heq).
    apply String.eqb_eq in Heq. subst x. contradiction. }
  rewrite H0. simpl. f_equal.
  apply filter_none. intros x Hx. apply negb_false_iff.
  apply existsb_exists. exists x. split; [exact Hx|apply String.eqb_refl].
Qed.

(** C2. When the deletes of the tier-2 pass succeed, the pass returns, and
    of the keys listed for its day prefix exactly the first one in listing
    order is left: every other listed key is gone from the bucket, so at
    most one key of that (host, name, day) is left. *)
Theorem weeks_pass_keeps_first_listed E fp d w :
  NoDup (bucket w) ->
  (forall k, In k (tl (filter (listed d fp) (bucket w))) ->
             delete_error E k = None) ->
  exists w',
    delete_keys_last_weeks E fp d w = Return true w'
    /\ filter (listed d fp) (bucket w')
       = firstn 1 (filter (listed d fp) (bucket w))
    /\ (forall k, In k (tl (filter (listed d fp) (bucket w))) ->
                  ~ In k (bucket w'))
    /\ (List.length (filter (listed d fp) (bucket w')) <= 1)%nat.
Proof.
  intros Hnd Hok. unfold delete_keys_last_weeks.
  rewrite objects_filter_bind.
  change (filter (Str.startswith (PATH_TEMPLATE "" (host d) (name d) fp))
                 (bucket w))
    with (filter (listed d fp) (bucket w)).
  pose proof (NoDup_filter (listed d fp) Hnd) as HndL.
  set (L := filter (listed d fp) (bucket w)) in *.
  assert (Hrun : for_each (enumerate L)
             (fun '(hour, file_object) =>
                if hour =? 0 then ret tt else delete E file_object) w
           = Return tt (mkworld
                 (filter (fun k => negb (existsb (String.eqb k) (tl L))) (bucket w))
                 (shell_log w) (requests w))).
  { unfold enumerate. destruct L as [|k0 rest]; simpl.
    - unfold ret. rewrite filter_true, world_eta. reflexivity.
    - unfold bind at 1. simpl. rewrite weeks_loop_tail by lia.
      apply delete_all_run. exact Hok. }
  eexists. split; [unfold bind; rewrite Hrun; reflexivity|]. simpl.
  assert (Hleft : filter (listed d fp)
                    (filter (fun k => negb (existsb (String.eqb k) (tl L)))
                            (bucket w))
                  = firstn 1 L).
  { rewrite filter_filter.
    rewrite (filter_ext _ (fun x => listed d fp x
                                     && negb (existsb (String.eqb x) (tl L))))
      by (intros x; apply andb_comm).
    rewrite <- filter_filter. fold L.
    destruct L as [|k0 rest]; simpl; [reflexivity|].
    apply NoDup_cons_iff in HndL as [Hnot _].
    apply (filter_not_among_tail k0 rest Hnot). }
  split; [exact Hleft|]. split.
  - intros k Hk Hin. apply filter_In in Hin as [_ Hin].
    apply negb_true_iff in Hin.
    assert (existsb (String.eqb k) (tl L) = true) as Hex; [|congruence].
    apply existsb_exists. exists k. split; [exact Hk|apply String.eqb_refl].
  - rewrite Hleft. destruct L; simpl; lia.
Qed.

Lemma weeks_pass_keeps_first_listed_witness :
  exists w',
    delete_keys_last_weeks (calm (Date.mkdate 2024 3 15)) "2024-03-08" sample_db
      (stored ["/h/n/2024-03-08_01:00:00.gz"; "/h/n/2024-03-08_02:00:00.gz";
               "/h/n/2024-03-08_03:00:00.gz"; "/h/n/2024-03-09_01:00:00.gz"])
    = Return true w'
    /\ filter (listed sample_db "2024-03-08") (bucket w')
       = ["/h/n/2024-03-08_01:00:00.gz"].
Proof.
  destruct (weeks_pass_keeps_first_listed (calm (Date.mkdate 2024 3 15))
              "2024-03-08" sample_db
              (stored ["/h/n/2024-03-08_01:00:00.gz";
                       "/h/n/2024-03-08_02:00:00.gz";
                       "/h/n/2024-03-08_03:00:00.gz";
                       "/h/n/2024-03-09_01:00:00.gz"]))
    as (w' & Hrun & Hleft & _).
  - simpl. repeat constructor; simpl; intuition discriminate.
  - intros k _. reflexivity.
  - exists w'. split; [exact Hrun|exact Hleft].
Defined.

(** ** The tier-3 pass *)

Lemma months_body_shrinks E dow k v :
  shrinks v (final (delete_keys_last_months_body E dow k v)).
Proof.
  apply (months_body_deletes_within E dow (fun _ => true) k (fun _ => eq_refl) v).
Qed.

(** what a completed run of the loop body says about its key *)
Lemma months_body_Return E dow k w1 w2 :
  delete_keys_last_months_body E dow k w1 = Return tt w2 ->
  (designated dow k = true /\ w2 = w1)
  \/ (condemned dow k = true /\ ~ In k (bucket w2)).
Proof.
  unfold delete_keys_last_months_body, designated, condemned.
  destruct (parse_key k) as [e|[[_date time] date]]; simpl.
  - unfold bind, raise. discriminate.
  - unfold bind, ret.
    destruct (on_day_of_the_week dow date).
    + intros H. injection H as <-. left. auto.
    + unfold delete. destruct (delete_error E k); [discriminate|].
      intros H. injection H as <-. right. split; [reflexivity|].
      simpl. intros Hin. apply In_remove_key in Hin. tauto.
Qed.

Lemma designated_not_condemned dow k :
  designated dow k = true -> condemned dow k = false.
Proof.
  unfold designated, condemned.
  destruct (parse_key k) as [e|[[_date time] date]]; [discriminate|].
  intros ->. reflexivity.
Qed.

(** a completed tier-3 pass has parsed every key it listed, and has kept
    exactly those on the designated weekday *)
Lemma months_pass_Return E fp d dow w b w' k :
  delete_keys_last_months E fp d dow w = Return b w' ->
  In k (bucket w) -> listed d fp k = true ->
  (In k (bucket w') <-> designated dow k = true).
Proof.
  intros Hrun Hin Hl.
  pose proof (months_deletes_within E fp d dow w) as [_ Hframe].
  rewrite Hrun in Hframe. simpl in Hframe.
  unfold delete_keys_last_months in Hrun. rewrite objects_filter_bind in Hrun.
  apply bind_Return in Hrun as ([] & w0 & Hloop & Hret).
  injection Hret as _ <-.
  assert (HinL : In k (filter (Str.startswith
                                 (PATH_TEMPLATE "" (host d) (name d) fp))
                              (bucket w)))
    by (apply filter_In; split; assumption).
  destruct (for_each_Return_In _ _ _ _ k (months_body_shrinks E dow) Hloop HinL)
    as (w1 & w2 & _ & Hbody & Hs2).
  apply months_body_Return in Hbody as [[Hdes _]|[Hcon Hgone]].
  - split; [intros _; exact Hdes|]. intros _. apply Hframe; [exact Hin|].
    rewrite (designated_not_condemned _ _ Hdes). apply andb_false_r.
  - split.
    + intros Hk. apply Hs2 in Hk. contradiction.
    + intros Hdes. rewrite (designated_not_condemned _ _ Hdes) in Hcon.
      discriminate.
Qed.

(** ** [clean_up] over the configured databases *)

Lemma per_db_shrinks E wp mp d v :
  shrinks v (final ((delete_keys_last_weeks E wp d ;;;
                     delete_keys_last_months E mp d (BACKUP_DAYS_OF_THE_WEEK E) ;;;
                     ret tt) v)).
Proof.
  assert (H : deletes_within (fun _ => true)
                (delete_keys_last_weeks E wp d ;;;
                 delete_keys_last_months E mp d (BACKUP_DAYS_OF_THE_WEEK E) ;;;
                 ret tt)).
  { apply deletes_within_bind.
    - eapply deletes_within_weaken; [|apply weeks_deletes_within]. reflexivity.
    - intros _. apply deletes_within_bind; [|intros; apply deletes_within_ret].
      eapply deletes_within_weaken; [|apply months_deletes_within].
      reflexivity. }
  apply H.
Qed.

(** after a run of [clean_up] that returns, a key still in the bucket that
    the month prefix of a configured database lists is on the designated
    weekday *)
Lemma clean_up_Return_listed E now w b w' wp mp d k :
  prefixes now w = Return (wp, mp) w ->
  clean_up E now w = Return b w' ->
  In d (DATABASE_LIST E) -> listed d mp k = true ->
  In k (bucket w') ->
  designated (BACKUP_DAYS_OF_THE_WEEK E) k = true.
Proof.
  intros Hp Hrun Hd Hl Hk. unfold clean_up in Hrun.
  rewrite (bind_step _ _ _ _ _ Hp) in Hrun.
  apply bind_Return in Hrun as ([] & w0 & Hloop & Hret). injection Hret as _ <-.
  destruct (for_each_Return_In _ _ _ _ d (per_db_shrinks E wp mp) Hloop Hd)
    as (w1 & w2 & _ & Hbody & Hs2).
  apply bind_Return in Hbody as (b1 & wa & Hweeks & Hbody).
  apply bind_Return in Hbody as (b2 & wb & Hmonths & Hret).
  injection Hret as <-.
  apply Hs2 in Hk.
  pose proof (months_deletes_within E mp d (BACKUP_DAYS_OF_THE_WEEK E) wa)
    as [Hsm _].
  rewrite Hmonths in Hsm. simpl in Hsm.
  apply (months_pass_Return _ _ _ _ _ _ _ k Hmonths (Hsm _ Hk) Hl), Hk.
Qed.

Lemma not_in_scope E wp mp k :
  (forall d, In d (DATABASE_LIST E) -> listed d wp k = false) ->
  condemned (BACKUP_DAYS_OF_THE_WEEK E) k = false ->
  in_scope E wp mp k = false.
Proof.
  intros Hw Hc. unfold in_scope.
  destruct (existsb _ (DATABASE_LIST E)) eqn:Hex; [|reflexivity].
  apply existsb_exists in Hex as (d & Hd & Hk).
  rewrite (Hw d Hd), Hc, andb_false_r in Hk. discriminate.
Qed.

(** C3, as amended.  Take a key whose date is at least 28 days before the
    date of [now], listed by the month prefix of a configured database and
    by no day prefix.  In a run of [clean_up] that returns, the key is left
    in the bucket exactly when the weekday of its date is the designated
    one; nothing else about the key (its week, its time) matters. *)
Theorem month_listed_key_survives_iff_designated
    E now today w b w' wp mp d k _date time date :
  Strptime.strptime_datetime_date now = Some today ->
  prefixes now w = Return (wp, mp) w ->
  clean_up E now w = Return b w' ->
  In k (bucket w) ->
  parse_key k = inr (_date, time, date) ->
  Date.toordinal date + 28 <= Date.toordinal today ->
  In d (DATABASE_LIST E) -> listed d mp k = true ->
  (forall d', In d' (DATABASE_LIST E) -> listed d' wp k = false) ->
  (In k (bucket w')
   <-> on_day_of_the_week (BACKUP_DAYS_OF_THE_WEEK E) date = true).
Proof.
  intros _ Hp Hrun Hin Hparse _ Hd Hl Hw.
  assert (Hdes : designated (BACKUP_DAYS_OF_THE_WEEK E) k
                 = on_day_of_the_week (BACKUP_DAYS_OF_THE_WEEK E) date)
    by (unfold designated; rewrite Hparse; reflexivity).
  rewrite <- Hdes. split.
  - apply (clean_up_Return_listed E now w b w' wp mp d k Hp Hrun Hd Hl).
  - intros Hk. apply prefixes_Return in Hp as [_ Hp].
    destruct (clean_up_deletes_within E now wp mp Hp w) as [_ Hf].
    rewrite Hrun in Hf. simpl in Hf. apply Hf; [exact Hin|].
    apply not_in_scope; [exact Hw|apply designated_not_condemned, Hk].
Qed.

Lemma month_listed_key_survives_iff_designated_witness :
  In "/h/n/2024-02-11_03:00:00.gz"
     (bucket (stored ["/h/n/2024-02-11_03:00:00.gz"]))
  <-> on_day_of_the_week "일" (Date.mkdate 2024 2 11) = true.
Proof.
  apply (month_listed_key_survives_iff_designated
           (calm (Date.mkdate 2024 3 15)) "2024-03-15_02:00:00"
           (Date.mkdate 2024 3 15)
           (stored ["/h/n/2024-02-11_03:00:00.gz"; "/h/n/2024-02-14_03:00:00.gz"])
           true (stored ["/h/n/2024-02-11_03:00:00.gz"])
           "2024-03-08" "2024-02-" sample_db
           "/h/n/2024-02-11_03:00:00.gz" "2024-02-11" "03:00:00").
  - vm_compute; reflexivity.
  - vm_compute; reflexivity.
  - vm_compute; reflexivity.
  - simpl; left; reflexivity.
  - vm_compute; reflexivity.
  - vm_compute; discriminate.
  - simpl; left; reflexivity.
  - vm_compute; reflexivity.
  - intros d' [<-|[]]. vm_compute; reflexivity.
Defined.

(** C3, the claim as stated fails: on 2024-03-15 the month prefix is
    [2024-02-], so the dump of Wednesday 2024-01-10, 65 days old, is not
    looked at and stays in the bucket although Sunday is the designated
    weekday. *)
Lemma old_key_outside_month_prefix_survives :
  clean_up (calm (Date.mkdate 2024 3 15)) "2024-03-15_02:00:00"
           (stored ["/h/n/2024-01-10_03:00:00.gz"; "/h/n/2024-02-14_03:00:00.gz"])
  = Return true (stored ["/h/n/2024-01-10_03:00:00.gz"])
  /\ parse_key "/h/n/2024-01-10_03:00:00.gz"
     = inr ("2024-01-10", "03:00:00", Date.mkdate 2024 1 10)
  /\ Date.toordinal (Date.mkdate 2024 3 15)
     - Date.toordinal (Date.mkdate 2024 1 10) = 65
  /\ on_day_of_the_week "일" (Date.mkdate 2024 1 10) = false.
Proof.
  vm_compute. repeat split; reflexivity.
Qed.

(** ** Keys the tier-3 pass cannot parse *)

Lemma raises_only_ret {A} Q (a : A) : raises_only Q (ret a).
Proof. intros w e w' H. discriminate. Qed.

Lemma raises_only_bind {A B} Q (m : M A) (k : A -> M B) :
  raises_only Q m -> (forall a, raises_only Q (k a)) ->
  raises_only Q (bind m k).
Proof.
  intros Hm Hk w e w'. unfold bind.
  destruct (m w) as [a w1|e1 w1] eqn:Hmw.
  - apply Hk.
  - intros H. injection H as <- <-. eapply Hm, Hmw.
Qed.

Lemma raises_only_for_each {A} Q (xs : list A) (body : A -> M unit) :
  (forall x, raises_only Q (body x)) -> raises_only Q (for_each xs body).
Proof.
  intros H. induction xs as [|x xs IH]; simpl.
  - apply raises_only_ret.
  - apply raises_only_bind; [apply H|intros _; exact IH].
Qed.

Lemma parse_key_error k e : parse_key k = inl e -> is_ValueError e.
Proof.
  unfold parse_key.
  destruct (OsPath.split k) as [hd fn].
  destruct (OsPath.splitext fn) as [stem ext].
  destruct (Str.split "_" stem) as [|a [|b [|c l]]];
    try destruct (Strptime.strptime_date a);
    intros H; try discriminate; injection H as <-; eexists; reflexivity.
Qed.

(** Digits of any script are digits to [strptime] and to [int]: a key
    whose day is written with an Arabic-Indic four parses to 2024-02-14.
    The same kind of digit in the month, where the expression of the format
    names the digits it takes, does not match. *)
Lemma parse_key_reads_any_decimal_digit :
  parse_key "/h/n/2024-02-1٤_03:00:00.gz"
  = inr ("2024-02-1٤", "03:00:00", Date.mkdate 2024 2 14)
  /\ parse_key "/h/n/2024-0٢-14_03:00:00.gz"
     = inl (ValueError
              "time data '2024-0٢-14' does not match format '%Y-%m-%d'").
Proof. split; reflexivity. Qed.

Lemma raises_only_delete E key :
  delete_error E key = None -> raises_only is_ValueError (delete E key).
Proof. intros H w e w'. unfold delete. rewrite H. discriminate. Qed.

Lemma per_db_raises_ValueError E wp mp d :
  (forall key, delete_error E key = None) ->
  raises_only is_ValueError
    (delete_keys_last_weeks E wp d ;;;
     delete_keys_last_months E mp d (BACKUP_DAYS_OF_THE_WEEK E) ;;;
     ret tt).
Proof.
  intros Hok. apply raises_only_bind; [|intros _; apply raises_only_bind].
  - unfold delete_keys_last_weeks. intros w e w'. rewrite objects_filter_bind.
    refine (raises_only_bind _ _ _ _ _ w e w'); [|intros; apply raises_only_ret].
    apply raises_only_for_each. intros [hour k].
    destruct (hour =? 0); [apply raises_only_ret|apply raises_only_delete, Hok].
  - unfold delete_keys_last_months. intros w e w'. rewrite objects_filter_bind.
    refine (raises_only_bind _ _ _ _ _ w e w'); [|intros; apply raises_only_ret].
    apply raises_only_for_each. clear w e w'. intros k w e w'.
    unfold delete_keys_last_months_body, bind.
    destruct (parse_key k) as [e0|[[_date time] date]] eqn:Hparse; simpl.
    + intros H. injection H as <- _. eapply parse_key_error, Hparse.
    + destruct (on_day_of_the_week (BACKUP_DAYS_OF_THE_WEEK E) date);
        [discriminate|apply raises_only_delete, Hok].
  - intros; apply raises_only_ret.
Qed.

Lemma clean_up_loop_raises_ValueError E now wp mp w e w' :
  (forall key, delete_error E key = None) ->
  prefixes now w = Return (wp, mp) w ->
  clean_up E now w = Raise e w' ->
  is_ValueError e.
Proof.
  intros Hok Hp. unfold clean_up. rewrite (bind_step _ _ _ _ _ Hp).
  revert w' e. 
  assert (H : raises_only is_ValueError
                (for_each (DATABASE_LIST E)
                   (fun d =>
                      delete_keys_last_weeks E wp d ;;;
                      delete_keys_last_months E mp d (BACKUP_DAYS_OF_THE_WEEK E) ;;;
                      ret tt) ;;;
                 ret true)).
  { apply raises_only_bind; [|intros; apply raises_only_ret].
    apply raises_only_for_each. intros d.
    apply per_db_raises_ValueError, Hok. }
  intros w' e. apply H.
Qed.

(** C4, as amended.  A stored key under the month prefix of a configured
    database (and under no day prefix) whose file name cannot be parsed is
    not skipped: [clean_up] raises, and the key is still in the bucket it
    leaves behind.  When no delete fails, the exception is a [ValueError]. *)
Theorem unparseable_month_key_raises E now w wp mp d k e :
  prefixes now w = Return (wp, mp) w ->
  In k (bucket w) ->
  In d (DATABASE_LIST E) -> listed d mp k = true ->
  (forall d', In d' (DATABASE_LIST E) -> listed d' wp k = false) ->
  parse_key k = inl e ->
  exists e' w',
    clean_up E now w = Raise e' w'
    /\ In k (bucket w')
    /\ ((forall key, delete_error E key = None) -> is_ValueError e').
Proof.
  intros Hp Hin Hd Hl Hw Hparse.
  assert (Hcon : condemned (BACKUP_DAYS_OF_THE_WEEK E) k = false)
    by (unfold condemned; rewrite Hparse; reflexivity).
  assert (Hdes : designated (BACKUP_DAYS_OF_THE_WEEK E) k = false)
    by (unfold designated; rewrite Hparse; reflexivity).
  pose proof (prefixes_Return _ _ _ _ Hp) as [_ Hpv].
  destruct (clean_up_deletes_within E now wp mp Hpv w) as [_ Hf].
  specialize (Hf k Hin (not_in_scope E wp mp k Hw Hcon)).
  destruct (clean_up E now w) as [b w'|e' w'] eqn:Hrun; simpl in Hf.
  - rewrite (clean_up_Return_listed E now w b w' wp mp d k Hp Hrun Hd Hl Hf)
      in Hdes. discriminate.
  - exists e', w'. split; [reflexivity|]. split; [exact Hf|].
    intros Hok. eapply clean_up_loop_raises_ValueError; eassumption.
Qed.

Lemma unparseable_month_key_raises_witness :
  exists e' w',
    clean_up (calm (Date.mkdate 2024 3 15)) "2024-03-15_02:00:00"
             (stored ["/h/n/2024-02-10.gz"; "/h/n/2024-02-14_03:00:00.gz"])
    = Raise e' w'
    /\ In "/h/n/2024-02-10.gz" (bucket w')
    /\ ((forall key, delete_error (calm (Date.mkdate 2024 3 15)) key = None) ->
        is_ValueError e').
Proof.
  apply (unparseable_month_key_raises
           (calm (Date.mkdate 2024 3 15)) "2024-03-15_02:00:00"
           (stored ["/h/n/2024-02-10.gz"; "/h/n/2024-02-14_03:00:00.gz"])
           "2024-03-08" "2024-02-" sample_db "/h/n/2024-02-10.gz"
           (ValueError "not enough values to unpack (expected 2, got 1)")).
  - vm_compute; reflexivity.
  - simpl; left; reflexivity.
  - simpl; left; reflexivity.
  - vm_compute; reflexivity.
  - intros d' [<-|[]]. vm_compute; reflexivity.
  - vm_compute; reflexivity.
Defined.

(** C4, the claim as stated fails: the key [/h/n/2024-02-10.gz] has no time
    part, so its file name does not split in two at the underscore.  With
    it in the February listing the run of 2024-03-15 raises instead of
    skipping it; the Wednesday dump of 2024-02-14, listed after it and due
    for deletion, is never reached. *)
Lemma unparseable_key_crashes_clean_up :
  clean_up (calm (Date.mkdate 2024 3 15)) "2024-03-15_02:00:00"
           (stored ["/h/n/2024-02-10.gz"; "/h/n/2024-02-14_03:00:00.gz"])
  = Raise (ValueError "not enough values to unpack (expected 2, got 1)")
          (stored ["/h/n/2024-02-10.gz"; "/h/n/2024-02-14_03:00:00.gz"]).
Proof. vm_compute. reflexivity. Qed.

(** ** A delete that fails *)

Lemma for_each_stops {A} (pre post : list A) x (body : A -> M unit) w w1 e w2 :
  for_each pre body w = Return tt w1 ->
  body x w1 = Raise e w2 ->
  for_each (pre ++ x :: post) body w = Raise e w2.
Proof.
  intros Hpre Hx. rewrite for_each_app. unfold bind at 1. rewrite Hpre.
  simpl. unfold bind. rewrite Hx. reflexivity.
Qed.

Lemma for_each_returns {A} (xs : list A) (body : A -> M unit) w :
  (forall x v, In x xs -> exists v', body x v = Return tt v') ->
  exists w', for_each xs body w = Return tt w'.
Proof.
  revert w. induction xs as [|x xs IH]; intros w H; simpl.
  - exists w. reflexivity.
  - destruct (H x w (or_introl eq_refl)) as (v' & Hv).
    destruct (IH v') as (w' & Hw'); [intros y v Hy; apply H; now right|].
    exists w'. unfold bind. rewrite Hv. exact Hw'.
Qed.

Lemma among_In keys k : among keys k = true <-> In k keys.
Proof.
  unfold among. rewrite existsb_exists. split.
  - intros (x & Hx & Heq). apply String.eqb_eq in Heq. now subst.
  - intros H. exists k. split; [exact H|apply String.eqb_refl].
Qed.

(** deleting [pre], all deletes succeeding, leaves every other key alone *)
Lemma delete_prefix_run E pre w :
  (forall x, In x pre -> delete_error E x = None) ->
  exists w1,
    for_each pre (delete E) w = Return tt w1
    /\ forall x, In x (bucket w) -> ~ In x pre -> In x (bucket w1).
Proof.
  intros Hok. eexists. split; [apply delete_all_run, Hok|]. simpl.
  intros x Hin Hnot. apply filter_In. split; [exact Hin|].
  apply negb_true_iff. destruct (existsb (String.eqb x) pre) eqn:Hex; auto.
  apply (among_In pre x) in Hex. contradiction.
Qed.

(** running the tier-3 loop body over [pre], none of whose keys makes it
    raise, leaves every other key alone *)
Lemma months_prefix_run E dow pre w :
  (forall x, In x pre ->
     designated dow x = true
     \/ (condemned dow x = true /\ delete_error E x = None)) ->
  exists w1,
    for_each pre (delete_keys_last_months_body E dow) w = Return tt w1
    /\ forall x, In x (bucket w) -> ~ In x pre -> In x (bucket w1).
Proof.
  intros Hpre.
  destruct (for_each_returns pre (delete_keys_last_months_body E dow) w)
    as (w1 & Hrun).
  { intros x v Hx. unfold delete_keys_last_months_body, designated, condemned in *.
    specialize (Hpre x Hx).
    destruct (parse_key x) as [e|[[_date time] date]]; simpl.
    - destruct Hpre as [H|[H _]]; discriminate.
    - unfold bind, ret.
      destruct (on_day_of_the_week dow date); [eauto|].
      destruct Hpre as [H|[_ H]]; [discriminate|].
      unfold delete. rewrite H. eauto. }
  exists w1. split; [exact Hrun|]. intros x Hin Hnot.
  assert (Hd : deletes_within (among pre)
                 (for_each pre (delete_keys_last_months_body E dow))).
  { apply deletes_within_for_each. intros y Hy.
    apply months_body_deletes_within. intros _. apply among_In, Hy. }
  destruct (Hd w) as [_ Hf]. rewrite Hrun in Hf. simpl in Hf.
  apply Hf; [exact Hin|].
  destruct (among pre x) eqn:Ha; [apply among_In in Ha; contradiction|reflexivity].
Qed.

Lemma NoDup_app_cons_not_in {A} (pre post : list A) k x :
  NoDup (pre ++ k :: post) -> In x (k :: post) -> ~ In x pre.
Proof.
  induction pre as [|y pre IH]; simpl; intros Hnd Hx; [tauto|].
  apply NoDup_cons_iff in Hnd as [Hy Hnd].
  intros [->|Hin]; [|exact (IH Hnd Hx Hin)].
  apply Hy, in_or_app. right. exact Hx.
Qed.

(** C6, as amended.  A delete that fails ends the pass at once.  When the
    delete of a listed key [k] raises [e] after the keys listed before it
    were processed without error, the tier-2 pass and the tier-3 pass both
    raise [e] from that call: [k] and every key listed after it are still
    in the bucket, and nothing is collected.  Whichever configured database
    the pass belongs to, and whichever of its two passes raises, [clean_up]
    raises the same exception and leaves the same bucket: the passes that
    remain are not run. *)
Theorem failed_delete_aborts_pass E d k e :
  delete_error E k = Some e ->
  (forall w fp k0 pre post,
      NoDup (bucket w) ->
      filter (listed d fp) (bucket w) = (k0 :: pre ++ k :: post)%list ->
      (forall x, In x pre -> delete_error E x = None) ->
      exists w',
        delete_keys_last_weeks E fp d w = Raise e w'
        /\ forall x, In x (k :: post) -> In x (bucket w'))
  /\ (forall w fp dow pre post,
      NoDup (bucket w) ->
      filter (listed d fp) (bucket w) = (pre ++ k :: post)%list ->
      (forall x, In x pre ->
         designated dow x = true
         \/ (condemned dow x = true /\ delete_error E x = None)) ->
      condemned dow k = true ->
      exists w',
        delete_keys_last_months E fp d dow w = Raise e w'
        /\ forall x, In x (k :: post) -> In x (bucket w'))
  /\ (forall now wp mp before after w0 w w',
      prefixes now w0 = Return (wp, mp) w0 ->
      DATABASE_LIST E = (before ++ d :: after)%list ->
      for_each before
        (fun d' =>
           delete_keys_last_weeks E wp d' ;;;
           delete_keys_last_months E mp d' (BACKUP_DAYS_OF_THE_WEEK E) ;;;
           ret tt) w0
      = Return tt w ->
      delete_keys_last_weeks E wp d w = Raise e w'
      \/ (exists b wa,
            delete_keys_last_weeks E wp d w = Return b wa
            /\ delete_keys_last_months E mp d (BACKUP_DAYS_OF_THE_WEEK E) wa
               = Raise e w') ->
      clean_up E now w0 = Raise e w').
Proof.
  intros Hfail. split; [|split].
  - intros w fp k0 pre post Hnd HL Hok.
    pose proof (NoDup_filter (listed d fp) Hnd) as HndL. rewrite HL in HndL.
    apply NoDup_cons_iff in HndL as [_ HndL].
    destruct (delete_prefix_run E pre w Hok) as (w1 & Hrun & Hkeep).
    exists w1. split.
    + unfold delete_keys_last_weeks. rewrite objects_filter_bind.
      change (filter (Str.startswith (PATH_TEMPLATE "" (host d) (name d) fp))
                     (bucket w))
        with (filter (listed d fp) (bucket w)).
      rewrite HL. unfold enumerate. simpl. unfold bind at 1.
      unfold bind at 1. simpl. rewrite weeks_loop_tail by lia.
      rewrite (for_each_stops pre post k (delete E) w w1 e w1 Hrun);
        [reflexivity|].
      unfold delete. rewrite Hfail. reflexivity.
    + intros x Hx. apply Hkeep.
      * assert (In x (filter (listed d fp) (bucket w))) as Hin
          by (rewrite HL; right; apply in_or_app; right; exact Hx).
        apply filter_In in Hin. apply Hin.
      * eapply NoDup_app_cons_not_in; eassumption.
  - intros w fp dow pre post Hnd HL Hpre Hcon.
    pose proof (NoDup_filter (listed d fp) Hnd) as HndL. rewrite HL in HndL.
    destruct (months_prefix_run E dow pre w Hpre) as (w1 & Hrun & Hkeep).
    exists w1. split.
    + unfold delete_keys_last_months. rewrite objects_filter_bind.
      change (filter (Str.startswith (PATH_TEMPLATE "" (host d) (name d) fp))
                     (bucket w))
        with (filter (listed d fp) (bucket w)).
      rewrite HL. unfold bind at 1.
      rewrite (for_each_stops pre post k _ w w1 e w1 Hrun); [reflexivity|].
      unfold delete_keys_last_months_body, condemned in *.
      destruct (parse_key k) as [e0|[[_date time] date]]; [discriminate|].
      simpl. unfold bind, ret. apply negb_true_iff in Hcon. rewrite Hcon.
      unfold delete. rewrite Hfail. reflexivity.
    + intros x Hx. apply Hkeep.
      * assert (In x (filter (listed d fp) (bucket w))) as Hin
          by (rewrite HL; apply in_or_app; right; exact Hx).
        apply filter_In in Hin. apply Hin.
      * eapply NoDup_app_cons_not_in; eassumption.
  - intros now wp mp before after w0 w w' Hp Hdb Hbefore Hpass.
    unfold clean_up. rewrite (bind_step _ _ _ _ _ Hp), Hdb.
    unfold bind at 1.
    rewrite (for_each_stops before after d _ w0 w e w' Hbefore); [reflexivity|].
    unfold bind. destruct Hpass as [Hweeks|(b & wa & Hweeks & Hmonths)].
    + rewrite Hweeks. reflexivity.
    + rewrite Hweeks, Hmonths. reflexivity.
Qed.

(** The delete of the Wednesday dump of 2024-02-14 is refused in the tier-3
    pass of the run of 2024-03-15: [clean_up] raises that error and the dump
    is still stored. *)
Lemma failed_delete_aborts_pass_witness :
  exists w',
    clean_up
      (delete_fails_on "/h/n/2024-02-14_03:00:00.gz" (Date.mkdate 2024 3 15))
      "2024-03-15_02:00:00"
      (stored ["/h/n/2024-02-11_03:00:00.gz"; "/h/n/2024-02-14_03:00:00.gz";
               "/h/n/2024-02-15_03:00:00.gz"])
    = Raise (ClientError "AccessDenied") w'
    /\ forall x,
         In x ["/h/n/2024-02-14_03:00:00.gz"; "/h/n/2024-02-15_03:00:00.gz"] ->
         In x (bucket w').
Proof.
  destruct (failed_delete_aborts_pass
              (delete_fails_on "/h/n/2024-02-14_03:00:00.gz"
                               (Date.mkdate 2024 3 15))
              sample_db "/h/n/2024-02-14_03:00:00.gz"
              (ClientError "AccessDenied"))
    as (_ & Hmonths & Hup).
  - reflexivity.
  - destruct (Hmonths
                (stored ["/h/n/2024-02-11_03:00:00.gz";
                         "/h/n/2024-02-14_03:00:00.gz";
                         "/h/n/2024-02-15_03:00:00.gz"])
                "2024-02-" "일"
                ["/h/n/2024-02-11_03:00:00.gz"]
                ["/h/n/2024-02-15_03:00:00.gz"])
      as (w' & Hrun & Hkeep).
    + simpl. repeat constructor; simpl; intuition discriminate.
    + reflexivity.
    + intros x [<-|[]]. left. vm_compute. reflexivity.
    + vm_compute. reflexivity.
    + exists w'. split; [|exact Hkeep].
      apply (Hup "2024-03-15_02:00:00" "2024-03-08" "2024-02-" [] []
                 (stored ["/h/n/2024-02-11_03:00:00.gz";
                          "/h/n/2024-02-14_03:00:00.gz";
                          "/h/n/2024-02-15_03:00:00.gz"])
                 (stored ["/h/n/2024-02-11_03:00:00.gz";
                          "/h/n/2024-02-14_03:00:00.gz";
                          "/h/n/2024-02-15_03:00:00.gz"])
                 w').
      * vm_compute. reflexivity.
      * reflexivity.
      * reflexivity.
      * right. exists true. eexists. split; [vm_compute; reflexivity|].
        exact Hrun.
Defined.

(** C6, the claim as stated fails: when the delete of the 02:00 dump of
    2024-03-08 is refused, the run of 2024-03-15 stops there; the 03:00 dump
    of that day, listed next and deletable, is still in the bucket, and the
    exception of that one delete is what [clean_up] raises. *)
Lemma failed_delete_stops_the_run :
  clean_up (delete_fails_on "/h/n/2024-03-08_02:00:00.gz" (Date.mkdate 2024 3 15))
           "2024-03-15_02:00:00"
           (stored ["/h/n/2024-03-08_01:00:00.gz"; "/h/n/2024-03-08_02:00:00.gz";
                    "/h/n/2024-03-08_03:00:00.gz"])
  = Raise (ClientError "AccessDenied")
          (stored ["/h/n/2024-03-08_01:00:00.gz"; "/h/n/2024-03-08_02:00:00.gz";
                   "/h/n/2024-03-08_03:00:00.gz"])
  /\ delete_error
       (delete_fails_on "/h/n/2024-03-08_02:00:00.gz" (Date.mkdate 2024 3 15))
       "/h/n/2024-03-08_03:00:00.gz" = None.
Proof. vm_compute. split; reflexivity. Qed.

(** ** Recent dumps inside the month listing *)

(** C1, the code at the failing input: on 2024-03-29 the month prefix is
    [2024-03-] (28 days earlier is 2024-03-01), so the tier-3 pass lists the
    dump of Thursday 2024-03-28, one day old, and deletes it. *)
Theorem one_day_old_dump_deleted :
  prefixes "2024-03-29_02:00:00" (stored ["/h/n/2024-03-28_02:00:00.gz"])
  = Return ("2024-03-22", "2024-03-") (stored ["/h/n/2024-03-28_02:00:00.gz"])
  /\ parse_key "/h/n/2024-03-28_02:00:00.gz"
     = inr ("2024-03-28", "02:00:00", Date.mkdate 2024 3 28)
  /\ Date.toordinal (Date.mkdate 2024 3 29)
     - Date.toordinal (Date.mkdate 2024 3 28) = 1
  /\ clean_up (calm (Date.mkdate 2024 3 29)) "2024-03-29_02:00:00"
              (stored ["/h/n/2024-03-28_02:00:00.gz"])
     = Return true (stored []).
Proof. vm_compute. repeat split; reflexivity. Qed.

(** C5, the code at the failing input: on 2024-03-29 the day prefix
    [2024-03-22] extends the month prefix [2024-03-].  The first dump of
    2024-03-22 is listed by the tier-2 pass, which keeps it, and then by the
    tier-3 pass of the same run, which deletes it (a Friday). *)
Theorem day_survivor_listed_again_by_month_pass :
  prefixes "2024-03-29_02:00:00"
           (stored ["/h/n/2024-03-22_01:00:00.gz"; "/h/n/2024-03-22_02:00:00.gz"])
  = Return ("2024-03-22", "2024-03-")
           (stored ["/h/n/2024-03-22_01:00:00.gz"; "/h/n/2024-03-22_02:00:00.gz"])
  /\ filter (listed sample_db "2024-03-22")
            ["/h/n/2024-03-22_01:00:00.gz"; "/h/n/2024-03-22_02:00:00.gz"]
     = ["/h/n/2024-03-22_01:00:00.gz"; "/h/n/2024-03-22_02:00:00.gz"]
  /\ delete_keys_last_weeks (calm (Date.mkdate 2024 3 29)) "2024-03-22" sample_db
       (stored ["/h/n/2024-03-22_01:00:00.gz"; "/h/n/2024-03-22_02:00:00.gz"])
     = Return true (stored ["/h/n/2024-03-22_01:00:00.gz"])
  /\ filter (listed sample_db "2024-03-") ["/h/n/2024-03-22_01:00:00.gz"]
     = ["/h/n/2024-03-22_01:00:00.gz"]
  /\ delete_keys_last_months (calm (Date.mkdate 2024 3 29)) "2024-03-" sample_db
       "일" (stored ["/h/n/2024-03-22_01:00:00.gz"])
     = Return true (stored [])
  /\ clean_up (calm (Date.mkdate 2024 3 29)) "2024-03-29_02:00:00"
       (stored ["/h/n/2024-03-22_01:00:00.gz"; "/h/n/2024-03-22_02:00:00.gz"])
     = Return true (stored []).
Proof. vm_compute. repeat split; reflexivity. Qed.

(** ** The handler *)

Lemma backup_outcome E now w :
  (exists w', backup E now w = Return true w')
  \/ (exists e w', backup E now w = Raise e w').
Proof.
  unfold backup, bind.
  match goal with |- context [for_each ?l ?f w] =>
    destruct (for_each l f w) as [[] w'|e w'] end; [left|right]; eauto.
Qed.

Lemma clean_up_outcome E now w :
  (exists w', clean_up E now w = Return true w')
  \/ (exists e w', clean_up E now w = Raise e w').
Proof.
  unfold clean_up, bind.
  destruct (prefixes now w) as [[wp mp] w0|e w0]; [|right; eauto].
  match goal with |- context [for_each ?l ?f w0] =>
    destruct (for_each l f w0) as [[] w'|e w'] end; [left|right]; eauto.
Qed.

Lemma error_report_outcome E body messages w :
  match Urllib.Request (JANDI_API_URL E) (mkreport body messages) with
  | inl e => error_report E body messages w = Raise e w
  | inr sent =>
      let w' := mkworld (bucket w) (shell_log w) (sent :: requests w) in
      match urlopen E sent with
      | inl e => error_report E body messages w = Raise e w'
      | inr code => error_report E body messages w = Return code w'
      end
  end.
Proof.
  unfold error_report, bind, lift.
  destruct (Urllib.Request _ _) as [e|sent]; [reflexivity|].
  unfold ret, urlopen_call. cbv zeta.
  destruct (urlopen E sent); reflexivity.
Qed.

Lemma report_then_raise {B} E body messages exc w (r : B) w' :
  (error_report E body messages ;;; raise exc) w <> Return r w'.
Proof.
  unfold bind. pose proof (error_report_outcome E body messages w) as H.
  destruct (Urllib.Request _ _) as [e|sent].
  - rewrite H. discriminate.
  - cbv zeta in H. destruct (urlopen E sent); rewrite H; discriminate.
Qed.

Lemma handler_Return_iff E event context w r w' :
  lambda_handler E event context w = Return r w'
  <-> r = mkresponse 200 (json_dumps "success")
      /\ exists w1, backup E (get_now E) w = Return true w1
                    /\ clean_up E (get_now E) w1 = Return true w'.
Proof.
  unfold lambda_handler, try_except_else, bind at 1.
  destruct (backup_outcome E (get_now E) w) as [(w1 & Hb)|(e & w1 & Hb)];
    rewrite Hb.
  - unfold bind at 1.
    destruct (clean_up_outcome E (get_now E) w1) as [(w2 & Hc)|(e & w2 & Hc)];
      rewrite Hc.
    + unfold ret. split.
      * intros H. injection H as <- <-. split; [reflexivity|].
        exists w1. split; [reflexivity|exact Hc].
      * intros (-> & wa & Ha & Hca). injection Ha as <-.
        rewrite Hc in Hca. injection Hca as <-. reflexivity.
    + split.
      * intros H. exfalso. exact (report_then_raise _ _ _ _ _ _ _ H).
      * intros (_ & wa & Ha & Hca). injection Ha as <-.
        rewrite Hc in Hca. discriminate.
  - split.
    + intros H. exfalso. exact (report_then_raise _ _ _ _ _ _ _ H).
    + intros (_ & wa & Ha & _). discriminate.
Qed.

(** C10. Both phases either return [True] or raise, on every input; and the
    handler returns (always the same status object) exactly when the backup
    phase and then the retention phase returned: the two booleans it binds
    play no part. *)
Theorem phases_return_only_True E event context w :
  (forall now v,
      (exists v', backup E now v = Return true v')
      \/ (exists e v', backup E now v = Raise e v'))
  /\ (forall now v,
      (exists v', clean_up E now v = Return true v')
      \/ (exists e v', clean_up E now v = Raise e v'))
  /\ (forall r w',
      lambda_handler E event context w = Return r w'
      <-> r = mkresponse 200 (json_dumps "success")
          /\ exists w1, backup E (get_now E) w = Return true w1
                        /\ clean_up E (get_now E) w1 = Return true w').
Proof.
  split; [intros; apply backup_outcome|].
  split; [intros; apply clean_up_outcome|].
  intros r w'. apply handler_Return_iff.
Qed.

(** the webhook call [lambda_handler] makes for the exception [exc] *)
Lemma handler_on_failure E event context w exc w1 :
  (backup E (get_now E) w = Raise exc w1
   \/ exists wa, backup E (get_now E) w = Return true wa
                 /\ clean_up E (get_now E) wa = Raise exc w1) ->
  lambda_handler E event context w
  = (error_report E "DB 백업관리 실패"
       [("now", get_now E); ("exc", str_exn exc);
        ("event", event); ("context", context)] ;;;
     raise exc) w1.
Proof.
  intros H. unfold lambda_handler, try_except_else, bind at 1.
  destruct H as [Hb|(wa & Hb & Hc)]; rewrite Hb; [reflexivity|].
  unfold bind at 1. rewrite Hc. reflexivity.
Qed.

Lemma request_of_unset_address data :
  Urllib.Request None data = inl (ValueError "unknown url type: 'None'").
Proof. reflexivity. Qed.

(** C8, as amended.  When both phases return, the handler returns the
    status object with code 200 and the JSON text of [success] as body, and
    it returns nothing else ever.  When a phase raises [exc], the handler
    builds the report carrying [now], [exc], [event] and [context].  If no
    request can be built for [JANDI_API_URL] (it has no scheme, or it is not
    set at all), the [ValueError] of the constructor leaves the handler in
    place of [exc] and nothing is sent.  Otherwise the report is sent; if
    the webhook call returns, [exc] itself is raised again, and if the
    webhook call raises, that exception leaves the handler in place of
    [exc]. *)
Theorem lambda_handler_all_or_nothing E event context w :
  (forall w1 w2,
      backup E (get_now E) w = Return true w1 ->
      clean_up E (get_now E) w1 = Return true w2 ->
      lambda_handler E event context w
      = Return (mkresponse 200 (json_dumps "success")) w2)
  /\ (forall r w',
      lambda_handler E event context w = Return r w' ->
      r = mkresponse 200 (json_dumps "success"))
  /\ (forall exc w1,
      (backup E (get_now E) w = Raise exc w1
       \/ exists wa, backup E (get_now E) w = Return true wa
                     /\ clean_up E (get_now E) wa = Raise exc w1) ->
      let report :=
        mkreport "DB 백업관리 실패"
          [("now", get_now E); ("exc", str_exn exc);
           ("event", event); ("context", context)] in
      (forall e',
          Urllib.Request (JANDI_API_URL E) report = inl e' ->
          lambda_handler E event context w = Raise e' w1)
      /\ (JANDI_API_URL E = None ->
          lambda_handler E event context w
          = Raise (ValueError "unknown url type: 'None'") w1)
      /\ (forall sent,
          Urllib.Request (JANDI_API_URL E) report = inr sent ->
          let w' := mkworld (bucket w1) (shell_log w1) (sent :: requests w1) in
          (forall code, urlopen E sent = inr code ->
                        lambda_handler E event context w = Raise exc w')
          /\ (forall e', urlopen E sent = inl e' ->
                         lambda_handler E event context w = Raise e' w'))).
Proof.
  split; [|split].
  - intros w1 w2 Hb Hc. unfold lambda_handler, try_except_else, bind.
    rewrite Hb, Hc. reflexivity.
  - intros r w' H.
    apply handler_Return_iff in H. apply H.
  - intros exc w1 H report. rewrite (handler_on_failure _ _ _ _ _ _ H).
    unfold bind.
    pose proof (error_report_outcome E "DB 백업관리 실패"
                  [("now", get_now E); ("exc", str_exn exc);
                   ("event", event); ("context", context)] w1) as Hrep.
    fold report in Hrep.
    split; [|split].
    + intros e' He. rewrite He in Hrep. rewrite Hrep. reflexivity.
    + intros Hnone. rewrite Hnone, request_of_unset_address in Hrep.
      rewrite Hrep. reflexivity.
    + intros sent Hsent. cbv zeta. rewrite Hsent in Hrep. cbv zeta in Hrep.
      split; intros x Hx; rewrite Hx in Hrep; rewrite Hrep; reflexivity.
Qed.

Lemma lambda_handler_all_or_nothing_witness :
  lambda_handler (calm (Date.mkdate 2024 3 15)) "event" "context" (stored [])
  = Return (mkresponse 200 (json_dumps "success"))
           (mkworld ["/h/n/2024-03-15_02:00:00.gz"]
              ["rm -rf /tmp/*";
               "/opt/bin/mysqldump --single-transaction -h h --port 3306 -u u -pp n  | gzip -9 > /tmp/h/n/2024-03-15_02:00:00.gz;"]
              []).
Proof.
  destruct (lambda_handler_all_or_nothing
              (calm (Date.mkdate 2024 3 15)) "event" "context" (stored []))
    as (Hok & _ & _).
  apply (Hok (mkworld ["/h/n/2024-03-15_02:00:00.gz"]
              ["rm -rf /tmp/*";
               "/opt/bin/mysqldump --single-transaction -h h --port 3306 -u u -pp n  | gzip -9 > /tmp/h/n/2024-03-15_02:00:00.gz;"]
              [])).
  - vm_compute; reflexivity.
  - vm_compute; reflexivity.
Defined.

(** C8, the claim as stated fails.  With [JANDI_API_URL] not set, a failed
    upload is not reported at all: building the request raises, no call is
    made, and the handler raises that [ValueError], not the upload error it
    caught.  With the address set and the webhook out of reach, the report
    is sent once and the handler raises the [URLError] of the call, again
    not the upload error.  And the body of the status object is not the
    seven letters of [success] but their JSON text, quotes included. *)
Lemma report_failure_masks_the_original :
  backup (upload_and_webhook_fail (Date.mkdate 2024 3 15))
         "2024-03-15_02:00:00" (stored [])
  = Raise (S3UploadFailedError "upload failed")
      (mkworld []
         ["/opt/bin/mysqldump --single-transaction -h h --port 3306 -u u -pp n  | gzip -9 > /tmp/h/n/2024-03-15_02:00:00.gz;"]
         [])
  /\ lambda_handler (upload_and_webhook_fail (Date.mkdate 2024 3 15))
                    "event" "context" (stored [])
     = Raise (ValueError "unknown url type: 'None'")
         (mkworld []
            ["/opt/bin/mysqldump --single-transaction -h h --port 3306 -u u -pp n  | gzip -9 > /tmp/h/n/2024-03-15_02:00:00.gz;"]
            [])
  /\ lambda_handler (webhook_down (Date.mkdate 2024 3 15))
                    "event" "context" (stored [])
     = Raise (URLError "<urlopen error timed out>")
         (mkworld []
            ["/opt/bin/mysqldump --single-transaction -h h --port 3306 -u u -pp n  | gzip -9 > /tmp/h/n/2024-03-15_02:00:00.gz;"]
            [mkrequest "https://wh.jandi.com/connect-api/webhook/1/abc"
               (mkreport "DB 백업관리 실패"
                  [("now", "2024-03-15_02:00:00"); ("exc", "upload failed");
                   ("event", "event"); ("context", "context")])])
  /\ String.length (json_dumps "success") = 9%nat.
Proof. vm_compute. repeat split; reflexivity. Qed.

Lemma phases_return_only_True_witness :
  exists w1,
    backup (calm (Date.mkdate 2024 3 15)) "2024-03-15_02:00:00" (stored [])
    = Return true w1
    /\ clean_up (calm (Date.mkdate 2024 3 15)) "2024-03-15_02:00:00" w1
       = Return true w1.
Proof.
  destruct (phases_return_only_True
              (calm (Date.mkdate 2024 3 15)) "event" "context" (stored []))
    as (_ & _ & Hiff).
  destruct (proj1 (Hiff (mkresponse 200 (json_dumps "success"))
              (mkworld ["/h/n/2024-03-15_02:00:00.gz"]
                 ["rm -rf /tmp/*";
                  "/opt/bin/mysqldump --single-transaction -h h --port 3306 -u u -pp n  | gzip -9 > /tmp/h/n/2024-03-15_02:00:00.gz;"]
                 [])))
    as (_ & w1 & Hb & Hc).
  - vm_compute; reflexivity.
  - exists w1. split; [exact Hb|].
    vm_compute in Hb. injection Hb as <-. vm_compute. reflexivity.
Defined.

(** ** The namer and the key parser *)

Lemma lacks_app c a b : Str.lacks c (a ++ b) = Str.lacks c a && Str.lacks c b.
Proof.
  induction a as [|x a IH]; simpl; [reflexivity|].
  rewrite IH. apply andb_assoc.
Qed.

Lemma rfind_lacks c s : Str.lacks c s = true -> Str.rfind c s = -1.
Proof.
  induction s as [|x s IH]; simpl; [reflexivity|].
  intros H. apply andb_true_iff in H as [Hx Hs]. rewrite (IH Hs). simpl.
  apply negb_true_iff in Hx. rewrite Hx. reflexivity.
Qed.

Lemma rfind_bounds c s : -1 <= Str.rfind c s < Str.len s.
Proof.
  unfold Str.len. induction s as [|x s IH]; simpl Str.rfind; simpl String.length.
  - lia.
  - destruct (0 <=? Str.rfind c s) eqn:H; [lia|].
    destruct (Ascii.eqb x c); lia.
Qed.

Lemma rfind_last c a f :
  Str.lacks c f = true -> Str.rfind c (a ++ String c f) = Str.len a.
Proof.
  intros Hf. unfold Str.len. induction a as [|x a IH].
  - simpl. rewrite (rfind_lacks _ _ Hf). simpl. rewrite Ascii.eqb_refl. reflexivity.
  - simpl Str.rfind. simpl append. simpl Str.rfind. rewrite IH.
    replace (0 <=? Z.of_nat (String.length a)) with true
      by (symmetry; apply Z.leb_le; lia).
    simpl String.length. lia.
Qed.

Lemma substring_all s : String.substring 0 (String.length s) s = s.
Proof. induction s as [|x s IH]; simpl; [reflexivity|now rewrite IH]. Qed.

Lemma take_app a b : Str.take (Str.len a) (a ++ b) = a.
Proof.
  unfold Str.take, Str.len. rewrite Nat2Z.id.
  induction a as [|x a IH]; simpl.
  - destruct b; reflexivity.
  - now rewrite IH.
Qed.

Lemma drop_app a b : Str.drop (Str.len a) (a ++ b) = b.
Proof.
  unfold Str.drop, Str.len. rewrite Nat2Z.id.
  induction a as [|x a IH]; simpl.
  - rewrite Nat.sub_0_r. apply substring_all.
  - exact IH.
Qed.

Lemma drop_app_succ a c b : Str.drop (Str.len a + 1) (a ++ String c b) = b.
Proof.
  replace (Str.len a + 1) with (Str.len (a ++ String c EmptyString)).
  - replace (a ++ String c b) with ((a ++ String c EmptyString) ++ b)
      by (rewrite append_assoc; reflexivity).
    apply drop_app.
  - unfold Str.len. rewrite length_append. simpl. lia.
Qed.

Lemma os_path_split_tail dir file :
  Str.lacks "/" file = true ->
  snd (OsPath.split (dir ++ "/" ++ file)) = file.
Proof.
  intros H. unfold OsPath.split. cbv zeta. unfold snd.
  change ("/" ++ file) with (String OsPath.sep file).
  rewrite (rfind_last OsPath.sep dir file H). apply drop_app_succ.
Qed.

Lemma all_char_nonempty_other c x s :
  Ascii.eqb x c = false -> OsPath.all_char c (String x s) = false.
Proof. intros H. simpl. rewrite H. reflexivity. Qed.

Lemma splitext_stem x stem ext :
  Ascii.eqb x "." = false ->
  Str.lacks "/" (String x stem ++ "." ++ ext) = true ->
  Str.lacks "." ext = true ->
  OsPath.splitext (String x stem ++ "." ++ ext) = (String x stem, "." ++ ext).
Proof.
  intros Hx Hsep Hdot. unfold OsPath.splitext, OsPath.sep, OsPath.extsep.
  cbv zeta. rewrite (rfind_lacks _ _ Hsep).
  change ("." ++ ext) with (String "." ext).
  rewrite (rfind_last "." (String x stem) ext Hdot).
  replace (-1 <? Str.len (String x stem)) with true
    by (symmetry; apply Z.ltb_lt; unfold Str.len; lia).
  replace (Str.len (String x stem) - (-1 + 1)) with (Str.len (String x stem))
    by lia.
  change (-1 + 1) with 0.
  replace (Str.drop 0 (String x stem ++ String "." ext))
    with (String x stem ++ String "." ext)
    by (change 0 with (Str.len ""); symmetry; apply (drop_app "")).
  rewrite take_app. rewrite (all_char_nonempty_other _ _ _ Hx).
  rewrite drop_app. reflexivity.
Qed.

Lemma split_lacks c s : Str.lacks c s = true -> Str.split c s = [s].
Proof.
  induction s as [|x s IH]; simpl; [reflexivity|].
  intros H. apply andb_true_iff in H as [Hx Hs]. rewrite (IH Hs).
  apply negb_true_iff in Hx. rewrite Hx. reflexivity.
Qed.

Lemma split_once c a b :
  Str.lacks c a = true -> Str.lacks c b = true ->
  Str.split c (a ++ String c b) = [a; b].
Proof.
  intros Ha Hb. induction a as [|x a IH]; simpl.
  - rewrite (split_lacks _ _ Hb), Ascii.eqb_refl. reflexivity.
  - simpl in Ha. apply andb_true_iff in Ha as [Hx Ha]. rewrite (IH Ha).
    apply negb_true_iff in Hx. rewrite Hx. reflexivity.
Qed.

(** ** Digits *)

Lemma nat_of_digit_char n :
  0 <= n <= 9 -> nat_of_ascii (Strftime.digit_char n) = Z.to_nat (48 + n).
Proof.
  intros H. unfold Strftime.digit_char. apply nat_ascii_embedding. lia.
Qed.

Ltac split_range n lo hi :=
  first
    [ assert (n = hi) by lia; subst n
    | let H := fresh "Hr" in
      assert (H : n = lo \/ lo + 1 <= n) by lia;
      destruct H as [H|H];
      [ subst n
      | let lo' := eval compute in (lo + 1) in
        change (lo + 1) with lo' in H; split_range n lo' hi ] ].

Lemma match_digit_char n rest :
  0 <= n <= 9 ->
  Strptime.match_atom Strptime.digit (String (Strftime.digit_char n) rest)
  = Some (String (Strftime.digit_char n) EmptyString, rest).
Proof. intros H. split_range n 0 9; reflexivity. Qed.

Lemma decode_digit_char n s :
  0 <= n <= 9 ->
  Unicode.decode (String (Strftime.digit_char n) s)
  = Z.to_N (48 + n) :: Unicode.decode s.
Proof. intros H. split_range n 0 9; reflexivity. Qed.

Lemma decimal_digit n :
  0 <= n <= 9 -> Unicode.decimal (Z.to_N (48 + n)) = Some n.
Proof. intros H. split_range n 0 9; reflexivity. Qed.

Lemma digit_char_differs n c :
  0 <= n <= 9 ->
  (nat_of_ascii c < 48 \/ 57 < nat_of_ascii c)%nat ->
  Ascii.eqb (Strftime.digit_char n) c = false.
Proof.
  intros H Hc. apply Ascii.eqb_neq. intros Heq.
  pose proof (nat_of_digit_char n H) as Hn. rewrite Heq in Hn. lia.
Qed.

Lemma digit_char_value n :
  0 <= n <= 9 -> Z.of_nat (nat_of_ascii (Strftime.digit_char n)) - 48 = n.
Proof. intros H. rewrite (nat_of_digit_char n H). lia. Qed.

Lemma lacks_digit_char c n s :
  0 <= n <= 9 ->
  (nat_of_ascii c < 48 \/ 57 < nat_of_ascii c)%nat ->
  Str.lacks c (String (Strftime.digit_char n) s) = Str.lacks c s.
Proof.
  intros H Hc. simpl. rewrite (digit_char_differs n c H Hc). reflexivity.
Qed.

Lemma lacks_pad2 c n :
  0 <= n <= 99 ->
  (nat_of_ascii c < 48 \/ 57 < nat_of_ascii c)%nat ->
  Str.lacks c (Strftime.pad2 n) = true.
Proof.
  intros H Hc. unfold Strftime.pad2.
  rewrite !lacks_digit_char; auto.
  - Z.to_euclidean_division_equations; lia.
  - Z.to_euclidean_division_equations; lia.
Qed.

Lemma fmt_Y_digits y :
  1000 <= y <= 9999 ->
  Strftime.fmt_Y y
  = String (Strftime.digit_char (y / 10 / 10 / 10))
      (String (Strftime.digit_char (y / 10 / 10 mod 10))
         (String (Strftime.digit_char (y / 10 mod 10))
            (String (Strftime.digit_char (y mod 10)) EmptyString))).
Proof.
  intros H. unfold Strftime.fmt_Y. simpl.
  replace (y <? 10) with false by (symmetry; apply Z.ltb_ge; lia).
  replace (y / 10 <? 10) with false
    by (symmetry; apply Z.ltb_ge; Z.to_euclidean_division_equations; lia).
  replace (y / 10 / 10 <? 10) with false
    by (symmetry; apply Z.ltb_ge; Z.to_euclidean_division_equations; lia).
  replace (y / 10 / 10 / 10 <? 10) with true
    by (symmetry; apply Z.ltb_lt; Z.to_euclidean_division_equations; lia).
  reflexivity.
Qed.

Lemma year_digit_bounds y :
  1000 <= y <= 9999 ->
  0 <= y / 10 / 10 / 10 <= 9 /\ 0 <= y / 10 / 10 mod 10 <= 9
  /\ 0 <= y / 10 mod 10 <= 9 /\ 0 <= y mod 10 <= 9
  /\ ((y / 10 / 10 / 10 * 10 + y / 10 / 10 mod 10) * 10 + y / 10 mod 10) * 10
     + y mod 10 = y.
Proof.
  intros H. Z.to_euclidean_division_equations. lia.
Qed.

(** ** Parsing what [strftime] printed *)

Lemma re_match_m m q rest caps r :
  1 <= m <= 12 ->
  Strptime.re_match q rest = Some (caps, r) ->
  Strptime.re_match (Strptime.re_m :: q) (Strftime.pad2 m ++ rest)
  = Some (Strftime.pad2 m :: caps, r).
Proof.
  intros Hm Hq.
  split_range m 1 12;
    match goal with |- context [Strftime.pad2 ?k] =>
      let v := eval vm_compute in (Strftime.pad2 k) in
      change (Strftime.pad2 k) with v end;
    simpl; rewrite Hq; reflexivity.
Qed.

Lemma re_match_d d :
  1 <= d <= 31 ->
  Strptime.re_match [Strptime.re_d] (Strftime.pad2 d)
  = Some ([Strftime.pad2 d], EmptyString).
Proof.
  intros Hd. split_range d 1 31; reflexivity.
Qed.

Lemma re_match_Y y q rest caps r :
  1000 <= y <= 9999 ->
  Strptime.re_match q rest = Some (caps, r) ->
  Strptime.re_match (Strptime.re_Y :: q) (Strftime.fmt_Y y ++ rest)
  = Some (Strftime.fmt_Y y :: caps, r).
Proof.
  intros Hy Hq. rewrite (fmt_Y_digits y Hy).
  destruct (year_digit_bounds y Hy) as (H3 & H2 & H1 & H0 & _).
  unfold Strptime.re_Y.
  cbn [append Strptime.re_match Strptime.first_some Strptime.match_atoms].
  rewrite !match_digit_char by assumption.
  cbn [Strptime.match_atoms append]. rewrite Hq. reflexivity.
Qed.

Lemma int_from_digit acc n s :
  0 <= n <= 9 ->
  Strptime.int_from acc (Unicode.decode (String (Strftime.digit_char n) s))
  = Strptime.int_from (acc * 10 + n) (Unicode.decode s).
Proof.
  intros H. rewrite (decode_digit_char n s H). unfold Strptime.int_from.
  cbn [fold_left]. rewrite (decimal_digit n H). reflexivity.
Qed.

Lemma int_pad2 n : 0 <= n <= 99 -> Strptime.int (Strftime.pad2 n) = n.
Proof.
  intros H. unfold Strptime.int, Strftime.pad2.
  rewrite !int_from_digit by (Z.to_euclidean_division_equations; lia).
  simpl. Z.to_euclidean_division_equations; lia.
Qed.

Lemma int_fmt_Y y : 1000 <= y <= 9999 -> Strptime.int (Strftime.fmt_Y y) = y.
Proof.
  intros Hy. rewrite (fmt_Y_digits y Hy).
  destruct (year_digit_bounds y Hy) as (H3 & H2 & H1 & H0 & Hsum).
  unfold Strptime.int. rewrite !int_from_digit by assumption.
  simpl. rewrite <- Hsum at 5. lia.
Qed.

Lemma valid_bounds d :
  Date.valid d = true ->
  1 <= Date.year d <= 9999 /\ 1 <= Date.month d <= 12 /\ 1 <= Date.day d <= 31.
Proof.
  unfold Date.valid, Date.MINYEAR, Date.MAXYEAR. intros H.
  repeat (apply andb_true_iff in H as [H ?]).
  assert (Hm : 1 <= Date.month d <= 12) by lia.
  split; [lia|]. split; [exact Hm|].
  assert (Date.days_in_month (Date.year d) (Date.month d) <= 31); [|lia].
  unfold Date.days_in_month.
  destruct ((Date.month d =? 2) && Date.is_leap (Date.year d)); [lia|].
  destruct d as [y m dd]. simpl in *. clear -Hm.
  split_range m 1 12; vm_compute; discriminate.
Qed.

Lemma re_match_literal c q s :
  Strptime.re_match (Strptime.Literal c :: q) (String c s)
  = Strptime.re_match q s.
Proof. simpl. rewrite Ascii.eqb_refl. reflexivity. Qed.

Lemma strptime_date_strftime d :
  Date.valid d = true -> 1000 <= Date.year d ->
  Strptime.strptime_date (Strftime.date_Ymd d) = Some d.
Proof.
  intros Hv Hy. destruct (valid_bounds d Hv) as (Hyr & Hm & Hd).
  assert (Hre : Strptime.re_match Strptime.fmt_date (Strftime.date_Ymd d)
                = Some ([Strftime.fmt_Y (Date.year d);
                         Strftime.pad2 (Date.month d);
                         Strftime.pad2 (Date.day d)], EmptyString)).
  { unfold Strftime.date_Ymd, Strptime.fmt_date.
    apply re_match_Y; [lia|].
    change ("-" ++ Strftime.pad2 (Date.month d) ++ "-" ++ Strftime.pad2 (Date.day d))
      with (String "-" (Strftime.pad2 (Date.month d)
                        ++ String "-" (Strftime.pad2 (Date.day d)))).
    rewrite re_match_literal. apply re_match_m; [exact Hm|].
    rewrite re_match_literal. apply re_match_d, Hd. }
  unfold Strptime.strptime_date. rewrite Hre.
  rewrite int_fmt_Y, !int_pad2 by lia.
  destruct d as [y m dd]. simpl. simpl in Hv. rewrite Hv. reflexivity.
Qed.

Lemma lacks_fmt_Y c y :
  1000 <= y <= 9999 ->
  (nat_of_ascii c < 48 \/ 57 < nat_of_ascii c)%nat ->
  Str.lacks c (Strftime.fmt_Y y) = true.
Proof.
  intros Hy Hc. rewrite (fmt_Y_digits y Hy).
  destruct (year_digit_bounds y Hy) as (H3 & H2 & H1 & H0 & _).
  rewrite !lacks_digit_char by assumption. reflexivity.
Qed.

Lemma lacks_date_Ymd c d :
  Date.valid d = true -> 1000 <= Date.year d ->
  (nat_of_ascii c < 48 \/ 57 < nat_of_ascii c)%nat ->
  Ascii.eqb "-" c = false ->
  Str.lacks c (Strftime.date_Ymd d) = true.
Proof.
  intros Hv Hy Hc Hdash. destruct (valid_bounds d Hv) as (Hyr & Hm & Hd).
  unfold Strftime.date_Ymd.
  rewrite !lacks_app, lacks_fmt_Y, !lacks_pad2 by (auto; lia).
  cbn [Str.lacks]. rewrite Hdash. reflexivity.
Qed.

Lemma lacks_time_HMS c t :
  0 <= Strftime.hour t <= 23 -> 0 <= Strftime.minute t <= 59 ->
  0 <= Strftime.second t <= 59 ->
  (nat_of_ascii c < 48 \/ 57 < nat_of_ascii c)%nat ->
  Ascii.eqb ":" c = false ->
  Str.lacks c (Strftime.time_HMS t) = true.
Proof.
  intros HH HM HS Hc Hcolon. unfold Strftime.time_HMS.
  rewrite !lacks_app, !lacks_pad2 by (auto; lia).
  cbn [Str.lacks]. rewrite Hcolon. reflexivity.
Qed.

Lemma datetime_head d t :
  Date.valid d = true -> 1000 <= Date.year d ->
  exists x stem,
    Strftime.datetime_Ymd_HMS d t = String x stem /\ Ascii.eqb x "." = false.
Proof.
  intros Hv Hy. destruct (valid_bounds d Hv) as (Hyr & _ & _).
  unfold Strftime.datetime_Ymd_HMS, Strftime.date_Ymd.
  rewrite (fmt_Y_digits _ (conj Hy (proj2 Hyr))).
  destruct (year_digit_bounds _ (conj Hy (proj2 Hyr))) as (H3 & _).
  simpl append. eexists _, _. split; [reflexivity|].
  apply digit_char_differs; [exact H3|]. left.
  change (nat_of_ascii ".") with 46%nat. lia.
Qed.

(** C7, as amended.  For every root, host and name, every valid date from
    year 1000 on, every time of day and every extension without a slash or a
    dot (such as [gz] and [sql]), parsing the key the namer builds gives
    back the timestamp: its date text, its time text and the date.  The
    directory part, and with it host and name, is dropped by the parser. *)
Theorem parse_key_recovers_timestamp root host name d t ext :
  Date.valid d = true -> 1000 <= Date.year d ->
  0 <= Strftime.hour t <= 23 -> 0 <= Strftime.minute t <= 59 ->
  0 <= Strftime.second t <= 59 ->
  Str.lacks "/" ext = true -> Str.lacks "." ext = true ->
  parse_key (PATH_TEMPLATE root host name
               (Strftime.datetime_Ymd_HMS d t ++ "." ++ ext))
  = inr (Strftime.date_Ymd d, Strftime.time_HMS t, d).
Proof.
  intros Hv Hy HH HM HS Hsep Hdot.
  destruct (valid_bounds d Hv) as (Hyr & _ & _).
  assert (Hnd : forall c, c = "/"%char \/ c = "."%char \/ c = "_"%char ->
                 (nat_of_ascii c < 48 \/ 57 < nat_of_ascii c)%nat
                 /\ Ascii.eqb "-" c = false /\ Ascii.eqb ":" c = false).
  { intros c [Hc|[Hc|Hc]]; subst c; vm_compute; repeat split; auto; right; lia. }
  assert (Hts : forall c, c = "/"%char \/ c = "."%char ->
                 Str.lacks c (Strftime.datetime_Ymd_HMS d t) = true).
  { intros c Hc. destruct (Hnd c) as (H1 & H2 & H3); [tauto|].
    unfold Strftime.datetime_Ymd_HMS.
    rewrite !lacks_app, lacks_date_Ymd, lacks_time_HMS by assumption.
    destruct Hc as [Hc|Hc]; subst c; reflexivity. }
  set (ts := Strftime.datetime_Ymd_HMS d t) in *.
  assert (Hfile : Str.lacks "/" (ts ++ "." ++ ext) = true).
  { rewrite !lacks_app, Hts, Hsep by tauto. reflexivity. }
  unfold parse_key.
  replace (PATH_TEMPLATE root host name (ts ++ "." ++ ext))
    with ((root ++ "/" ++ host ++ "/" ++ name) ++ "/" ++ (ts ++ "." ++ ext)).
  2:{ unfold PATH_TEMPLATE. repeat (rewrite append_assoc; simpl). reflexivity. }
  pose proof (os_path_split_tail (root ++ "/" ++ host ++ "/" ++ name)
                (ts ++ "." ++ ext) Hfile) as Htail.
  destruct (OsPath.split _) as [hd fn]. cbn [snd] in Htail. subst fn.
  cbv beta iota.
  assert (Hstem : OsPath.splitext (ts ++ "." ++ ext) = (ts, "." ++ ext)).
  { destruct (datetime_head d t Hv Hy) as (x & stem & Heq & Hx).
    fold ts in Heq. rewrite Heq in *.
    apply splitext_stem; assumption. }
  rewrite Hstem.
  subst ts. unfold Strftime.datetime_Ymd_HMS.
  destruct (Hnd "_"%char) as (H1 & H2 & H3); [tauto|].
  change ("_" ++ Strftime.time_HMS t) with (String "_" (Strftime.time_HMS t)).
  rewrite split_once
    by (first [apply lacks_date_Ymd|apply lacks_time_HMS]; assumption).
  rewrite (strptime_date_strftime d Hv Hy). reflexivity.
Qed.

Lemma parse_key_recovers_timestamp_witness :
  parse_key "/tmp/h/n/2024-03-10_02:00:00.gz"
  = inr ("2024-03-10", "02:00:00", Date.mkdate 2024 3 10).
Proof.
  apply (parse_key_recovers_timestamp "/tmp" "h" "n" (Date.mkdate 2024 3 10)
           (Strftime.mkclock 2 0 0) "gz").
  - reflexivity.
  - simpl; lia.
  - simpl; lia.
  - simpl; lia.
  - simpl; lia.
  - reflexivity.
  - reflexivity.
Defined.

(** C7, the claim as stated fails: the parser gives the same result for the
    keys of two different databases, so host and name do not come back from
    it; and with the extension [tar.gz] the time text it returns is
    [02:00:00.tar], not the time the namer was given. *)
Lemma parse_key_forgets_host_and_name :
  parse_key (PATH_TEMPLATE "" "h1" "n1" ("2024-03-10_02:00:00" ++ "." ++ "gz"))
  = parse_key (PATH_TEMPLATE "" "h2" "n2" ("2024-03-10_02:00:00" ++ "." ++ "gz"))
  /\ parse_key (PATH_TEMPLATE "" "h1" "n1"
                  ("2024-03-10_02:00:00" ++ "." ++ "tar.gz"))
     = inr ("2024-03-10", "02:00:00.tar", Date.mkdate 2024 3 10).
Proof. split; reflexivity. Qed.

(** ** Parsing the [now] that [get_now] printed *)

Ltac eval_pad2 :=
  repeat match goal with |- context [Strftime.pad2 ?k] =>
    let v := eval vm_compute in (Strftime.pad2 k) in
    change (Strftime.pad2 k) with v end.

Lemma re_match_d_then d q rest caps r :
  1 <= d <= 31 ->
  Strptime.re_match q rest = Some (caps, r) ->
  Strptime.re_match (Strptime.re_d :: q) (Strftime.pad2 d ++ rest)
  = Some (Strftime.pad2 d :: caps, r).
Proof.
  intros Hd Hq.
  split_range d 1 31; eval_pad2; simpl; rewrite Hq; reflexivity.
Qed.

Lemma re_match_H h q rest caps r :
  0 <= h <= 23 ->
  Strptime.re_match q rest = Some (caps, r) ->
  Strptime.re_match (Strptime.re_H :: q) (Strftime.pad2 h ++ rest)
  = Some (Strftime.pad2 h :: caps, r).
Proof.
  intros Hh Hq.
  split_range h 0 23; eval_pad2; simpl; rewrite Hq; reflexivity.
Qed.

Lemma re_match_M m q rest caps r :
  0 <= m <= 59 ->
  Strptime.re_match q rest = Some (caps, r) ->
  Strptime.re_match (Strptime.re_M :: q) (Strftime.pad2 m ++ rest)
  = Some (Strftime.pad2 m :: caps, r).
Proof.
  intros Hm Hq.
  split_range m 0 59; eval_pad2; simpl; rewrite Hq; reflexivity.
Qed.

Lemma re_match_S s :
  0 <= s <= 59 ->
  Strptime.re_match [Strptime.re_S] (Strftime.pad2 s)
  = Some ([Strftime.pad2 s], EmptyString).
Proof.
  intros Hs. split_range s 0 59; reflexivity.
Qed.

Lemma strptime_now_of_strftime d t :
  Date.valid d = true -> 1000 <= Date.year d ->
  0 <= Strftime.hour t <= 23 -> 0 <= Strftime.minute t <= 59 ->
  0 <= Strftime.second t <= 59 ->
  Strptime.strptime_datetime_date (Strftime.datetime_Ymd_HMS d t) = Some d.
Proof.
  intros Hv Hy HH HM HS. destruct (valid_bounds d Hv) as (Hyr & Hm & Hd).
  assert (Hre : Strptime.re_match Strptime.fmt_datetime
                  (Strftime.datetime_Ymd_HMS d t)
                = Some ([Strftime.fmt_Y (Date.year d);
                         Strftime.pad2 (Date.month d);
                         Strftime.pad2 (Date.day d);
                         Strftime.pad2 (Strftime.hour t);
                         Strftime.pad2 (Strftime.minute t);
                         Strftime.pad2 (Strftime.second t)], EmptyString)).
  { unfold Strftime.datetime_Ymd_HMS, Strftime.date_Ymd, Strftime.time_HMS,
      Strptime.fmt_datetime, Strptime.fmt_date.
    cbn [app]. repeat (rewrite append_assoc; cbn [append]).
    apply re_match_Y; [lia|].
    rewrite re_match_literal. apply re_match_m; [exact Hm|].
    rewrite re_match_literal. apply re_match_d_then; [exact Hd|].
    rewrite re_match_literal. apply re_match_H; [exact HH|].
    rewrite re_match_literal. apply re_match_M; [exact HM|].
    rewrite re_match_literal. apply re_match_S, HS. }
  unfold Strptime.strptime_datetime_date. rewrite Hre.
  rewrite int_fmt_Y, !int_pad2 by lia.
  replace (Strftime.second t <=? 59) with true by (symmetry; apply Z.leb_le; lia).
  destruct d as [y m dd]. simpl. simpl in Hv. rewrite Hv. reflexivity.
Qed.

(** ** Ordinals and calendar dates *)

Ltac eval_tables :=
  repeat match goal with
    | H : context [Date.index ?l ?c] |- _ =>
        let v := eval vm_compute in (Date.index l c) in
        change (Date.index l c) with v in H
    | |- context [Date.index ?l ?c] =>
        let v := eval vm_compute in (Date.index l c) in
        change (Date.index l c) with v
    | H : context [?a && ?b] |- _ =>
        let v := eval vm_compute in (a && b) in
        change (a && b) with v in H
    | |- context [?a && ?b] =>
        let v := eval vm_compute in (a && b) in
        change (a && b) with v
    end.

Section Calendar.
Import Date.

Lemma ord2ymd_tail y (leap : bool) r :
  0 <= r <= 364 ->
  let m := Z.shiftr (r + 50) 5 in
  let preceding :=
    index DAYS_BEFORE_MONTH m + (if (2 <? m) && leap then 1 else 0) in
  let res :=
    if r <? preceding then
      mkdate y (m - 1)
        (r - (preceding
              - (index DAYS_IN_MONTH (m - 1)
                 + (if (m - 1 =? 2) && leap then 1 else 0))) + 1)
    else mkdate y m (r - preceding + 1) in
  year res = y /\ 1 <= month res <= 12 /\ 1 <= day res
  /\ day res <= (if (month res =? 2) && leap then 29
                 else index DAYS_IN_MONTH (month res))
  /\ index DAYS_BEFORE_MONTH (month res)
     + (if (2 <? month res) && leap then 1 else 0) + day res = r + 1.
Proof.
  intros Hr. rewrite Z.shiftr_div_pow2 by lia. change (2 ^ 5) with 32.
  assert (Hk : 1 <= (r + 50) / 32 <= 12)
    by (Z.to_euclidean_division_equations; lia).
  assert (Hb : 32 * ((r + 50) / 32) <= r + 50 < 32 * ((r + 50) / 32) + 32)
    by (Z.to_euclidean_division_equations; lia).
  set (k := (r + 50) / 32) in *. clearbody k.
  split_range k 1 12; destruct leap; cbv zeta;
    match goal with |- context [r <? ?p] => destruct (Z.ltb_spec r p) end;
    cbn [year month day];
    eval_tables; cbv beta iota in *; lia.
Qed.

Lemma year_parts n400 n100 n4 n1 :
  0 <= n100 <= 3 -> 0 <= n4 <= 24 -> 0 <= n1 <= 3 ->
  days_before_year (n400 * 400 + 1 + n100 * 100 + n4 * 4 + n1)
  = 146097 * n400 + 36524 * n100 + 1461 * n4 + 365 * n1
  /\ is_leap (n400 * 400 + 1 + n100 * 100 + n4 * 4 + n1)
     = (n1 =? 3) && (negb (n4 =? 24) || (n100 =? 3)).
Proof.
  intros H100 H4 H1. split.
  - unfold days_before_year. cbv zeta.
    Z.to_euclidean_division_equations. lia.
  - unfold is_leap.
    destruct (Z.eqb_spec n1 3), (Z.eqb_spec n4 24), (Z.eqb_spec n100 3);
      cbn [andb orb negb];
      repeat match goal with
        | |- context [?a mod ?b =? 0] => destruct (Z.eqb_spec (a mod b) 0)
        end;
      cbn [andb orb negb]; try reflexivity;
      exfalso; Z.to_euclidean_division_equations; lia.
Qed.

Lemma ord2ymd_spec n :
  1 <= n <= MAXORDINAL ->
  valid (ord2ymd n) = true /\ toordinal (ord2ymd n) = n.
Proof.
  intros Hn. unfold ord2ymd, DI400Y, DI100Y, DI4Y, MAXORDINAL in *. cbv zeta.
  pose proof (Z.div_mod (n - 1) 146097 ltac:(lia)) as E400.
  pose proof (Z.mod_pos_bound (n - 1) 146097 ltac:(lia)) as B400.
  set (n400 := (n - 1) / 146097) in *. set (r400 := (n - 1) mod 146097) in *.
  pose proof (Z.div_mod r400 36524 ltac:(lia)) as E100.
  pose proof (Z.mod_pos_bound r400 36524 ltac:(lia)) as B100.
  set (n100 := r400 / 36524) in *. set (r100 := r400 mod 36524) in *.
  pose proof (Z.div_mod r100 1461 ltac:(lia)) as E4.
  pose proof (Z.mod_pos_bound r100 1461 ltac:(lia)) as B4.
  set (n4 := r100 / 1461) in *. set (r4 := r100 mod 1461) in *.
  pose proof (Z.div_mod r4 365 ltac:(lia)) as E1.
  pose proof (Z.mod_pos_bound r4 365 ltac:(lia)) as B1.
  set (n1 := r4 / 365) in *. set (r1 := r4 mod 365) in *.
  assert (H400 : 0 <= n400 <= 24) by (subst n400; Z.to_euclidean_division_equations; lia).
  clearbody n400 r400 n100 r100 n4 r4 n1 r1.
  assert (0 <= n100 <= 4) by lia. assert (0 <= n4 <= 24) by lia.
  assert (0 <= n1 <= 4) by lia.
  destruct (Z.eqb_spec n1 4) as [Hn1|Hn1]; cbn [orb].
  - (* last day of a leap year *)
    assert (n100 <= 3) by lia. assert (n4 <= 23) by lia.
    unfold valid, toordinal, ymd2ord, days_in_month, days_before_month,
      days_before_year, is_leap, MINYEAR, MAXYEAR. cbn [year month day].
    change (index DAYS_BEFORE_MONTH 12) with 334.
    change (index DAYS_IN_MONTH 12) with 31.
    change (12 =? 2) with false. change (2 <? 12) with true. cbn [andb].
    cbv zeta.
    replace ((n400 * 400 + 1 + n100 * 100 + n4 * 4 + n1 - 1) mod 4 =? 0)
      with true by (symmetry; apply Z.eqb_eq; Z.to_euclidean_division_equations; lia).
    cbn [andb].
    replace (negb ((n400 * 400 + 1 + n100 * 100 + n4 * 4 + n1 - 1) mod 100 =? 0))
      with true by (symmetry; apply negb_true_iff, Z.eqb_neq;
                    Z.to_euclidean_division_equations; lia).
    cbn [orb]. split.
    + repeat (apply andb_true_iff; split); apply Z.leb_le; lia.
    + Z.to_euclidean_division_equations. lia.
  - destruct (Z.eqb_spec n100 4) as [Hn100|Hn100].
    + (* last day of a 400-year cycle *)
      unfold valid, toordinal, ymd2ord, days_in_month, days_before_month,
        days_before_year, is_leap, MINYEAR, MAXYEAR. cbn [year month day].
      change (index DAYS_BEFORE_MONTH 12) with 334.
      change (index DAYS_IN_MONTH 12) with 31.
      change (12 =? 2) with false. change (2 <? 12) with true. cbn [andb].
      cbv zeta.
      replace ((n400 * 400 + 1 + n100 * 100 + n4 * 4 + n1 - 1) mod 4 =? 0)
        with true by (symmetry; apply Z.eqb_eq; Z.to_euclidean_division_equations; lia).
      cbn [andb].
      replace ((n400 * 400 + 1 + n100 * 100 + n4 * 4 + n1 - 1) mod 400 =? 0)
        with true by (symmetry; apply Z.eqb_eq; Z.to_euclidean_division_equations; lia).
      rewrite orb_true_r. split.
      * repeat (apply andb_true_iff; split); apply Z.leb_le; lia.
      * Z.to_euclidean_division_equations. lia.
    + assert (Hr1 : 0 <= r1 <= 364) by lia.
      destruct (year_parts n400 n100 n4 n1) as [Hdby Hleap]; try lia.
      set (y := n400 * 400 + 1 + n100 * 100 + n4 * 4 + n1) in *.
      set (leap := (n1 =? 3) && (negb (n4 =? 24) || (n100 =? 3))) in *.
      pose proof (ord2ymd_tail y leap r1 Hr1) as Ht. cbv zeta in Ht.
      match type of Ht with year ?res = _ /\ _ => set (d := res) in * end.
      destruct Ht as (Hy & Hm & Hd1 & Hd2 & Hsum).
      unfold valid, toordinal, ymd2ord, days_in_month, days_before_month,
        MINYEAR, MAXYEAR.
      rewrite Hy, Hleap, Hdby. split.
      * repeat (apply andb_true_iff; split); apply Z.leb_le;
          first [lia | subst y; lia].
      * lia.
Qed.

Lemma days_before_year_succ y :
  days_before_year (y + 1) = days_before_year y + (if is_leap y then 366 else 365).
Proof.
  unfold days_before_year, is_leap. cbv zeta.
  replace (y + 1 - 1) with y by lia.
  destruct (Z.eqb_spec (y mod 4) 0), (Z.eqb_spec (y mod 100) 0),
    (Z.eqb_spec (y mod 400) 0); cbn [andb orb negb];
    Z.to_euclidean_division_equations; lia.
Qed.

Lemma days_before_year_mono a b :
  a <= b -> days_before_year a <= days_before_year b.
Proof.
  intros H. unfold days_before_year. cbv zeta.
  Z.to_euclidean_division_equations. lia.
Qed.

(** the position of a valid date inside its year *)
Lemma day_of_year_bounds y m dd :
  valid (mkdate y m dd) = true ->
  1 <= days_before_month y m + dd <= (if is_leap y then 366 else 365).
Proof.
  unfold valid, days_in_month, days_before_month, MINYEAR, MAXYEAR.
  cbn [year month day]. intros H.
  repeat (apply andb_true_iff in H as [H ?]).
  assert (Hm : 1 <= m <= 12) by lia.
  split_range m 1 12; destruct (is_leap y);
    eval_tables; cbv beta iota in *; lia.
Qed.

Lemma day_of_year_inj y m1 d1 m2 d2 :
  valid (mkdate y m1 d1) = true -> valid (mkdate y m2 d2) = true ->
  days_before_month y m1 + d1 = days_before_month y m2 + d2 ->
  m1 = m2 /\ d1 = d2.
Proof.
  unfold valid, days_in_month, days_before_month, MINYEAR, MAXYEAR.
  cbn [year month day]. intros H1 H2.
  repeat (apply andb_true_iff in H1 as [H1 ?]).
  repeat (apply andb_true_iff in H2 as [H2 ?]).
  assert (Hm1 : 1 <= m1 <= 12) by lia. assert (Hm2 : 1 <= m2 <= 12) by lia.
  destruct (is_leap y);
  split_range m1 1 12; split_range m2 1 12;
    eval_tables; cbv beta iota in *; lia.
Qed.

Lemma toordinal_inj a b :
  valid a = true -> valid b = true -> toordinal a = toordinal b -> a = b.
Proof.
  destruct a as [y1 m1 d1], b as [y2 m2 d2]. intros Ha Hb.
  unfold toordinal, ymd2ord. cbn [year month day]. intros Heq.
  pose proof (day_of_year_bounds _ _ _ Ha) as Ba.
  pose proof (day_of_year_bounds _ _ _ Hb) as Bb.
  assert (y1 = y2).
  { destruct (Z.lt_trichotomy y1 y2) as [Hlt|[Heq'|Hgt]]; [|exact Heq'|].
    - pose proof (days_before_year_mono (y1 + 1) y2 ltac:(lia)).
      rewrite days_before_year_succ in *. lia.
    - pose proof (days_before_year_mono (y2 + 1) y1 ltac:(lia)).
      rewrite days_before_year_succ in *. lia. }
  subst y2.
  destruct (day_of_year_inj y1 m1 d1 m2 d2 Ha Hb) as [-> ->]; [lia|reflexivity].
Qed.

Lemma toordinal_bounds d :
  valid d = true -> 1 <= toordinal d <= MAXORDINAL.
Proof.
  destruct d as [y m dd]. intros Hv.
  pose proof (day_of_year_bounds _ _ _ Hv) as B.
  unfold toordinal, ymd2ord. cbn [year month day].
  unfold valid, MINYEAR, MAXYEAR in Hv. cbn [year month day] in Hv.
  repeat (apply andb_true_iff in Hv as [Hv ?]).
  pose proof (days_before_year_mono 1 y ltac:(lia)) as Hlo.
  pose proof (days_before_year_mono (y + 1) 10000 ltac:(lia)) as Hhi.
  rewrite days_before_year_succ in Hhi.
  change (days_before_year 1) with 0 in Hlo.
  change (days_before_year 10000) with 3652059 in Hhi.
  unfold MAXORDINAL. lia.
Qed.

Lemma fromordinal_toordinal d :
  valid d = true -> fromordinal (toordinal d) = d.
Proof.
  intros Hv. unfold fromordinal.
  destruct (ord2ymd_spec (toordinal d) (toordinal_bounds d Hv)) as [Hv' Ho].
  apply toordinal_inj; assumption.
Qed.

End Calendar.

(** * The rest of the module *)

(** ** [get_now] and the dates [clean_up] computes *)

(** X1. The text [get_now] prints for a clock reading (a date that exists,
    from year 1000 on, and a time of day) is parsed back by [clean_up] to
    the date of that reading: [clean_up] never rejects the handler's own
    [now]. *)
Theorem clean_up_parses_get_now E w :
  Date.valid (fst (local_time E)) = true ->
  1000 <= Date.year (fst (local_time E)) ->
  clock_ok (snd (local_time E)) ->
  strptime_now (get_now E) w = Return (fst (local_time E)) w.
Proof.
  intros Hv Hy (HH & HM & HS). unfold strptime_now, get_now.
  rewrite strptime_now_of_strftime by assumption. reflexivity.
Qed.

Lemma clean_up_parses_get_now_witness :
  strptime_now (get_now (calm (Date.mkdate 2024 2 29))) (stored [])
  = Return (Date.mkdate 2024 2 29) (stored []).
Proof.
  apply (clean_up_parses_get_now (calm (Date.mkdate 2024 2 29)) (stored [])).
  - reflexivity.
  - simpl; lia.
  - unfold clock_ok; simpl; lia.
Defined.

Lemma strptime_datetime_valid now today :
  Strptime.strptime_datetime_date now = Some today -> Date.valid today = true.
Proof.
  unfold Strptime.strptime_datetime_date.
  destruct (Strptime.re_match Strptime.fmt_datetime now)
    as [[[|cY [|cm [|cd [|cH [|cM [|cS [|x caps]]]]]]] [|c r]]|];
    try discriminate.
  destruct (Date.valid _) eqn:Hv; [|discriminate].
  destruct (_ <=? 59); [|discriminate].
  intros Heq. injection Heq as <-. exact Hv.
Qed.

(** X2. For a [now] that parses to the date [today], the two prefixes
    [clean_up] computes are the day text of the date 7 days before [today]
    and the month text of the date 28 days before it, both dates that
    exist; when [today] is within the first 28 days of year 1 there is no
    such date and an [OverflowError] is raised before anything is listed. *)
Theorem prefixes_name_earlier_dates now today w :
  Strptime.strptime_datetime_date now = Some today ->
  (28 < Date.toordinal today ->
   exists a b,
     prefixes now w = Return (Strftime.date_Ymd a, Strftime.date_Ym_ b) w
     /\ Date.valid a = true /\ Date.valid b = true
     /\ Date.toordinal a = Date.toordinal today - 7
     /\ Date.toordinal b = Date.toordinal today - 28)
  /\ (Date.toordinal today <= 28 ->
      exists msg, prefixes now w = Raise (OverflowError msg) w).
Proof.
  intros Hnow.
  pose proof (toordinal_bounds today (strptime_datetime_valid _ _ Hnow)) as Hb.
  unfold prefixes, strptime_now, date_minus_days, bind, ret, raise.
  rewrite Hnow. change (1 * 7) with 7. change (4 * 7) with 28. split.
  - intros Hbig.
    replace ((0 <? Date.toordinal today - 7)
             && (Date.toordinal today - 7 <=? Date.MAXORDINAL)) with true
      by (symmetry; apply andb_true_iff; split;
          [apply Z.ltb_lt|apply Z.leb_le]; lia).
    replace ((0 <? Date.toordinal today - 28)
             && (Date.toordinal today - 28 <=? Date.MAXORDINAL)) with true
      by (symmetry; apply andb_true_iff; split;
          [apply Z.ltb_lt|apply Z.leb_le]; lia).
    destruct (ord2ymd_spec (Date.toordinal today - 7)) as [Hva Hoa]; [lia|].
    destruct (ord2ymd_spec (Date.toordinal today - 28)) as [Hvb Hob]; [lia|].
    exists (Date.fromordinal (Date.toordinal today - 7)),
           (Date.fromordinal (Date.toordinal today - 28)).
    repeat split; assumption.
  - intros Hsmall.
    destruct ((0 <? Date.toordinal today - 7)
              && (Date.toordinal today - 7 <=? Date.MAXORDINAL)); [|eauto].
    replace (0 <? Date.toordinal today - 28) with false
      by (symmetry; apply Z.ltb_ge; lia).
    cbn [andb]. eauto.
Qed.

Lemma prefixes_name_earlier_dates_witness :
  exists a b,
    prefixes "2024-03-29_02:00:00" (stored [])
    = Return (Strftime.date_Ymd a, Strftime.date_Ym_ b) (stored [])
    /\ Date.valid a = true /\ Date.valid b = true
    /\ Date.toordinal a = Date.toordinal (Date.mkdate 2024 3 29) - 7
    /\ Date.toordinal b = Date.toordinal (Date.mkdate 2024 3 29) - 28.
Proof.
  apply (prefixes_name_earlier_dates "2024-03-29_02:00:00"
           (Date.mkdate 2024 3 29) (stored [])).
  - vm_compute; reflexivity.
  - vm_compute; reflexivity.
Defined.

Lemma prefix_append (a b : string) : String.prefix a (a ++ b) = true.
Proof.
  induction a as [|c a IH]; simpl; [destruct b; reflexivity|].
  destruct (Ascii.ascii_dec c c); [exact IH|contradiction].
Qed.

Lemma listed_file d p file :
  Str.startswith p file = true ->
  listed d p (PATH_TEMPLATE "" (host d) (name d) file) = true.
Proof. intros H. apply listed_iff. exists file. auto. Qed.

Lemma date_Ymd_starts_with_month d :
  Strftime.date_Ymd d = Strftime.date_Ym_ d ++ Strftime.pad2 (Date.day d).
Proof.
  unfold Strftime.date_Ymd, Strftime.date_Ym_.
  repeat (rewrite append_assoc; cbn [append]). reflexivity.
Qed.

(** X3. A dump stored under the key of the date [d] is found by the later
    runs: in a run whose date is 7 days after [d] the day prefix is the day
    text of [d] and lists the key, and in a run for which the date 28 days
    back falls in the month of [d] the month prefix lists it. *)
Theorem dump_is_listed_by_later_runs database d t w :
  Date.valid d = true -> 21 < Date.toordinal d ->
  (forall now today,
      Strptime.strptime_datetime_date now = Some today ->
      Date.toordinal today = Date.toordinal d + 7 ->
      exists mp,
        prefixes now w = Return (Strftime.date_Ymd d, mp) w
        /\ listed database (Strftime.date_Ymd d)
             (PATH_TEMPLATE "" (host database) (name database)
                (Strftime.datetime_Ymd_HMS d t ++ "." ++ "gz")) = true)
  /\ (forall now today,
      Strptime.strptime_datetime_date now = Some today ->
      28 < Date.toordinal today ->
      Date.year (Date.fromordinal (Date.toordinal today - 28)) = Date.year d ->
      Date.month (Date.fromordinal (Date.toordinal today - 28)) = Date.month d ->
      exists wp mp,
        prefixes now w = Return (wp, mp) w
        /\ listed database mp
             (PATH_TEMPLATE "" (host database) (name database)
                (Strftime.datetime_Ymd_HMS d t ++ "." ++ "gz")) = true).
Proof.
  intros Hv Hord. split.
  - intros now today Hnow Hweek.
    pose proof (toordinal_bounds today (strptime_datetime_valid _ _ Hnow)) as Hb.
    unfold prefixes, strptime_now, date_minus_days, bind, ret, raise.
    rewrite Hnow. change (1 * 7) with 7. change (4 * 7) with 28.
    replace ((0 <? Date.toordinal today - 7)
             && (Date.toordinal today - 7 <=? Date.MAXORDINAL)) with true
      by (symmetry; apply andb_true_iff; split;
          [apply Z.ltb_lt|apply Z.leb_le]; lia).
    replace ((0 <? Date.toordinal today - 28)
             && (Date.toordinal today - 28 <=? Date.MAXORDINAL)) with true
      by (symmetry; apply andb_true_iff; split;
          [apply Z.ltb_lt|apply Z.leb_le]; lia).
    replace (Date.toordinal today - 7) with (Date.toordinal d) by lia.
    rewrite (fromordinal_toordinal d Hv).
    eexists. split; [reflexivity|].
    apply listed_file. unfold Str.startswith, Strftime.datetime_Ymd_HMS.
    rewrite !append_assoc. apply prefix_append.
  - intros now today Hnow Hbig Hyear Hmonth.
    pose proof (toordinal_bounds today (strptime_datetime_valid _ _ Hnow)) as Hb.
    unfold prefixes, strptime_now, date_minus_days, bind, ret, raise.
    rewrite Hnow. change (1 * 7) with 7. change (4 * 7) with 28.
    replace ((0 <? Date.toordinal today - 7)
             && (Date.toordinal today - 7 <=? Date.MAXORDINAL)) with true
      by (symmetry; apply andb_true_iff; split;
          [apply Z.ltb_lt|apply Z.leb_le]; lia).
    replace ((0 <? Date.toordinal today - 28)
             && (Date.toordinal today - 28 <=? Date.MAXORDINAL)) with true
      by (symmetry; apply andb_true_iff; split;
          [apply Z.ltb_lt|apply Z.leb_le]; lia).
    eexists _, _. split; [reflexivity|].
    apply listed_file. unfold Str.startswith, Strftime.datetime_Ymd_HMS.
    unfold Strftime.date_Ym_ at 1. rewrite Hyear, Hmonth.
    fold (Strftime.date_Ym_ d).
    rewrite date_Ymd_starts_with_month, !append_assoc. apply prefix_append.
Qed.

Lemma dump_is_listed_by_later_runs_witness :
  exists mp,
    prefixes "2024-03-15_02:00:00" (stored [])
    = Return (Strftime.date_Ymd (Date.mkdate 2024 3 8), mp) (stored [])
    /\ listed sample_db (Strftime.date_Ymd (Date.mkdate 2024 3 8))
         (PATH_TEMPLATE "" (host sample_db) (name sample_db)
            (Strftime.datetime_Ymd_HMS (Date.mkdate 2024 3 8)
               (Strftime.mkclock 2 0 0) ++ "." ++ "gz")) = true.
Proof.
  destruct (dump_is_listed_by_later_runs sample_db (Date.mkdate 2024 3 8)
              (Strftime.mkclock 2 0 0) (stored [])) as [Hweek _].
  - reflexivity.
  - vm_compute; reflexivity.
  - apply (Hweek "2024-03-15_02:00:00" (Date.mkdate 2024 3 15)).
    + vm_compute; reflexivity.
    + vm_compute; reflexivity.
Defined.

(** ** More on the key parser *)

Lemma date_head d :
  Date.valid d = true -> 1000 <= Date.year d ->
  exists x stem,
    Strftime.date_Ymd d = String x stem /\ Ascii.eqb x "." = false.
Proof.
  intros Hv Hy. destruct (valid_bounds d Hv) as (Hyr & _ & _).
  unfold Strftime.date_Ymd.
  rewrite (fmt_Y_digits _ (conj Hy (proj2 Hyr))).
  destruct (year_digit_bounds _ (conj Hy (proj2 Hyr))) as (H3 & _).
  simpl append. eexists _, _. split; [reflexivity|].
  apply digit_char_differs; [exact H3|]. left.
  change (nat_of_ascii ".") with 46%nat. lia.
Qed.

(** X4. The parser checks the date text only.  For a key made of any
    directory part, the day text of a date that exists (year 1000 on), an
    underscore, any time text free of underscores, slashes and dots, and an
    extension free of slashes and dots, it returns the day text, that time
    text as it stands, and the date. *)
Theorem parse_key_takes_any_time_text dir d time ext :
  Date.valid d = true -> 1000 <= Date.year d ->
  Str.lacks "_" time = true -> Str.lacks "/" time = true ->
  Str.lacks "." time = true ->
  Str.lacks "/" ext = true -> Str.lacks "." ext = true ->
  parse_key (dir ++ "/" ++ (Strftime.date_Ymd d ++ "_" ++ time) ++ "." ++ ext)
  = inr (Strftime.date_Ymd d, time, d).
Proof.
  intros Hv Hy Hu Hs Hd Hes Hed.
  assert (Hnd : forall c, c = "/"%char \/ c = "."%char \/ c = "_"%char ->
                 (nat_of_ascii c < 48 \/ 57 < nat_of_ascii c)%nat
                 /\ Ascii.eqb "-" c = false).
  { intros c [Hc|[Hc|Hc]]; subst c; vm_compute; split; auto; right; lia. }
  assert (Hdate : forall c, c = "/"%char \/ c = "."%char \/ c = "_"%char ->
                   Str.lacks c (Strftime.date_Ymd d) = true).
  { intros c Hc. destruct (Hnd c Hc). apply lacks_date_Ymd; assumption. }
  set (stem := Strftime.date_Ymd d ++ "_" ++ time).
  assert (Hstem : forall c, c = "/"%char \/ c = "."%char ->
                   Str.lacks c time = true -> Str.lacks c stem = true).
  { intros c Hc Ht. unfold stem. rewrite !lacks_app, Hdate, Ht by tauto.
    destruct Hc as [Hc|Hc]; subst c; reflexivity. }
  assert (Hfile : Str.lacks "/" (stem ++ "." ++ ext) = true).
  { rewrite !lacks_app, Hstem, Hes by tauto. reflexivity. }
  unfold parse_key.
  pose proof (os_path_split_tail dir (stem ++ "." ++ ext) Hfile) as Htail.
  destruct (OsPath.split _) as [hd fn]. cbn [snd] in Htail. subst fn.
  cbv beta iota.
  assert (Hsplit : OsPath.splitext (stem ++ "." ++ ext) = (stem, "." ++ ext)).
  { destruct (date_head d Hv Hy) as (x & rest & Heq & Hx).
    unfold stem in *. rewrite Heq in *. cbn [append] in *.
    apply splitext_stem; assumption. }
  rewrite Hsplit. unfold stem.
  change ("_" ++ time) with (String "_" time).
  rewrite split_once by (auto using Hdate).
  rewrite (strptime_date_strftime d Hv Hy). reflexivity.
Qed.

Lemma parse_key_takes_any_time_text_witness :
  parse_key "backups/h/n/2024-03-10_99:99:99.sql"
  = inr ("2024-03-10", "99:99:99", Date.mkdate 2024 3 10).
Proof.
  apply (parse_key_takes_any_time_text "backups/h/n" (Date.mkdate 2024 3 10)
           "99:99:99" "sql").
  - reflexivity.
  - simpl; lia.
  - reflexivity.
  - reflexivity.
  - reflexivity.
  - reflexivity.
  - reflexivity.
Defined.

Lemma lacks_substring c n m s :
  Str.lacks c s = true -> Str.lacks c (String.substring n m s) = true.
Proof.
  revert n m. induction s as [|a s IH]; intros n m H.
  - destruct n, m; reflexivity.
  - simpl in H. apply andb_true_iff in H as [Ha Hs].
    destruct n as [|n]; simpl.
    + destruct m as [|m]; simpl; [reflexivity|].
      rewrite Ha. simpl. apply IH, Hs.
    + apply IH, Hs.
Qed.

(** X5. A key without any underscore cannot be unpacked into a date text
    and a time text: the parser fails with the [ValueError] of the
    unpacking, whatever else the key holds. *)
Theorem parse_key_needs_an_underscore key :
  Str.lacks "_" key = true ->
  parse_key key
  = inl (ValueError "not enough values to unpack (expected 2, got 1)").
Proof.
  intros H. unfold parse_key.
  assert (Hfn : Str.lacks "_" (snd (OsPath.split key)) = true)
    by (unfold OsPath.split, Str.drop; cbn [snd]; apply lacks_substring, H).
  destruct (OsPath.split key) as [hd fn]. cbn [snd] in Hfn.
  assert (Hst : Str.lacks "_" (fst (OsPath.splitext fn)) = true).
  { unfold OsPath.splitext. cbv zeta.
    destruct (_ <? _); [|exact Hfn].
    destruct (OsPath.all_char _ _); [exact Hfn|].
    cbn [fst]. unfold Str.take. apply lacks_substring, Hfn. }
  destruct (OsPath.splitext fn) as [stem ext]. cbn [fst] in Hst.
  rewrite (split_lacks _ _ Hst). reflexivity.
Qed.

Lemma parse_key_needs_an_underscore_witness :
  parse_key "/h/n/2024-03-10.gz"
  = inl (ValueError "not enough values to unpack (expected 2, got 1)").
Proof. apply parse_key_needs_an_underscore. reflexivity. Defined.

(** ** The designated weekday *)

Lemma weekday_range date : 0 <= Date.weekday date <= 6.
Proof.
  unfold Date.weekday. pose proof (Z.mod_pos_bound (Date.toordinal date + 6) 7).
  lia.
Qed.

(** X6. The seven weekday symbols are told apart: for the symbol at index
    [i] of [DAYS_OF_THE_WEEK] (0 is Monday, 6 is Sunday) as the designated
    weekday, a date is kept by the comparison exactly when its
    [weekday()] is [i]. *)
Theorem on_day_of_the_week_iff_weekday i date :
  0 <= i <= 6 ->
  (on_day_of_the_week (nth (Z.to_nat i) DAYS_OF_THE_WEEK EmptyString) date = true
   <-> Date.weekday date = i).
Proof.
  intros Hi. unfold on_day_of_the_week.
  pose proof (weekday_range date) as Hw.
  set (j := Date.weekday date) in *. clearbody j.
  split_range i 0 6; split_range j 0 6; vm_compute; split; congruence.
Qed.

Lemma on_day_of_the_week_iff_weekday_witness :
  on_day_of_the_week (nth (Z.to_nat 6) DAYS_OF_THE_WEEK EmptyString)
                     (Date.mkdate 2024 1 14) = true
  <-> Date.weekday (Date.mkdate 2024 1 14) = 6.
Proof. apply on_day_of_the_week_iff_weekday. lia. Defined.

Lemma unknown_symbol_matches_no_date dow date :
  ~ In dow DAYS_OF_THE_WEEK -> on_day_of_the_week dow date = false.
Proof.
  intros Hnot. unfold on_day_of_the_week. apply String.eqb_neq. intros Heq.
  apply Hnot. rewrite <- Heq. apply nth_In.
  pose proof (weekday_range date). change (List.length DAYS_OF_THE_WEEK) with 7%nat.
  lia.
Qed.

(** X7. With a designated weekday that is none of the seven symbols, no
    dump is spared: after a tier-3 pass that returns, no key of its listing
    is left in the bucket. *)
Theorem unknown_weekday_empties_month_listing E fp d dow w b w' :
  ~ In dow DAYS_OF_THE_WEEK ->
  delete_keys_last_months E fp d dow w = Return b w' ->
  filter (listed d fp) (bucket w') = [].
Proof.
  intros Hnot Hrun. apply filter_none. intros k Hk.
  destruct (listed d fp k) eqn:Hl; [|reflexivity]. exfalso.
  pose proof (months_deletes_within E fp d dow w) as [Hs _].
  rewrite Hrun in Hs. simpl in Hs.
  pose proof (proj1 (months_pass_Return E fp d dow w b w' k Hrun (Hs k Hk) Hl) Hk)
    as Hdes.
  unfold designated in Hdes.
  destruct (parse_key k) as [e|[[_date time] date]]; [discriminate|].
  rewrite (unknown_symbol_matches_no_date dow date Hnot) in Hdes. discriminate.
Qed.

Lemma unknown_weekday_empties_month_listing_witness :
  filter (listed sample_db "2024-02-") (bucket (stored [])) = [].
Proof.
  apply (unknown_weekday_empties_month_listing
           (calm (Date.mkdate 2024 3 15)) "2024-02-" sample_db "Sun"
           (stored ["/h/n/2024-02-11_03:00:00.gz"; "/h/n/2024-02-14_03:00:00.gz"])
           true (stored [])).
  - simpl. intuition discriminate.
  - vm_compute; reflexivity.
Defined.

(** ** Runs of the tier-3 pass that return *)

Lemma months_body_designated E dow k w :
  designated dow k = true ->
  delete_keys_last_months_body E dow k w = Return tt w.
Proof.
  unfold delete_keys_last_months_body, designated.
  destruct (parse_key k) as [e|[[_date time] date]]; [discriminate|].
  intros H. simpl. unfold bind, ret. rewrite H. reflexivity.
Qed.

Lemma months_body_condemned E dow k w :
  condemned dow k = true ->
  delete_keys_last_months_body E dow k w = delete E k w.
Proof.
  unfold delete_keys_last_months_body, condemned.
  destruct (parse_key k) as [e|[[_date time] date]]; [discriminate|].
  intros H. apply negb_true_iff in H. simpl. unfold bind, ret. rewrite H.
  reflexivity.
Qed.

Lemma months_loop_run E dow xs w :
  (forall x, In x xs ->
     designated dow x = true
     \/ (condemned dow x = true /\ delete_error E x = None)) ->
  for_each xs (delete_keys_last_months_body E dow) w
  = Return tt
      (mkworld (filter (fun k => negb (among xs k && condemned dow k)) (bucket w))
               (shell_log w) (requests w)).
Proof.
  revert w. induction xs as [|x xs IH]; intros w Hxs.
  - simpl. unfold ret. rewrite filter_true, world_eta. reflexivity.
  - cbn [for_each]. unfold bind.
    assert (Hrest : forall y, In y xs ->
              designated dow y = true
              \/ (condemned dow y = true /\ delete_error E y = None))
      by (intros y Hy; apply Hxs; right; exact Hy).
    destruct (Hxs x (or_introl eq_refl)) as [Hdes|[Hcon Hok]].
    + rewrite (months_body_designated E dow x w Hdes), (IH w Hrest).
      do 2 f_equal. apply filter_ext. intros k. unfold among. cbn [existsb].
      destruct (String.eqb_spec k x) as [->|]; [|reflexivity].
      rewrite (designated_not_condemned _ _ Hdes), !andb_false_r. reflexivity.
    + rewrite (months_body_condemned E dow x w Hcon). unfold delete.
      rewrite Hok, (IH _ Hrest). cbn [bucket shell_log requests].
      unfold remove_key. rewrite filter_filter. do 2 f_equal.
      apply filter_ext. intros k. unfold among. cbn [existsb].
      rewrite (String.eqb_sym x k).
      destruct (String.eqb_spec k x) as [->|]; [|reflexivity].
      rewrite Hcon. reflexivity.
Qed.

Lemma among_filter_listed d fp keys k :
  In k keys -> among (filter (listed d fp) keys) k = listed d fp k.
Proof.
  intros Hin. destruct (listed d fp k) eqn:Hl.
  - apply among_In, filter_In. auto.
  - destruct (among _ k) eqn:Ha; [|reflexivity].
    apply among_In, filter_In in Ha. destruct Ha. congruence.
Qed.

Lemma months_pass_run E fp d dow w :
  (forall k, In k (bucket w) -> listed d fp k = true ->
     designated dow k = true
     \/ (condemned dow k = true /\ delete_error E k = None)) ->
  delete_keys_last_months E fp d dow w
  = Return true
      (mkworld (filter (fun k => negb (listed d fp k && condemned dow k))
                       (bucket w))
               (shell_log w) (requests w)).
Proof.
  intros Hok. unfold delete_keys_last_months. rewrite objects_filter_bind.
  change (filter (Str.startswith (PATH_TEMPLATE "" (host d) (name d) fp))
                 (bucket w))
    with (filter (listed d fp) (bucket w)).
  unfold bind. rewrite months_loop_run.
  - unfold ret. do 2 f_equal. apply filter_ext_in. intros k Hk.
    rewrite (among_filter_listed d fp (bucket w) k Hk). reflexivity.
  - intros x Hx. apply filter_In in Hx as [Hin Hl]. apply Hok; assumption.
Qed.

(** X8. When every key the tier-3 pass lists can be parsed and every delete
    it attempts succeeds, the pass returns [True], and the bucket it leaves
    is the old one, in the same order, without the listed keys whose weekday
    is not the designated one; nothing else changes. *)
Theorem months_pass_returns_pruned_bucket E fp d dow w :
  (forall k, In k (bucket w) -> listed d fp k = true ->
     exists _date time date,
       parse_key k = inr (_date, time, date)
       /\ (on_day_of_the_week dow date = false -> delete_error E k = None)) ->
  delete_keys_last_months E fp d dow w
  = Return true
      (mkworld (filter (fun k => negb (listed d fp k && condemned dow k))
                       (bucket w))
               (shell_log w) (requests w)).
Proof.
  intros Hok. apply months_pass_run. intros k Hin Hl.
  destruct (Hok k Hin Hl) as (_date & time & date & Hparse & Hdel).
  unfold designated, condemned. rewrite Hparse.
  destruct (on_day_of_the_week dow date); [left; reflexivity|].
  right. split; [reflexivity|apply Hdel; reflexivity].
Qed.

Lemma months_pass_returns_pruned_bucket_witness :
  delete_keys_last_months (calm (Date.mkdate 2024 3 15)) "2024-02-" sample_db
    "일" (stored ["/h/n/2024-02-11_03:00:00.gz"; "/h/n/2024-02-14_03:00:00.gz";
                  "/h/n/2024-03-14_03:00:00.gz"])
  = Return true
      (mkworld
         (filter (fun k => negb (listed sample_db "2024-02-" k && condemned "일" k))
                 ["/h/n/2024-02-11_03:00:00.gz"; "/h/n/2024-02-14_03:00:00.gz";
                  "/h/n/2024-03-14_03:00:00.gz"])
         [] []).
Proof.
  apply (months_pass_returns_pruned_bucket (calm (Date.mkdate 2024 3 15))
           "2024-02-" sample_db "일"
           (stored ["/h/n/2024-02-11_03:00:00.gz"; "/h/n/2024-02-14_03:00:00.gz";
                    "/h/n/2024-03-14_03:00:00.gz"])).
  intros k [<-|[<-|[<-|[]]]] Hl.
  - eexists _, _, _. split; [vm_compute; reflexivity|reflexivity].
  - eexists _, _, _. split; [vm_compute; reflexivity|reflexivity].
  - vm_compute in Hl. discriminate.
Defined.

(** ** [clean_up] only removes keys *)

Lemma pruned_refl w : pruned w w.
Proof.
  split; [|split; reflexivity]. exists (fun _ => true).
  symmetry. apply filter_true.
Qed.

Lemma pruned_trans w1 w2 w3 : pruned w1 w2 -> pruned w2 w3 -> pruned w1 w3.
Proof.
  intros ((f & Hf) & Hs & Hr) ((g & Hg) & Hs' & Hr').
  split; [|split; congruence].
  exists (fun k => f k && g k). rewrite Hg, Hf. apply filter_filter.
Qed.

Lemma pruned_shrinks w w' : pruned w w' -> shrinks w w'.
Proof.
  intros ((f & Hf) & _) k Hk. rewrite Hf in Hk. apply filter_In in Hk. apply Hk.
Qed.

Lemma pruned_NoDup w w' : pruned w w' -> NoDup (bucket w) -> NoDup (bucket w').
Proof. intros ((f & Hf) & _) H. rewrite Hf. apply NoDup_filter, H. Qed.

Lemma prunes_ret {A} (a : A) : prunes (ret a).
Proof. intros w. apply pruned_refl. Qed.

Lemma prunes_raise {A} e : prunes (@raise A e).
Proof. intros w. apply pruned_refl. Qed.

Lemma prunes_bind {A B} (m : M A) (k : A -> M B) :
  prunes m -> (forall a, prunes (k a)) -> prunes (bind m k).
Proof.
  intros Hm Hk w. unfold bind. specialize (Hm w).
  destruct (m w) as [a w1|e w1]; simpl in Hm; [|exact Hm].
  eapply pruned_trans; [exact Hm|apply Hk].
Qed.

Lemma prunes_for_each {A} (xs : list A) (body : A -> M unit) :
  (forall x, prunes (body x)) -> prunes (for_each xs body).
Proof.
  intros H. induction xs as [|x xs IH]; simpl.
  - apply prunes_ret.
  - apply prunes_bind; [apply H|intros _; exact IH].
Qed.

Lemma prunes_delete E key : prunes (delete E key).
Proof.
  intros w. unfold delete. destruct (delete_error E key); simpl.
  - apply pruned_refl.
  - split; [|split; reflexivity]. eexists. reflexivity.
Qed.

Lemma prunes_weeks E fp d : prunes (delete_keys_last_weeks E fp d).
Proof.
  intros w. unfold delete_keys_last_weeks. rewrite objects_filter_bind.
  refine (prunes_bind _ _ _ _ w); [|intros; apply prunes_ret].
  apply prunes_for_each. intros [hour k].
  destruct (hour =? 0); [apply prunes_ret|apply prunes_delete].
Qed.

Lemma prunes_months_body E dow k : prunes (delete_keys_last_months_body E dow k).
Proof.
  intros w. unfold delete_keys_last_months_body, bind.
  destruct (parse_key k) as [e|[[_date time] date]]; simpl.
  - apply pruned_refl.
  - destruct (on_day_of_the_week dow date);
      [apply pruned_refl|apply prunes_delete].
Qed.

Lemma prunes_months E fp d dow : prunes (delete_keys_last_months E fp d dow).
Proof.
  intros w. unfold delete_keys_last_months. rewrite objects_filter_bind.
  refine (prunes_bind _ _ _ _ w); [|intros; apply prunes_ret].
  apply prunes_for_each. intros k. apply prunes_months_body.
Qed.

Lemma prunes_per_db E wp mp d :
  prunes (delete_keys_last_weeks E wp d ;;;
          delete_keys_last_months E mp d (BACKUP_DAYS_OF_THE_WEEK E) ;;;
          ret tt).
Proof.
  apply prunes_bind; [apply prunes_weeks|intros _].
  apply prunes_bind; [apply prunes_months|intros _; apply prunes_ret].
Qed.

Lemma prunes_clean_up E now : prunes (clean_up E now).
Proof.
  intros w. unfold clean_up.
  destruct (prefixes_pure now) as [([wp mp] & Hp)|(e & He)].
  - rewrite (bind_step _ _ _ _ _ (Hp w)).
    refine (prunes_bind _ _ _ _ w); [|intros; apply prunes_ret].
    apply prunes_for_each. intros d. apply prunes_per_db.
  - rewrite (bind_Raise_first _ _ _ _ _ (He w)). apply pruned_refl.
Qed.

(** X9. Whether it returns or raises, [clean_up] only removes keys: the
    bucket it leaves is the old one filtered, so nothing is added or
    reordered and keys stay unique; it runs no shell command and makes no
    webhook call. *)
Theorem clean_up_only_removes_keys E now w :
  (exists keep, bucket (final (clean_up E now w)) = filter keep (bucket w))
  /\ (NoDup (bucket w) -> NoDup (bucket (final (clean_up E now w))))
  /\ shell_log (final (clean_up E now w)) = shell_log w
  /\ requests (final (clean_up E now w)) = requests w.
Proof.
  pose proof (prunes_clean_up E now w) as Hp.
  destruct Hp as (Hk & Hs & Hr) eqn:Heq. clear Heq.
  split; [exact Hk|]. split; [|split; assumption].
  apply pruned_NoDup. split; [exact Hk|split; assumption].
Qed.

(** ** Runs of [clean_up] that return *)

Lemma weeks_pass_run E fp d w :
  (forall k, In k (tl (filter (listed d fp) (bucket w))) ->
             delete_error E k = None) ->
  delete_keys_last_weeks E fp d w
  = Return true
      (mkworld
         (filter (fun k => negb (among (tl (filter (listed d fp) (bucket w))) k))
                 (bucket w))
         (shell_log w) (requests w)).
Proof.
  intros Hok. unfold delete_keys_last_weeks. rewrite objects_filter_bind.
  change (filter (Str.startswith (PATH_TEMPLATE "" (host d) (name d) fp))
                 (bucket w))
    with (filter (listed d fp) (bucket w)).
  set (L := filter (listed d fp) (bucket w)) in *.
  unfold bind, enumerate. destruct L as [|k0 rest]; cbn [enumerate_from for_each tl].
  - unfold ret. cbn [among existsb negb]. unfold among. cbn [existsb negb].
    rewrite filter_true, world_eta. reflexivity.
  - cbn [Z.eqb]. unfold bind at 1. unfold ret at 1.
    rewrite weeks_loop_tail by lia.
    rewrite (delete_all_run E rest w Hok). reflexivity.
Qed.

Lemma delete_all_Return E xs w w' :
  for_each xs (delete E) w = Return tt w' ->
  forall x, In x xs -> delete_error E x = None.
Proof.
  revert w. induction xs as [|y xs IH]; intros w Hrun x Hx; [destruct Hx|].
  simpl in Hrun. apply bind_Return in Hrun as ([] & w1 & Hy & Hrest).
  destruct Hx as [->|Hx]; [|eapply IH; eassumption].
  unfold delete in Hy. destruct (delete_error E x); [discriminate|reflexivity].
Qed.

Lemma weeks_pass_Return_deletes E fp d w b w' :
  delete_keys_last_weeks E fp d w = Return b w' ->
  forall k, In k (tl (filter (listed d fp) (bucket w))) ->
            delete_error E k = None.
Proof.
  unfold delete_keys_last_weeks. rewrite objects_filter_bind.
  change (filter (Str.startswith (PATH_TEMPLATE "" (host d) (name d) fp))
                 (bucket w))
    with (filter (listed d fp) (bucket w)).
  intros Hrun. apply bind_Return in Hrun as ([] & w1 & Hloop & _).
  destruct (filter (listed d fp) (bucket w)) as [|k0 rest]; [intros k []|].
  unfold enumerate in Hloop. cbn [enumerate_from for_each] in Hloop.
  unfold bind at 1 in Hloop. cbn [Z.eqb] in Hloop. unfold ret at 1 in Hloop.
  rewrite weeks_loop_tail in Hloop by lia.
  exact (delete_all_Return E rest w w1 Hloop).
Qed.

Lemma for_each_invariant {A} (I : world -> Prop) (xs : list A)
    (body : A -> M unit) w :
  (forall x v, In x xs -> I v -> exists v', body x v = Return tt v' /\ I v') ->
  I w ->
  exists w', for_each xs body w = Return tt w' /\ I w'.
Proof.
  revert w. induction xs as [|x xs IH]; intros w Hstep Hw.
  - exists w. split; [reflexivity|exact Hw].
  - destruct (Hstep x w (or_introl eq_refl) Hw) as (v & Hv & Iv).
    destruct (IH v) as (w' & Hrun & Iw'); [|exact Iv|].
    + intros y u Hy. apply Hstep. right; exact Hy.
    + exists w'. split; [|exact Iw']. simpl. unfold bind. rewrite Hv. exact Hrun.
Qed.

Lemma In_tl {A} (x : A) l : In x (tl l) -> In x l.
Proof. destruct l; simpl; auto. Qed.

(** X10. [clean_up] returns [True] whenever [now] yields its two prefixes,
    every stored key that a month prefix of a configured database lists can
    be parsed, and no delete of a stored key fails. *)
Theorem clean_up_returns E now wp mp w :
  prefixes now w = Return (wp, mp) w ->
  (forall k, In k (bucket w) -> delete_error E k = None) ->
  (forall k d, In k (bucket w) -> In d (DATABASE_LIST E) ->
               listed d mp k = true ->
               exists parsed, parse_key k = inr parsed) ->
  exists w', clean_up E now w = Return true w'.
Proof.
  intros Hp Hdel Hparse. unfold clean_up. rewrite (bind_step _ _ _ _ _ Hp).
  destruct (for_each_invariant (fun v => shrinks w v) (DATABASE_LIST E)
              (fun d =>
                 delete_keys_last_weeks E wp d ;;;
                 delete_keys_last_months E mp d (BACKUP_DAYS_OF_THE_WEEK E) ;;;
                 ret tt) w) as (w' & Hrun & _).
  - intros d v Hd Hv.
    assert (Hweeks : delete_keys_last_weeks E wp d v
              = Return true
                  (mkworld
                     (filter (fun k => negb (among (tl (filter (listed d wp)
                                                                (bucket v))) k))
                             (bucket v))
                     (shell_log v) (requests v))).
    { apply weeks_pass_run. intros k Hk. apply Hdel, Hv.
      apply In_tl, filter_In in Hk. apply Hk. }
    set (va := mkworld _ (shell_log v) (requests v)) in *.
    assert (Hva : shrinks v va)
      by (intros k Hk; apply filter_In in Hk; apply Hk).
    assert (Hmonths : delete_keys_last_months E mp d (BACKUP_DAYS_OF_THE_WEEK E) va
              = Return true
                  (mkworld
                     (filter (fun k => negb (listed d mp k
                                && condemned (BACKUP_DAYS_OF_THE_WEEK E) k))
                             (bucket va))
                     (shell_log va) (requests va))).
    { apply months_pass_run. intros k Hk Hl.
      destruct (Hparse k d (Hv k (Hva k Hk)) Hd Hl) as ([[_date time] date] & Hpk).
      unfold designated, condemned. rewrite Hpk.
      destruct (on_day_of_the_week _ date); [left; reflexivity|].
      right. split; [reflexivity|]. apply Hdel, Hv, Hva, Hk. }
    eexists. split.
    + unfold bind. rewrite Hweeks, Hmonths. reflexivity.
    + intros k Hk. cbn [bucket] in Hk. apply filter_In in Hk.
      apply Hv, Hva, Hk.
  - apply shrinks_refl.
  - exists w'. cbv beta iota. unfold bind at 1. rewrite Hrun. reflexivity.
Qed.

Lemma clean_up_returns_witness :
  exists w',
    clean_up (calm (Date.mkdate 2024 3 15)) "2024-03-15_02:00:00"
             (stored ["/h/n/2024-02-11_03:00:00.gz"; "/h/n/2024-02-14_03:00:00.gz";
                      "/h/n/not a dump"])
    = Return true w'.
Proof.
  apply (clean_up_returns (calm (Date.mkdate 2024 3 15)) "2024-03-15_02:00:00"
           "2024-03-08" "2024-02-").
  - vm_compute; reflexivity.
  - intros k _. reflexivity.
  - intros k d [<-|[<-|[<-|[]]]] [<-|[]] Hl.
    + eexists. vm_compute. reflexivity.
    + eexists. vm_compute. reflexivity.
    + vm_compute in Hl. discriminate.
Defined.

(** ** Running [clean_up] again *)

Lemma for_each_Return_pruned {A} (xs : list A) (body : A -> M unit) w w' x :
  (forall y, prunes (body y)) ->
  for_each xs body w = Return tt w' ->
  In x xs ->
  exists w1 w2, pruned w w1 /\ body x w1 = Return tt w2 /\ pruned w2 w'.
Proof.
  intros Hp. revert w. induction xs as [|y xs IH]; intros w Hrun Hin.
  - destruct Hin.
  - simpl in Hrun. apply bind_Return in Hrun as ([] & v & Hy & Hrest).
    assert (Hwv : pruned w v) by (pose proof (Hp y w) as H; rewrite Hy in H; exact H).
    destruct Hin as [->|Hin].
    + exists w, v. split; [apply pruned_refl|]. split; [exact Hy|].
      pose proof (prunes_for_each xs body Hp v) as H. rewrite Hrest in H. exact H.
    + destruct (IH v Hrest Hin) as (v1 & v2 & H1 & H2 & H3).
      exists v1, v2. split; [eapply pruned_trans; eassumption|]. auto.
Qed.

Lemma for_each_fixed {A} (xs : list A) (body : A -> M unit) v :
  (forall x, In x xs -> body x v = Return tt v) ->
  for_each xs body v = Return tt v.
Proof.
  induction xs as [|x xs IH]; intros H; simpl; [reflexivity|].
  unfold bind. rewrite (H x (or_introl eq_refl)).
  apply IH. intros y Hy. apply H. right; exact Hy.
Qed.

Lemma filter_all {A} (f : A -> bool) (l : list A) :
  (forall x, In x l -> f x = true) -> filter f l = l.
Proof.
  induction l as [|x l IH]; intros H; simpl; [reflexivity|].
  rewrite (H x (or_introl eq_refl)). f_equal. apply IH.
  intros y Hy. apply H. right; exact Hy.
Qed.

Lemma filter_length_pruned (g : string -> bool) w w' :
  pruned w w' ->
  (List.length (filter g (bucket w')) <= List.length (filter g (bucket w)))%nat.
Proof.
  intros ((f & Hf) & _). rewrite Hf, filter_filter.
  rewrite (filter_ext _ (fun x => g x && f x)) by (intros x; apply andb_comm).
  rewrite <- filter_filter. apply filter_length_le.
Qed.

(** after its tier-2 pass has returned, a day listing holds one key at
    most *)
Lemma weeks_pass_Return_short E fp d w b w' :
  NoDup (bucket w) ->
  delete_keys_last_weeks E fp d w = Return b w' ->
  (List.length (filter (listed d fp) (bucket w')) <= 1)%nat.
Proof.
  intros Hnd Hrun.
  pose proof (weeks_pass_Return_deletes E fp d w b w' Hrun) as Hok.
  rewrite (weeks_pass_run E fp d w Hok) in Hrun. injection Hrun as _ <-.
  cbn [bucket]. rewrite filter_filter.
  rewrite (filter_ext _ (fun x => listed d fp x
              && negb (among (tl (filter (listed d fp) (bucket w))) x)))
    by (intros x; apply andb_comm).
  rewrite <- filter_filter.
  pose proof (NoDup_filter (listed d fp) Hnd) as HndL.
  destruct (filter (listed d fp) (bucket w)) as [|k0 rest]; [simpl; lia|].
  apply NoDup_cons_iff in HndL as [Hnot _]. cbn [tl]. unfold among.
  rewrite (filter_not_among_tail k0 rest Hnot). simpl. lia.
Qed.

(** a tier-2 pass over a day listing of at most one key changes nothing *)
Lemma weeks_pass_short_listing E fp d v :
  (List.length (filter (listed d fp) (bucket v)) <= 1)%nat ->
  delete_keys_last_weeks E fp d v = Return true v.
Proof.
  intros Hlen. rewrite weeks_pass_run.
  - destruct (filter (listed d fp) (bucket v)) as [|k0 [|k1 rest]];
      [| |simpl in Hlen; lia];
      cbn [tl]; unfold among; cbn [existsb negb];
      rewrite filter_true, world_eta; reflexivity.
  - destruct (filter (listed d fp) (bucket v)) as [|k0 [|k1 rest]];
      [intros k []|intros k []|simpl in Hlen; lia].
Qed.

(** a tier-3 pass over a listing of designated keys changes nothing *)
Lemma months_pass_all_designated E fp d dow v :
  (forall k, In k (bucket v) -> listed d fp k = true -> designated dow k = true) ->
  delete_keys_last_months E fp d dow v = Return true v.
Proof.
  intros Hdes. rewrite months_pass_run by (intros k Hk Hl; left; auto).
  rewrite filter_all, world_eta; [reflexivity|].
  intros k Hk. destruct (listed d fp k) eqn:Hl; [|reflexivity].
  rewrite (designated_not_condemned _ _ (Hdes k Hk Hl)). reflexivity.
Qed.

(** X11. Running [clean_up] again with the same [now] on the bucket a first
    run returned changes nothing: the second run returns [True] and leaves
    the world as it found it. *)
Theorem clean_up_twice E now w b w' :
  NoDup (bucket w) ->
  clean_up E now w = Return b w' ->
  clean_up E now w' = Return true w'.
Proof.
  intros Hnd Hrun.
  destruct (prefixes_pure now) as [([wp mp] & Hp)|(e & He)].
  2:{ rewrite (clean_up_no_prefixes E now e w He) in Hrun. discriminate. }
  assert (Hdes : forall d k, In d (DATABASE_LIST E) -> In k (bucket w') ->
                   listed d mp k = true ->
                   designated (BACKUP_DAYS_OF_THE_WEEK E) k = true).
  { intros d k Hd Hk Hl.
    exact (clean_up_Return_listed E now w b w' wp mp d k (Hp w) Hrun Hd Hl Hk). }
  assert (Hshort : forall d, In d (DATABASE_LIST E) ->
            (List.length (filter (listed d wp) (bucket w')) <= 1)%nat).
  { intros d Hd. pose proof Hrun as Hrun'. unfold clean_up in Hrun'.
    rewrite (bind_step _ _ _ _ _ (Hp w)) in Hrun'.
    apply bind_Return in Hrun' as ([] & w0 & Hloop & Hret).
    injection Hret as _ <-.
    destruct (for_each_Return_pruned _ _ _ _ d (prunes_per_db E wp mp) Hloop Hd)
      as (w1 & w2 & H1 & Hbody & H2).
    apply bind_Return in Hbody as (b1 & wa & Hweeks & Hbody).
    apply bind_Return in Hbody as (b2 & wb & Hmonths & Hret).
    injection Hret as <-.
    pose proof (weeks_pass_Return_short E wp d w1 b1 wa
                  (pruned_NoDup _ _ H1 Hnd) Hweeks) as Hle.
    assert (Hwa : pruned wa w0).
    { eapply pruned_trans; [|exact H2].
      pose proof (prunes_months E mp d (BACKUP_DAYS_OF_THE_WEEK E) wa) as H.
      rewrite Hmonths in H. exact H. }
    pose proof (filter_length_pruned (listed d wp) wa w0 Hwa). lia. }
  unfold clean_up. rewrite (bind_step _ _ _ _ _ (Hp w')).
  cbv beta iota. unfold bind at 1. rewrite for_each_fixed; [reflexivity|].
  intros d Hd. unfold bind.
  rewrite (weeks_pass_short_listing E wp d w' (Hshort d Hd)).
  rewrite (months_pass_all_designated E mp d _ w'); [reflexivity|].
  intros k Hk Hl. exact (Hdes d k Hd Hk Hl).
Qed.

Lemma clean_up_twice_witness :
  clean_up (calm (Date.mkdate 2024 3 15)) "2024-03-15_02:00:00"
           (stored ["/h/n/2024-02-11_03:00:00.gz"; "/h/n/2024-03-08_01:00:00.gz"])
  = Return true
           (stored ["/h/n/2024-02-11_03:00:00.gz"; "/h/n/2024-03-08_01:00:00.gz"]).
Proof.
  apply (clean_up_twice (calm (Date.mkdate 2024 3 15)) "2024-03-15_02:00:00"
           (stored ["/h/n/2024-02-11_03:00:00.gz"; "/h/n/2024-02-14_03:00:00.gz";
                    "/h/n/2024-03-08_01:00:00.gz"; "/h/n/2024-03-08_02:00:00.gz"])
           true).
  - simpl. repeat constructor; simpl; intuition discriminate.
  - vm_compute; reflexivity.
Defined.

(** ** [backup] *)

Lemma In_insert_key k x keys :
  In x (insert_key k keys) <-> x = k \/ In x keys.
Proof.
  induction keys as [|y keys IH]; simpl.
  - intuition.
  - destruct (String.eqb_spec k y) as [->|Hne].
    + simpl. intuition.
    + destruct (String.ltb k y); simpl; [intuition|].
      rewrite IH. intuition.
Qed.

Lemma grows_within_ret {A} P (a : A) : grows_within P (ret a).
Proof. intros w; simpl; auto. Qed.

Lemma grows_within_bind {A B} P (m : M A) (k : A -> M B) :
  grows_within P m -> (forall a, grows_within P (k a)) ->
  grows_within P (bind m k).
Proof.
  intros Hm Hk w. unfold bind. specialize (Hm w).
  destruct (m w) as [a w1|e w1]; simpl in Hm; [|exact Hm].
  destruct Hm as (H1 & H2 & H3). destruct (Hk a w1) as (K1 & K2 & K3).
  split; [auto|]. split; [|congruence].
  intros key Hin. destruct (K2 key Hin) as [Hi|Hi]; auto.
Qed.

Lemma grows_within_for_each {A} P (xs : list A) (body : A -> M unit) :
  (forall x, In x xs -> grows_within P (body x)) ->
  grows_within P (for_each xs body).
Proof.
  induction xs as [|x xs IH]; intros H; simpl.
  - apply grows_within_ret.
  - apply grows_within_bind; [apply H; left; reflexivity|].
    intros _. apply IH. intros y Hy. apply H. right; exact Hy.
Qed.

Lemma grows_within_makedirs E P path : grows_within P (makedirs E path).
Proof. intros w. unfold makedirs. destruct (makedirs_error E path); simpl; auto. Qed.

Lemma grows_within_subprocess_run E P command :
  grows_within P (subprocess_run E command).
Proof.
  intros w. unfold subprocess_run. destruct (shell_error E command); simpl; auto.
Qed.

Lemma grows_within_upload_file E (P : string -> Prop) filename key :
  P key -> grows_within P (upload_file E filename key).
Proof.
  intros HP w. unfold upload_file.
  destruct (upload_error E filename key); simpl; [auto|].
  split; [intros k Hk; apply In_insert_key; auto|]. split; [|reflexivity].
  intros k Hk. apply In_insert_key in Hk as [->|Hk]; auto.
Qed.

Lemma for_each_ext {A} (xs : list A) (f g : A -> M unit) w :
  (forall x v, f x v = g x v) -> for_each xs f w = for_each xs g w.
Proof.
  intros H. revert w. induction xs as [|x xs IH]; intros w; simpl; [reflexivity|].
  unfold bind. rewrite H. destruct (g x w); [apply IH|reflexivity].
Qed.

(** [backup] is the loop of [backup_one] over the configured databases *)
Lemma backup_unfold E now w :
  backup E now w = (for_each (DATABASE_LIST E) (backup_one E now) ;;; ret true) w.
Proof.
  unfold backup, bind at 1 3. 
  rewrite (for_each_ext _ _ (backup_one E now)); [reflexivity|].
  intros d v. unfold backup_one, save_file_to_local, bind, makedirs, ret, raise.
  change (PATH_TEMPLATE (TEMP_BASE_DIR E) (host d) (name d) (now ++ "." ++ "gz"))
    with (local_path_of E d now).
  destruct (makedirs_error E _); [reflexivity|].
  match goal with |- context [subprocess_run E ?c v] =>
    change c with (dump_command E d now) end.
  destruct (subprocess_run E (dump_command E d now) v); reflexivity.
Qed.

Lemma grows_within_backup_one E now (P : string -> Prop) d :
  P (s3_key_of E d now) -> grows_within P (backup_one E now d).
Proof.
  intros HP. unfold backup_one.
  apply grows_within_bind; [apply grows_within_makedirs|intros _].
  apply grows_within_bind; [apply grows_within_subprocess_run|intros _].
  apply grows_within_bind; [apply grows_within_upload_file, HP|intros _].
  apply grows_within_subprocess_run.
Qed.

Lemma grows_within_backup E now :
  grows_within
    (fun k => exists d, In d (DATABASE_LIST E) /\ k = s3_key_of E d now)
    (backup E now).
Proof.
  intros w. rewrite backup_unfold. revert w.
  apply grows_within_bind; [|intros; apply grows_within_ret].
  apply grows_within_for_each. intros d Hd.
  apply grows_within_backup_one. exists d. auto.
Qed.

(** X12. Whether it returns or raises, [backup] removes no key from the
    bucket, the only keys it adds are the dump keys of the configured
    databases for this [now], and it makes no webhook call. *)
Theorem backup_only_adds_dump_keys E now w :
  (forall k, In k (bucket w) -> In k (bucket (final (backup E now w))))
  /\ (forall k, In k (bucket (final (backup E now w))) ->
                In k (bucket w)
                \/ exists d, In d (DATABASE_LIST E) /\ k = s3_key_of E d now)
  /\ requests (final (backup E now w)) = requests w.
Proof. apply grows_within_backup. Qed.

Lemma backup_one_run E now d w :
  (forall path, makedirs_error E path = None) ->
  (forall command, shell_error E command = None) ->
  upload_error E (local_path_of E d now) (s3_key_of E d now) = None ->
  backup_one E now d w = Return tt (after_backup_of E now [d] w).
Proof.
  intros Hm Hs Hu. unfold backup_one, bind, makedirs, subprocess_run, upload_file,
    ret.
  rewrite Hm, Hs. cbn [bucket shell_log requests]. rewrite Hu, Hs. reflexivity.
Qed.

Lemma after_backup_of_app E now (xs ys : list db) w :
  after_backup_of E now (xs ++ ys)%list w
  = after_backup_of E now ys (after_backup_of E now xs w).
Proof.
  unfold after_backup_of. cbn [bucket shell_log requests].
  rewrite !fold_left_app. reflexivity.
Qed.

Lemma backup_loop_run E now dbs w :
  (forall path, makedirs_error E path = None) ->
  (forall command, shell_error E command = None) ->
  (forall d, In d dbs ->
             upload_error E (local_path_of E d now) (s3_key_of E d now) = None) ->
  for_each dbs (backup_one E now) w = Return tt (after_backup_of E now dbs w).
Proof.
  intros Hm Hs. revert w. induction dbs as [|d dbs IH]; intros w Hu.
  - simpl. unfold ret, after_backup_of. simpl. rewrite world_eta. reflexivity.
  - cbn [for_each]. unfold bind.
    rewrite (backup_one_run E now d w Hm Hs (Hu d (or_introl eq_refl))).
    rewrite IH by (intros x Hx; apply Hu; right; exact Hx).
    change (d :: dbs) with (([d] ++ dbs)%list). rewrite after_backup_of_app.
    reflexivity.
Qed.

Lemma In_fold_insert E now dbs keys k :
  In k (fold_left (fun keys d => insert_key (s3_key_of E d now) keys) dbs keys)
  <-> In k keys \/ exists d, In d dbs /\ k = s3_key_of E d now.
Proof.
  revert keys. induction dbs as [|d dbs IH]; intros keys; simpl.
  - split; [auto|intros [H|(d & [] & _)]; exact H].
  - rewrite IH, In_insert_key. split.
    + intros [[->|H]|(x & Hx & ->)]; eauto.
    + intros [H|(x & [<-|Hx] & ->)]; eauto.
Qed.

(** X13. When no directory creation, shell command or upload fails,
    [backup] returns [True]; afterwards the dump key of every configured
    database is in the bucket, and the shell has run, for each database in
    turn, its dump command and then the clearing of the staging
    directory. *)
Theorem backup_uploads_every_database E now w :
  (forall path, makedirs_error E path = None) ->
  (forall command, shell_error E command = None) ->
  (forall d, In d (DATABASE_LIST E) ->
             upload_error E (local_path_of E d now) (s3_key_of E d now) = None) ->
  exists w',
    backup E now w = Return true w'
    /\ (forall d, In d (DATABASE_LIST E) -> In (s3_key_of E d now) (bucket w'))
    /\ shell_log w'
       = fold_left (fun log d => clear_command E :: dump_command E d now :: log)
                   (DATABASE_LIST E) (shell_log w).
Proof.
  intros Hm Hs Hu. exists (after_backup_of E now (DATABASE_LIST E) w).
  split; [|split].
  - rewrite backup_unfold. unfold bind.
    rewrite (backup_loop_run E now _ w Hm Hs Hu). reflexivity.
  - intros d Hd. apply In_fold_insert. right. exists d. auto.
  - reflexivity.
Qed.

Lemma backup_uploads_every_database_witness :
  exists w',
    backup (calm (Date.mkdate 2024 3 15)) "2024-03-15_02:00:00" (stored [])
    = Return true w'
    /\ (forall d, In d [sample_db] ->
                  In (s3_key_of (calm (Date.mkdate 2024 3 15)) d
                        "2024-03-15_02:00:00") (bucket w'))
    /\ shell_log w'
       = fold_left (fun log d =>
                      clear_command (calm (Date.mkdate 2024 3 15))
                      :: dump_command (calm (Date.mkdate 2024 3 15)) d
                           "2024-03-15_02:00:00" :: log)
                   [sample_db] [].
Proof.
  apply (backup_uploads_every_database (calm (Date.mkdate 2024 3 15))
           "2024-03-15_02:00:00" (stored [])).
  - intros path; reflexivity.
  - intros command; reflexivity.
  - intros d _; reflexivity.
Defined.

Lemma remove_all_from_skip old a rest :
  Str.remove_all_from old (String.length a) (a ++ rest)
  = Str.remove_all_from old O rest.
Proof.
  induction a as [|x a IH]; simpl; [reflexivity|exact IH].
Qed.

Lemma remove_all_from_absent old s :
  occurs old s = false -> Str.remove_all_from old O s = s.
Proof.
  induction s as [|a s IH]; intros H; [reflexivity|].
  cbn [occurs] in H. apply orb_false_iff in H as [Hp Hs].
  cbn [Str.remove_all_from]. rewrite Hp, (IH Hs). reflexivity.
Qed.

(** X14. The key [backup] uploads a dump under is the local path without
    the staging directory, that is [/{db_host}/{db_name}/{now}.gz], as long
    as the staging directory name is empty or does not occur in that
    text. *)
Theorem s3_key_is_path_below_staging_dir E d now :
  TEMP_BASE_DIR E = EmptyString
  \/ occurs (TEMP_BASE_DIR E)
       (PATH_TEMPLATE "" (host d) (name d) (now ++ "." ++ "gz")) = false ->
  s3_key_of E d now = PATH_TEMPLATE "" (host d) (name d) (now ++ "." ++ "gz").
Proof.
  unfold s3_key_of, local_path_of, Str.replace_with_empty.
  intros [Hempty|Habsent].
  - rewrite Hempty. reflexivity.
  - destruct (TEMP_BASE_DIR E) as [|c old] eqn:Hold.
    + reflexivity.
    + change (PATH_TEMPLATE (String c old) (host d) (name d) (now ++ "." ++ "gz"))
        with (String c old
              ++ PATH_TEMPLATE "" (host d) (name d) (now ++ "." ++ "gz")).
      set (rest := PATH_TEMPLATE "" (host d) (name d) (now ++ "." ++ "gz")) in *.
      cbn [append Str.remove_all_from].
      change (String c (old ++ rest)) with (String c old ++ rest).
      rewrite prefix_append.
      replace (String.length (String c old) - 1)%nat with (String.length old)
        by (simpl; lia).
      rewrite remove_all_from_skip. apply remove_all_from_absent, Habsent.
Qed.

Lemma s3_key_is_path_below_staging_dir_witness :
  s3_key_of (calm (Date.mkdate 2024 3 15)) sample_db "2024-03-15_02:00:00"
  = PATH_TEMPLATE "" (host sample_db) (name sample_db)
      ("2024-03-15_02:00:00" ++ "." ++ "gz").
Proof.
  apply s3_key_is_path_below_staging_dir. right. vm_compute. reflexivity.
Defined.

(** X15. An upload that fails ends [backup] at once.  When the uploads of
    the databases before [d] succeed and the upload of the dump of [d]
    raises [e], [backup] raises [e]; the last shell command run is the dump
    command of [d], so the staging directory is not cleared after it, and
    the databases after [d] are neither dumped nor uploaded. *)
Theorem failed_upload_stops_backup E now w pre d post e :
  DATABASE_LIST E = (pre ++ d :: post)%list ->
  (forall path, makedirs_error E path = None) ->
  (forall command, shell_error E command = None) ->
  (forall x, In x pre ->
             upload_error E (local_path_of E x now) (s3_key_of E x now) = None) ->
  upload_error E (local_path_of E d now) (s3_key_of E d now) = Some e ->
  backup E now w
  = Raise e
      (mkworld (bucket (after_backup_of E now pre w))
               (dump_command E d now :: shell_log (after_backup_of E now pre w))
               (requests w)).
Proof.
  intros Hdb Hm Hs Hpre Hfail. rewrite backup_unfold, Hdb. unfold bind at 1.
  rewrite (for_each_stops pre post d (backup_one E now) w
             (after_backup_of E now pre w) e
             (mkworld (bucket (after_backup_of E now pre w))
                (dump_command E d now :: shell_log (after_backup_of E now pre w))
                (requests w))).
  - reflexivity.
  - apply backup_loop_run; assumption.
  - unfold backup_one, bind, makedirs, subprocess_run, upload_file, ret.
    rewrite Hm, Hs. cbn [bucket shell_log requests]. rewrite Hfail. reflexivity.
Qed.

Lemma failed_upload_stops_backup_witness :
  backup (upload_and_webhook_fail (Date.mkdate 2024 3 15)) "2024-03-15_02:00:00"
         (stored ["/h/n/2024-03-14_02:00:00.gz"])
  = Raise (S3UploadFailedError "upload failed")
      (mkworld ["/h/n/2024-03-14_02:00:00.gz"]
         [dump_command (upload_and_webhook_fail (Date.mkdate 2024 3 15))
            sample_db "2024-03-15_02:00:00"]
         []).
Proof.
  apply (failed_upload_stops_backup
           (upload_and_webhook_fail (Date.mkdate 2024 3 15))
           "2024-03-15_02:00:00" (stored ["/h/n/2024-03-14_02:00:00.gz"])
           [] sample_db [] (S3UploadFailedError "upload failed")).
  - reflexivity.
  - intros path; reflexivity.
  - intros command; reflexivity.
  - intros x [].
  - reflexivity.
Defined.

(** ** The webhook *)

Lemma request_accepts url data :
  match Urllib.Request url data with
  | inl _ => Urllib.accepts url = false
  | inr _ => Urllib.accepts url = true
  end.
Proof.
  unfold Urllib.Request, Urllib.accepts.
  destruct (Urllib.splittag (Urllib.address url)) as [path fragment].
  cbn [fst]. destruct (Urllib.has_type path); reflexivity.
Qed.

(** X16. The handler turns to the webhook only when a phase raised, and
    then once: a run that returns leaves the log of webhook calls as it
    was; a run that raises has added one call to it, no more, when
    [JANDI_API_URL] is an address a request can be built for, and none when
    it is not (it is not set, or has no scheme). *)
Theorem handler_posts_once_on_failure_only E event context w :
  match lambda_handler E event context w with
  | Return _ w' => requests w' = requests w
  | Raise _ w' =>
      if Urllib.accepts (JANDI_API_URL E)
      then exists sent, requests w' = sent :: requests w
      else requests w' = requests w
  end.
Proof.
  assert (Hrep : forall exc w1,
             requests w1 = requests w ->
             match (error_report E "DB 백업관리 실패"
                      [("now", get_now E); ("exc", str_exn exc);
                       ("event", event); ("context", context)] ;;;
                    (raise exc : M response)) w1 with
             | Return _ w' => requests w' = requests w
             | Raise _ w' =>
                 if Urllib.accepts (JANDI_API_URL E)
                 then exists sent, requests w' = sent :: requests w
                 else requests w' = requests w
             end).
  { intros exc w1 Hw1. unfold bind.
    pose proof (error_report_outcome E "DB 백업관리 실패"
                  [("now", get_now E); ("exc", str_exn exc);
                   ("event", event); ("context", context)] w1) as H.
    pose proof (request_accepts (JANDI_API_URL E)
                  (mkreport "DB 백업관리 실패"
                     [("now", get_now E); ("exc", str_exn exc);
                      ("event", event); ("context", context)])) as Ha.
    destruct (Urllib.Request _ _) as [e|sent]; rewrite Ha.
    - rewrite H. exact Hw1.
    - cbv zeta in H. destruct (urlopen E sent); rewrite H; unfold raise;
        exists sent; cbn [requests]; rewrite Hw1; reflexivity. }
  destruct (grows_within_backup E (get_now E) w) as (_ & _ & Hb).
  destruct (backup_outcome E (get_now E) w) as [(w1 & Hbk)|(e & w1 & Hbk)];
    rewrite Hbk in Hb; cbn [final] in Hb.
  - pose proof (prunes_clean_up E (get_now E) w1) as (_ & _ & Hc).
    destruct (clean_up_outcome E (get_now E) w1) as [(w2 & Hcu)|(e & w2 & Hcu)];
      rewrite Hcu in Hc; cbn [final] in Hc.
    + unfold lambda_handler, try_except_else, bind. rewrite Hbk, Hcu.
      unfold ret. congruence.
    + rewrite (handler_on_failure E event context w e w2)
        by (right; exists w1; auto).
      apply Hrep. congruence.
  - rewrite (handler_on_failure E event context w e w1) by (left; exact Hbk).
    apply Hrep. exact Hb.
Qed.

(** ** Which dumps a prefix lists *)

Lemma append_inv_head (a x y : string) : a ++ x = a ++ y -> x = y.
Proof.
  induction a as [|c a IH]; simpl; intros H; [exact H|].
  injection H as H. apply IH, H.
Qed.

Lemma listed_own_file d p file :
  listed d p (PATH_TEMPLATE "" (host d) (name d) file) = Str.startswith p file.
Proof.
  destruct (Str.startswith p file) eqn:Hs; [apply listed_file, Hs|].
  destruct (listed d p _) eqn:Hl; [|reflexivity].
  apply listed_iff in Hl as (f & Hk & Hp).
  unfold PATH_TEMPLATE in Hk. cbn [append] in Hk. injection Hk as Hk.
  apply append_inv_head in Hk. cbn [append] in Hk. injection Hk as Hk.
  apply append_inv_head in Hk. cbn [append] in Hk. injection Hk as Hk.
  subst f. congruence.
Qed.

Lemma prefix_same_length (p q rest : string) :
  String.length p = String.length q ->
  String.prefix p (q ++ rest) = true -> p = q.
Proof.
  revert q. induction p as [|c p IH]; intros [|c' q] Hlen; simpl; try discriminate.
  - reflexivity.
  - destruct (Ascii.ascii_dec c c') as [->|]; [|discriminate].
    intros H. f_equal. apply IH; [now injection Hlen|exact H].
Qed.

Lemma length_pad2 n : String.length (Strftime.pad2 n) = 2%nat.
Proof. reflexivity. Qed.

Lemma length_fmt_Y y : 1000 <= y <= 9999 -> String.length (Strftime.fmt_Y y) = 4%nat.
Proof. intros H. rewrite (fmt_Y_digits y H). reflexivity. Qed.

Lemma length_date_Ym_ d :
  1000 <= Date.year d <= 9999 -> String.length (Strftime.date_Ym_ d) = 8%nat.
Proof.
  intros H. unfold Strftime.date_Ym_.
  rewrite !length_append, length_fmt_Y, length_pad2 by exact H. reflexivity.
Qed.

Lemma length_date_Ymd d :
  1000 <= Date.year d <= 9999 -> String.length (Strftime.date_Ymd d) = 10%nat.
Proof.
  intros H. rewrite date_Ymd_starts_with_month, length_append, length_date_Ym_,
    length_pad2 by exact H. reflexivity.
Qed.

Lemma date_Ymd_inj a d :
  Date.valid a = true -> Date.valid d = true ->
  1000 <= Date.year a -> 1000 <= Date.year d ->
  Strftime.date_Ymd a = Strftime.date_Ymd d -> a = d.
Proof.
  intros Ha Hd Hya Hyd Heq.
  pose proof (strptime_date_strftime a Ha Hya) as Pa.
  rewrite Heq, (strptime_date_strftime d Hd Hyd) in Pa. congruence.
Qed.

Lemma first_of_month_valid d :
  Date.valid d = true ->
  Date.valid (Date.mkdate (Date.year d) (Date.month d) 1) = true.
Proof.
  intros Hv. destruct (valid_bounds d Hv) as (Hy & Hm & _).
  unfold Date.valid, Date.MINYEAR, Date.MAXYEAR. cbn [Date.year Date.month Date.day].
  repeat (apply andb_true_iff; split); try (apply Z.leb_le; lia).
  apply Z.leb_le. unfold Date.days_in_month.
  destruct ((Date.month d =? 2) && Date.is_leap (Date.year d)); [lia|].
  destruct d as [y m dd]. cbn [Date.year Date.month] in *.
  clear -Hm. split_range m 1 12; vm_compute; discriminate.
Qed.

Lemma date_Ym__inj a d :
  Date.valid a = true -> Date.valid d = true ->
  1000 <= Date.year a -> 1000 <= Date.year d ->
  Strftime.date_Ym_ a = Strftime.date_Ym_ d ->
  Date.year a = Date.year d /\ Date.month a = Date.month d.
Proof.
  intros Ha Hd Hya Hyd Heq.
  assert (H : Date.mkdate (Date.year a) (Date.month a) 1
              = Date.mkdate (Date.year d) (Date.month d) 1).
  { apply date_Ymd_inj; try (apply first_of_month_valid; assumption);
      try assumption.
    rewrite !date_Ymd_starts_with_month. unfold Strftime.date_Ym_ in *.
    cbn [Date.year Date.month Date.day]. rewrite Heq. reflexivity. }
  injection H as H1 H2. auto.
Qed.

(** X17. What the prefixes select among the dumps of a database.  For dates
    that exist, from year 1000 on: the day prefix of the date [a] lists the
    dump key of the date [d] exactly when [d] is [a], and the month prefix
    of [a] lists it exactly when [d] is in the year and month of [a]. *)
Theorem prefixes_select_dumps_by_date database a d t :
  Date.valid a = true -> Date.valid d = true ->
  1000 <= Date.year a -> 1000 <= Date.year d ->
  (listed database (Strftime.date_Ymd a)
     (PATH_TEMPLATE "" (host database) (name database)
        (Strftime.datetime_Ymd_HMS d t ++ "." ++ "gz")) = true
   <-> d = a)
  /\ (listed database (Strftime.date_Ym_ a)
        (PATH_TEMPLATE "" (host database) (name database)
           (Strftime.datetime_Ymd_HMS d t ++ "." ++ "gz")) = true
      <-> Date.year d = Date.year a /\ Date.month d = Date.month a).
Proof.
  intros Ha Hd Hya Hyd.
  destruct (valid_bounds a Ha) as (Hba & _). destruct (valid_bounds d Hd) as (Hbd & _).
  rewrite !listed_own_file. unfold Str.startswith, Strftime.datetime_Ymd_HMS.
  split; split.
  - rewrite append_assoc. intros H.
    apply prefix_same_length in H;
      [|rewrite !length_date_Ymd by lia; reflexivity].
    symmetry. apply date_Ymd_inj; assumption.
  - intros ->. rewrite append_assoc. apply prefix_append.
  - rewrite date_Ymd_starts_with_month, !append_assoc. intros H.
    apply prefix_same_length in H;
      [|rewrite !length_date_Ym_ by lia; reflexivity].
    destruct (date_Ym__inj a d Ha Hd Hya Hyd H). auto.
  - intros [Hy Hm]. rewrite date_Ymd_starts_with_month, !append_assoc.
    unfold Strftime.date_Ym_ at 1. rewrite <- Hy, <- Hm.
    apply prefix_append.
Qed.

Lemma prefixes_select_dumps_by_date_witness :
  (listed sample_db (Strftime.date_Ymd (Date.mkdate 2024 3 1))
     (PATH_TEMPLATE "" (host sample_db) (name sample_db)
        (Strftime.datetime_Ymd_HMS (Date.mkdate 2024 3 28)
           (Strftime.mkclock 2 0 0) ++ "." ++ "gz")) = true
   <-> Date.mkdate 2024 3 28 = Date.mkdate 2024 3 1)
  /\ (listed sample_db (Strftime.date_Ym_ (Date.mkdate 2024 3 1))
        (PATH_TEMPLATE "" (host sample_db) (name sample_db)
           (Strftime.datetime_Ymd_HMS (Date.mkdate 2024 3 28)
              (Strftime.mkclock 2 0 0) ++ "." ++ "gz")) = true
      <-> Date.year (Date.mkdate 2024 3 28) = Date.year (Date.mkdate 2024 3 1)
          /\ Date.month (Date.mkdate 2024 3 28) = Date.month (Date.mkdate 2024 3 1)).
Proof.
  apply prefixes_select_dumps_by_date.
  - reflexivity.
  - reflexivity.
  - simpl; lia.
  - simpl; lia.
Defined.
